(** * InsightFlow-AI: the query-generation and self-healing pipeline

    A shallow embedding of
      - [backend/app/services/llm_service.py]   (SQL generation, repair,
        result interpretation),
      - [backend/app/services/duckdb_manager.py] (the query executor),
      - [backend/app/api/chat.py]                (the [query_data] handler),
    followed by the properties of the pipeline.

    Around the pipeline, the embedding also covers
      - the schema generation of [llm_service.py] and the ingestion and
        schema inspection of [duckdb_manager.py],
      - [backend/app/services/file_handler.py]  (validation and storage of
        uploads) with the defaults of [backend/app/config.py],
      - [backend/app/api/llm_config.py]         (creation and lookup of
        model configurations),
      - the chat lookup and deletion of [chat.py], and
      - [backend/app/api/projects.py]           (the [create_project]
        handler).

    Conventions.  Python [str] values are Rocq [string]s whose characters
    are read as code points below 256.  Python values of unknown type
    (JSON documents, result cells) live in the universal type [PyVal].
    The language model, the analytical engine and the [json] module are
    external collaborators, gathered in the record [Externals], as is
    what the code leaves to the relational store and to the response
    model: the order of rows with equal timestamps, the text kept for a
    value that is not a string, and the texts of their errors. *)

From Stdlib Require Import String Ascii List Bool Arith Lia ZArith.
From Stdlib Require Import Numbers.DecimalString.
From Stdlib Require Import Numbers.DecimalNat.
Import ListNotations.
Set Warnings "-register-all".
Local Open Scope list_scope.
Local Open Scope string_scope.

(** ** Python string primitives *)

Module PyStr.

(** The newline character and the double quote, which cannot be typed
    inside a literal. *)
Definition nl : string := String "010"%char EmptyString.
Definition dq : string := String "034"%char EmptyString.

(** [str.isspace] on one code point below 256: TAB, LF, VT, FF, CR, the
    information separators FS, GS, RS, US, SPACE, NEL and NBSP. *)
Definition isspace (c : ascii) : bool :=
  let n := nat_of_ascii c in
  (((9 <=? n) && (n <=? 13)) || ((28 <=? n) && (n <=? 32))
   || (n =? 133) || (n =? 160))%nat.

(** [s.lstrip()] *)
Fixpoint lstrip (s : string) : string :=
  match s with
  | EmptyString => EmptyString
  | String c rest => if isspace c then lstrip rest else s
  end.

(** [s.rstrip()] *)
Fixpoint rstrip (s : string) : string :=
  match s with
  | EmptyString => EmptyString
  | String c rest =>
      match rstrip rest with
      | EmptyString => if isspace c then EmptyString else String c EmptyString
      | kept => String c kept
      end
  end.

(** [s.strip()] *)
Definition strip (s : string) : string := rstrip (lstrip s).

(** [s.startswith(p)] *)
Definition startswith (s p : string) : bool := prefix p s.

(** [p in s] *)
Fixpoint contains (p s : string) : bool :=
  prefix p s ||
  match s with
  | EmptyString => false
  | String _ rest => contains p rest
  end.

(** Scanning loop of [str.replace] for a non-empty pattern: [skip] counts
    the characters of a match that are still to be passed over. *)
Fixpoint replace_scan (old new : string) (skip : nat) (s : string) : string :=
  match s with
  | EmptyString => EmptyString
  | String c rest =>
      match skip with
      | S k => replace_scan old new k rest
      | O =>
          if prefix old s
          then new ++ replace_scan old new (String.length old - 1) rest
          else String c (replace_scan old new 0 rest)
      end
  end.

(** With an empty pattern Python inserts [new] around every character. *)
Fixpoint intersperse (new s : string) : string :=
  match s with
  | EmptyString => new
  | String c rest => new ++ String c (intersperse new rest)
  end.

(** [s.replace(old, new)]: every non-overlapping occurrence, leftmost
    first. *)
Definition replace (s old new : string) : string :=
  match old with
  | EmptyString => intersperse new s
  | _ => replace_scan old new 0 s
  end.

(** [str(n)] for a length. *)
Definition str_of_nat (n : nat) : string :=
  NilEmpty.string_of_uint (Nat.to_uint n).

(** ["sep".join(parts)] *)
Fixpoint join (sep : string) (parts : list string) : string :=
  match parts with
  | [] => EmptyString
  | [p] => p
  | p :: ps => p ++ sep ++ join sep ps
  end.

End PyStr.

(** ** Fence stripping shared by [text_to_sql] and [fix_sql_error] *)

Definition fence : string := "```".
Definition fence_sql : string := "```sql".

(** [llm_service.py], lines 122-128 and 163-169: the statements applied to
    [response.content]. *)
Definition clean_sql (content : string) : string :=
  let sql_query := PyStr.strip content in
  if PyStr.startswith sql_query fence_sql then
    PyStr.strip (PyStr.replace (PyStr.replace sql_query fence_sql "") fence "")
  else if PyStr.startswith sql_query fence then
    PyStr.strip (PyStr.replace sql_query fence "")
  else sql_query.

(** The pattern without its last character. *)
Fixpoint but_last (s : string) : string :=
  match s with
  | EmptyString => EmptyString
  | String c rest =>
      match rest with
      | EmptyString => EmptyString
      | _ => String c (but_last rest)
      end
  end.

(** [parts] are the parts into which the occurrences of [old] that a scan
    from the left finds cut a string, what [s.split(old)] returns: no
    occurrence starts in a part that an occurrence follows, not even one
    that runs into that occurrence, and the last part holds none. *)
Fixpoint split_at (old : string) (parts : list string) : bool :=
  match parts with
  | [] => false
  | part :: rest =>
      match rest with
      | [] => negb (PyStr.contains old part)
      | _ => negb (PyStr.contains old (part ++ but_last old))
             && split_at old rest
      end
  end.

(** The parts of a reply around its fences, as the two branches of
    [clean_sql] see them.  A reply that opens with the tagged fence is
    cut at the tagged fences first, and what is left is cut at the
    fences; any other reply is cut at the fences only. *)
Definition fence_parts (stripped : string) (parts : list string) : Prop :=
  split_at fence parts = true /\ stripped = PyStr.join fence parts.

Definition tagged_fence_parts (stripped : string) (parts : list string)
  : Prop :=
  exists tagged,
    split_at fence_sql tagged = true
    /\ stripped = PyStr.join fence_sql tagged
    /\ fence_parts (PyStr.join "" tagged) parts.

(** ** Python values, exceptions and results *)

(** A dynamically typed value: what [json.loads] returns, what a result
    cell holds.  [PObject] stands for any other object (a timestamp, a
    decimal), known only by its printed form. *)
Inductive PyVal : Type :=
| PNone
| PBool (b : bool)
| PInt (z : Z)
| PFloat (repr : string)
| PStr (s : string)
| PList (items : list PyVal)
| PDict (items : list (string * PyVal))
| PObject (repr : string).

(** A [dict] with string keys, in insertion order. *)
Definition dict : Type := list (string * PyVal).

(** [d.get(key, default)] *)
Fixpoint dict_get (d : dict) (key : string) (default : PyVal) : PyVal :=
  match d with
  | [] => default
  | (k, v) :: rest => if String.eqb k key then v else dict_get rest key default
  end.

(** [d[key] = v]: an existing key keeps its place and takes the new value. *)
Fixpoint dict_set (d : dict) (key : string) (v : PyVal) : dict :=
  match d with
  | [] => [(key, v)]
  | (k, old) :: rest =>
      if String.eqb k key then (k, v) :: rest else (k, old) :: dict_set rest key v
  end.

(** [dict(zip(keys, values))] *)
Definition dict_of_zip (keys : list string) (values : list PyVal) : dict :=
  fold_left (fun d kv => dict_set d (fst kv) (snd kv)) (combine keys values) [].

(** Instances of Python's [Exception].  [HTTPException] is FastAPI's;
    [JSONDecodeError] is the one class [interpret_results] tells apart. *)
Inductive exn : Type :=
| HTTPException (status_code : nat) (detail : string)
| JSONDecodeError (msg : string)
| ValueError (msg : string)
| AttributeError (msg : string)
| OtherError (cls msg : string).

(** The outcome of evaluating a Python expression. *)
Inductive result (A : Type) : Type :=
| Ret (a : A)
| Raise (e : exn).
Arguments Ret {A} a.
Arguments Raise {A} e.

(** ** Records of the relational store ([app/models]) *)

Record User : Type := { user_id : nat }.

Record Chat : Type := {
  chat_id : nat;
  chat_user_id : nat;
  chat_project_id : nat
}.

Record Project : Type := {
  project_id : nat;
  duckdb_file_path : string;
  schema_json : option string
}.

Record LLMConfig : Type := {
  cfg_user_id : nat;
  provider : string;
  encrypted_api_key : string;
  is_active : Z
}.

(** [models/message.py].  [content] is the Python value the handler puts
    in the attribute; the nullable columns are options. *)
Record Message : Type := {
  msg_chat_id : nat;
  role : string;
  content : PyVal;
  sql_query : option string;
  query_result : option string;
  error_message : option string
}.

Record Database : Type := {
  chats : list Chat;
  projects : list Project;
  llm_configs : list LLMConfig;
  messages : list Message   (* in order of creation *)
}.

(** [schemas/chat.py] *)
Record ChatQueryRequest : Type := {
  req_chat_id : nat;
  req_query : string
}.

Record ChatQueryResponse : Type := {
  message : Message;
  data : option (list dict);
  visualization_type : PyVal   (* [PNone] is Python's [None] *)
}.

(** ** Values exchanged with the services *)

(** The dictionaries returned by [text_to_sql] and [fix_sql_error]:
    [{"success": True, "sql": ..}] or [{"success": False, "error": ..}]. *)
Inductive SqlResult : Type :=
| SqlSuccess (sql : string)
| SqlFailure (error : string).

(** The dictionary returned by [execute_query]. *)
Inductive QueryOutcome : Type :=
| QuerySuccess (data : list dict) (columns : list string) (row_count : nat)
| QueryFailure (error : string) (sql : string).

(** The dictionary returned by [interpret_results]. *)
Inductive InterpretResult : Type :=
| InterpretSuccess (interpretation : PyVal)
| InterpretFailure (error : string).

(** A pandas frame as [fetchdf] hands it over. *)
Record DataFrame : Type := {
  df_columns : list string;
  df_rows : list (list PyVal)
}.

(** [result.to_dict('records')] *)
Definition to_dict_records (df : DataFrame) : list dict :=
  map (dict_of_zip (df_columns df)) (df_rows df).

(** LangChain chat messages and the three chat models of
    [_initialize_llm] (temperature 0 in each). *)
Inductive ChatMessage : Type :=
| SystemMessage (content : string)
| HumanMessage (content : string).

Inductive ChatModel : Type :=
| ChatOpenAI (model api_key : string)
| ChatGoogleGenerativeAI (model google_api_key : string)
| ChatAnthropic (model api_key : string).

(** [LLMService._initialize_llm] *)
Definition initialize_llm (provider api_key : string) : result ChatModel :=
  if String.eqb provider "openai" then Ret (ChatOpenAI "gpt-4o" api_key)
  else if String.eqb provider "google" then
    Ret (ChatGoogleGenerativeAI "gemini-1.5-pro" api_key)
  else if String.eqb provider "anthropic" then
    Ret (ChatAnthropic "claude-3-5-sonnet-20241022" api_key)
  else Raise (ValueError ("Unsupported provider: " ++ provider)).

(** [DuckDBManager]: the path and the connection, [None] until [__enter__]. *)
Record DuckDBManager : Type := {
  db_path : string;
  conn : option string   (* the store the open connection is bound to *)
}.

(** ** The collaborators outside the repository

    [E] is the state of the outside world (the model provider, the
    analytical stores).  Every call may raise. *)
Record Externals (E : Type) : Type := {
  (* str(e) *)
  str_exn : exn -> string;
  (* str(v) for a value that is not a string, as an f-string prints it *)
  str_val : PyVal -> string;
  (* json.loads(text) *)
  json_loads : string -> result PyVal;
  (* json.dumps(v, indent=..) *)
  json_dumps : option nat -> PyVal -> result string;
  (* cipher_suite.decrypt(key.encode()).decode() *)
  fernet_decrypt : string -> result string;
  (* llm.invoke(messages).content *)
  llm_invoke : ChatModel -> list ChatMessage -> E -> result string * E;
  (* duckdb.connect(path) *)
  duckdb_connect : string -> E -> result unit * E;
  (* conn.execute(sql).fetchdf() on the connection bound to a store *)
  conn_execute : string -> string -> E -> result DataFrame * E;
  (* conn.close() *)
  conn_close : string -> E -> E;
  (* the relational store: the text it keeps for a value other than a
     string or None bound to a Text column, or the error of the flush *)
  db_text : PyVal -> result string;
  (* the relational store: rows as ORDER BY created_at DESC returns them;
     rows with equal timestamps come in an order of the engine's choice *)
  newest_first : list Message -> list Message;
  (* the relational store: the text of the IntegrityError that a flush
     raises for None in the named column, declared nullable=False *)
  not_null_text : string -> string;
  (* the relational store: the text of the PendingRollbackError that
     commit raises in a session that a failed flush with the given error
     left inactive *)
  pending_rollback_text : exn -> string;
  (* pydantic: the text of the ValidationError that a model raises for a
     value of the named field that is not of the declared type *)
  validation_text : string -> PyVal -> string
}.
Arguments str_exn {E} _ _.
Arguments str_val {E} _ _.
Arguments json_loads {E} _ _.
Arguments json_dumps {E} _ _ _.
Arguments fernet_decrypt {E} _ _.
Arguments llm_invoke {E} _ _ _ _.
Arguments duckdb_connect {E} _ _ _.
Arguments conn_execute {E} _ _ _ _.
Arguments conn_close {E} _ _ _.
Arguments db_text {E} _ _.
Arguments newest_first {E} _ _.
Arguments not_null_text {E} _ _.
Arguments pending_rollback_text {E} _ _.
Arguments validation_text {E} _ _ _.

(** The three errors of the libraries that the handler can meet. *)
Definition not_null_violation {E} (X : Externals E) (column : string) : exn :=
  OtherError "IntegrityError" (not_null_text X column).

Definition pending_rollback {E} (X : Externals E) (e : exn) : exn :=
  OtherError "PendingRollbackError" (pending_rollback_text X e).

Definition validation_error {E} (X : Externals E) (field : string)
    (v : PyVal) : exn :=
  OtherError "ValidationError" (validation_text X field v).

(** ** State and exceptions

    One request runs against a [World]: the relational store, the outside
    world, and a ghost [trace] recording, in order, what the handler did.
    A raised exception keeps every effect that preceded it, which is why
    the state is returned next to the [result] and not inside it. *)

Inductive Event : Type :=
| EvStore (m : Message)          (* db.add(m); db.commit(), once committed *)
| EvTextToSql (user_query : string)          (* llm_service.text_to_sql *)
| EvFixSql (original_sql error : string)     (* llm_service.fix_sql_error *)
| EvInterpret (sql : string) (rows : nat)    (* llm_service.interpret_results *)
| EvConnect (path : string)                  (* DuckDBManager.__enter__ *)
| EvExecute (sql : string)                   (* duck_db.execute_query *)
| EvClose (path : string).                   (* DuckDBManager.__exit__ *)

Record World (E : Type) : Type := {
  db : Database;
  ext : E;
  trace : list Event
}.
Arguments db {E} _.
Arguments ext {E} _.
Arguments trace {E} _.
Arguments Build_World {E} _ _ _.

Definition M (E A : Type) : Type := World E -> result A * World E.

Definition ret {E A} (a : A) : M E A := fun w => (Ret a, w).

Definition raise {E A} (e : exn) : M E A := fun w => (Raise e, w).

Definition bind {E A B} (m : M E A) (k : A -> M E B) : M E B :=
  fun w =>
    match m w with
    | (Ret a, w') => k a w'
    | (Raise e, w') => (Raise e, w')
    end.

(** [try: body  except Exception as e: handler(e)] *)
Definition try_except {E A} (body : M E A) (handler : exn -> M E A) : M E A :=
  fun w =>
    match body w with
    | (Ret a, w') => (Ret a, w')
    | (Raise e, w') => handler e w'
    end.

(** A pure expression that may raise. *)
Definition lift {E A} (r : result A) : M E A := fun w => (r, w).

(** A call into the outside world. *)
Definition external {E A} (f : E -> result A * E) : M E A :=
  fun w =>
    let (r, e') := f (ext w) in
    (r, Build_World (db w) e' (trace w)).

Definition log {E} (ev : Event) : M E unit :=
  fun w => (Ret tt, Build_World (db w) (ext w) (trace w ++ [ev])%list).

Declare Scope py_scope.
Delimit Scope py_scope with py.
Notation "x <- m ;; k" := (bind m (fun x => k))
  (at level 61, m at next level, right associativity) : py_scope.
Notation "m ;;; k" := (bind m (fun _ => k))
  (at level 61, right associativity) : py_scope.
Local Open Scope py_scope.

(** *** The relational store *)

(** [db.query(Chat).filter(Chat.id == id, Chat.user_id == uid).first()] *)
Definition first_chat {E} (id uid : nat) : M E (option Chat) :=
  fun w =>
    (Ret (find (fun c => Nat.eqb (chat_id c) id && Nat.eqb (chat_user_id c) uid)
               (chats (db w))), w).

(** [db.query(Project).filter(Project.id == id).first()] *)
Definition first_project {E} (id : nat) : M E (option Project) :=
  fun w => (Ret (find (fun p => Nat.eqb (project_id p) id) (projects (db w))), w).

(** [db.query(LLMConfig).filter(user_id == uid, is_active == 1).first()] *)
Definition first_active_config {E} (uid : nat) : M E (option LLMConfig) :=
  fun w =>
    (Ret (find (fun c => Nat.eqb (cfg_user_id c) uid && Z.eqb (is_active c) 1)
               (llm_configs (db w))), w).

(** [db.query(Message).filter(chat_id == id)
      .order_by(created_at.desc()).limit(5).all()].  The rows of the chat
    are sorted on [created_at] alone, so the order of rows with equal
    timestamps is the engine's. *)
Definition select_last_messages {E} (X : Externals E) (d : Database)
    (id : nat) : list Message :=
  firstn 5
    (newest_first X
       (filter (fun m => Nat.eqb (msg_chat_id m) id) (messages d))).

Definition last_messages {E} (X : Externals E) (id : nat)
  : M E (list Message) :=
  fun w => (Ret (select_last_messages X (db w) id), w).

(** The table [messages] with one more row. *)
Definition append_message (d : Database) (m : Message) : Database :=
  {| chats := chats d; projects := projects d;
     llm_configs := llm_configs d; messages := (messages d ++ [m])%list |}.

(** The row [m] with another [content]. *)
Definition with_content (m : Message) (v : PyVal) : Message :=
  {| msg_chat_id := msg_chat_id m; role := role m; content := v;
     sql_query := sql_query m; query_result := query_result m;
     error_message := error_message m |}.

(** The row the store keeps for a new message, or the error of the flush.
    [content] is a [Text] column declared [nullable=False]
    ([models/message.py]): [None] is refused, a string is kept as it is,
    and what becomes of another value is the driver's business. *)
Definition flush {E} (X : Externals E) (m : Message) : result Message :=
  match content m with
  | PStr _ => Ret m
  | PNone => Raise (not_null_violation X "messages.content")
  | other =>
      match db_text X other with
      | Ret text => Ret (with_content m (PStr text))
      | Raise e => Raise e
      end
  end.

(** [db.add(m); db.commit(); db.refresh(m)]: the row as the store keeps
    it.  When the flush fails nothing is stored and its error is raised;
    the session is inactive from then on. *)
Definition add_commit {E} (X : Externals E) (m : Message) : M E Message :=
  fun w =>
    match flush X m with
    | Ret row =>
        (Ret row,
         Build_World (append_message (db w) row) (ext w)
           (trace w ++ [EvStore row])%list)
    | Raise e => (Raise e, w)
    end.

(** The session of a request, which a failed flush leaves inactive: every
    later [commit] raises until the session is rolled back, which the
    handler never does. *)
Inductive SessionState : Type := Active | Inactive.

(** How a block that commits ends: normally, or with the error of a failed
    flush.  Every other exception is raised as usual and leaves the
    session active. *)
Inductive Ending (A : Type) : Type :=
| Done (a : A)
| FlushError (e : exn).
Arguments Done {A} a.
Arguments FlushError {A} e.

(** A commit inside such a block. *)
Definition flushing {E A} (m : M E A) : M E (Ending A) :=
  fun w =>
    match m w with
    | (Ret a, w') => (Ret (Done a), w')
    | (Raise e, w') => (Ret (FlushError e), w')
    end.

(** [try: body  except Exception as e: handler(e)], the handler being told
    in which state the body left the session. *)
Definition try_except_session {E A} (body : M E (Ending A))
    (handler : SessionState -> exn -> M E A) : M E A :=
  fun w =>
    match body w with
    | (Ret (Done a), w') => (Ret a, w')
    | (Ret (FlushError e), w') => handler Inactive e w'
    | (Raise e, w') => handler Active e w'
    end.

(** ** The services *)

Section Services.

Context {E : Type} (X : Externals E).

(** What an f-string prints for a value. *)
Definition fmt (v : PyVal) : string :=
  match v with
  | PStr s => s
  | other => str_val X other
  end.

(** [chat_history[-5:]] *)
Definition last5 {A} (l : list A) : list A := skipn (length l - 5) l.

(** *** [LLMService] ([services/llm_service.py]) *)

(** [LLMService.__init__]: the service is its chat model. *)
Definition LLMService (provider api_key : string) : result ChatModel :=
  initialize_llm provider api_key.

(** The history block of the generation prompt; a history entry is a
    (role, content) pair. *)
Definition history_context (chat_history : list (string * PyVal)) : string :=
  match chat_history with
  | [] => ""
  | _ =>
      fold_left
        (fun acc msg => acc ++ fst msg ++ ": " ++ fmt (snd msg) ++ PyStr.nl)
        (last5 chat_history)
        (PyStr.nl ++ PyStr.nl ++ "Previous conversation:" ++ PyStr.nl)
  end.

Definition sql_prompt (schema_context history user_query : string) : string :=
  PyStr.join PyStr.nl
    [ "You are a SQL expert. Convert the user's natural language question into a DuckDB SQL query.";
      "";
      "Database Schema:";
      schema_context;
      history;
      "";
      "User Question: " ++ user_query;
      "";
      "Rules:";
      "1. Return ONLY the SQL query, nothing else";
      "2. Use DuckDB SQL syntax";
      "3. Include appropriate WHERE clauses, JOINs, and aggregations as needed";
      "4. If the question asks for visualization data, structure the query accordingly";
      "5. Use LIMIT when appropriate to avoid huge result sets";
      "6. For date/time operations, use DuckDB's date functions";
      "";
      "Return ONLY the SQL query, no explanations or markdown." ].

Definition sql_messages (schema_context history user_query : string)
  : list ChatMessage :=
  [ SystemMessage "You are a SQL expert specialized in DuckDB queries.";
    HumanMessage (sql_prompt schema_context history user_query) ].

(** The [try] block shared by [text_to_sql] and [fix_sql_error]: invoke
    the model, strip the content, remove the fences; any exception becomes
    a failure dictionary. *)
Definition invoke_for_sql (llm : ChatModel) (msgs : list ChatMessage)
  : M E SqlResult :=
  try_except
    (content <- external (llm_invoke X llm msgs) ;;
     ret (SqlSuccess (clean_sql content)))
    (fun e => ret (SqlFailure (str_exn X e))).

(** [LLMService.text_to_sql] *)
Definition text_to_sql (llm : ChatModel) (user_query : string)
    (schema : PyVal) (chat_history : list (string * PyVal)) : M E SqlResult :=
  log (EvTextToSql user_query) ;;;
  schema_context <- lift (json_dumps X (Some 2) schema) ;;
  invoke_for_sql llm
    (sql_messages schema_context (history_context chat_history) user_query).

Definition fix_prompt (schema_context original_sql error_message : string)
  : string :=
  PyStr.join PyStr.nl
    [ "The following SQL query failed with an error. Fix it.";
      "";
      "Database Schema:";
      schema_context;
      "";
      "Failed SQL Query:";
      original_sql;
      "";
      "Error Message:";
      error_message;
      "";
      "Return ONLY the corrected SQL query, nothing else." ].

Definition fix_messages (schema_context original_sql error_message : string)
  : list ChatMessage :=
  [ SystemMessage "You are a SQL debugging expert.";
    HumanMessage (fix_prompt schema_context original_sql error_message) ].

(** [LLMService.fix_sql_error] *)
Definition fix_sql_error (llm : ChatModel) (original_sql error_message : string)
    (schema : PyVal) : M E SqlResult :=
  log (EvFixSql original_sql error_message) ;;;
  schema_context <- lift (json_dumps X (Some 2) schema) ;;
  invoke_for_sql llm (fix_messages schema_context original_sql error_message).

Definition interpret_prompt (user_query sql results_preview : string)
    (total : nat) : string :=
  PyStr.join PyStr.nl
    [ "Interpret the following query results for the user.";
      "";
      "User's Question: " ++ user_query;
      "";
      "SQL Query Used:";
      sql;
      "";
      "Query Results (first 10 rows):";
      results_preview;
      "";
      "Total Rows: " ++ PyStr.str_of_nat total;
      "";
      "Provide:";
      "1. A concise natural language answer to the user's question";
      "2. Key insights from the data";
      "3. Recommended visualization type (bar, line, pie, scatter, table) based on the data";
      "";
      "Return a JSON object with:";
      "{";
      "    " ++ PyStr.dq ++ "answer" ++ PyStr.dq ++ ": "
        ++ PyStr.dq ++ "Natural language answer" ++ PyStr.dq ++ ",";
      "    " ++ PyStr.dq ++ "insights" ++ PyStr.dq ++ ": ["
        ++ PyStr.dq ++ "insight 1" ++ PyStr.dq ++ ", "
        ++ PyStr.dq ++ "insight 2" ++ PyStr.dq ++ "],";
      "    " ++ PyStr.dq ++ "visualization_type" ++ PyStr.dq ++ ": "
        ++ PyStr.dq ++ "bar|line|pie|scatter|table" ++ PyStr.dq;
      "}";
      "";
      "Return ONLY valid JSON." ].

Definition interpret_messages (user_query sql results_preview : string)
    (total : nat) : list ChatMessage :=
  [ SystemMessage "You are a data analyst expert at interpreting query results.";
    HumanMessage (interpret_prompt user_query sql results_preview total) ].

(** The canned interpretation of the [JSONDecodeError] branch. *)
Definition fallback_interpretation (row_count : nat) : PyVal :=
  PDict [ ("answer", PStr ("Found " ++ PyStr.str_of_nat row_count ++ " results."));
          ("insights", PList []);
          ("visualization_type", PStr "table") ].

(** A list of row dictionaries as one Python value. *)
Definition rows_val (rows : list dict) : PyVal := PList (map PDict rows).

(** [LLMService.interpret_results] *)
Definition interpret_results (llm : ChatModel) (user_query sql : string)
    (query_results : list dict) : M E InterpretResult :=
  log (EvInterpret sql (length query_results)) ;;;
  results_preview <-
    lift (json_dumps X (Some 2) (rows_val (firstn 10 query_results))) ;;
  try_except
    (raw <- external
       (llm_invoke X llm
          (interpret_messages user_query sql results_preview
             (length query_results))) ;;
     interpretation <- lift (json_loads X (PyStr.strip raw)) ;;
     ret (InterpretSuccess interpretation))
    (fun e =>
       match e with
       | JSONDecodeError _ =>
           ret (InterpretSuccess
                  (fallback_interpretation (length query_results)))
       | _ => ret (InterpretFailure (str_exn X e))
       end).

(** *** [DuckDBManager] ([services/duckdb_manager.py]) *)

(** [DuckDBManager.execute_query] *)
Definition execute_query (self : DuckDBManager) (sql : string)
  : M E QueryOutcome :=
  log (EvExecute sql) ;;;
  try_except
    (frame <-
       match conn self with
       | Some store => external (conn_execute X store sql)
       | None =>
           raise (AttributeError "'NoneType' object has no attribute 'execute'")
       end ;;
     ret (QuerySuccess (to_dict_records frame) (df_columns frame)
            (length (df_rows frame))))
    (fun e => ret (QueryFailure (str_exn X e) sql)).

(** [DuckDBManager.__enter__] *)
Definition enter (self : DuckDBManager) : M E DuckDBManager :=
  log (EvConnect (db_path self)) ;;;
  external (duckdb_connect X (db_path self)) ;;;
  ret {| db_path := db_path self; conn := Some (db_path self) |}.

(** [DuckDBManager.__exit__] *)
Definition exit (self : DuckDBManager) : M E unit :=
  match conn self with
  | Some store =>
      log (EvClose store) ;;;
      external (fun e => (Ret tt, conn_close X store e))
  | None => ret tt
  end.

(** [with DuckDBManager(path) as duck_db: body]: [__exit__] runs on every
    way out of the body and lets an exception through. *)
Definition with_duckdb {A} (path : string) (body : DuckDBManager -> M E A)
  : M E A :=
  duck_db <- enter {| db_path := path; conn := None |} ;;
  fun w =>
    let (r, w') := body duck_db w in
    (r, snd (exit duck_db w')).

(** ** The handler ([api/chat.py], [query_data]) *)

(** [type(v).__name__], for the text of an [AttributeError]. *)
Definition type_name (v : PyVal) : string :=
  match v with
  | PNone => "NoneType"
  | PBool _ => "bool"
  | PInt _ => "int"
  | PFloat _ => "float"
  | PStr _ => "str"
  | PList _ => "list"
  | PDict _ => "dict"
  | PObject _ => "object"
  end.

(** [v.get(key, default)]: only a dictionary has the method. *)
Definition py_get (v : PyVal) (key : string) (default : PyVal) : result PyVal :=
  match v with
  | PDict d => Ret (dict_get d key default)
  | _ =>
      Raise (AttributeError
               ("'" ++ type_name v ++ "' object has no attribute 'get'"))
  end.

(** [interpret_result.get("interpretation", {})] *)
Definition get_interpretation (r : InterpretResult) : PyVal :=
  match r with
  | InterpretSuccess interpretation => interpretation
  | InterpretFailure _ => PDict []
  end.

(** [json.loads(project.schema_json) if project.schema_json else {}] *)
Definition load_schema (project : option Project) : result PyVal :=
  match project with
  | None =>
      Raise (AttributeError
               "'NoneType' object has no attribute 'schema_json'")
  | Some p =>
      match schema_json p with
      | None | Some EmptyString => Ret (PDict [])
      | Some text => json_loads X text
      end
  end.

(** [project.duckdb_file_path], reached only after [load_schema]. *)
Definition store_path (project : option Project) : result string :=
  match project with
  | None =>
      Raise (AttributeError
               "'NoneType' object has no attribute 'duckdb_file_path'")
  | Some p => Ret (duckdb_file_path p)
  end.

Definition user_turn (chat : Chat) (query : string) : Message :=
  {| msg_chat_id := chat_id chat; role := "user"; content := PStr query;
     sql_query := None; query_result := None; error_message := None |}.

(** The assistant turn of lines 191-197. *)
Definition failed_turn (chat : Chat) (sql error : string) : Message :=
  {| msg_chat_id := chat_id chat; role := "assistant";
     content := PStr ("I encountered an error: " ++ error);
     sql_query := Some sql; query_result := None;
     error_message := Some error |}.

(** The assistant turn of lines 218-224. *)
Definition answer_turn (chat : Chat) (answer : PyVal) (sql serialized : string)
  : Message :=
  {| msg_chat_id := chat_id chat; role := "assistant"; content := answer;
     sql_query := Some sql; query_result := Some serialized;
     error_message := None |}.

(** The assistant turn of lines 237-242. *)
Definition exception_turn (chat : Chat) (e : exn) : Message :=
  {| msg_chat_id := chat_id chat; role := "assistant";
     content := PStr ("An error occurred: " ++ str_exn X e);
     sql_query := None; query_result := None;
     error_message := Some (str_exn X e) |}.

(** Lines 176-187: first execution and, when it fails, one repair and one
    more execution.  Returns the statement last tried and its outcome. *)
Definition execute_with_repair (llm : ChatModel) (duck_db : DuckDBManager)
    (sql : string) (schema : PyVal) : M E (string * QueryOutcome) :=
  outcome <- execute_query duck_db sql ;;
  match outcome with
  | QuerySuccess _ _ _ => ret (sql, outcome)
  | QueryFailure error _ =>
      fix_result <- fix_sql_error llm sql error schema ;;
      match fix_result with
      | SqlSuccess fixed =>
          outcome' <- execute_query duck_db fixed ;;
          ret (fixed, outcome')
      | SqlFailure _ => ret (sql, outcome)
      end
  end.

(** [ChatQueryResponse(message=.., data=.., visualization_type=..)]
    ([schemas/chat.py]): [visualization_type] is declared
    [Optional[str]], and the model refuses any other value.  The message
    is a refreshed row, whose columns have the declared types. *)
Definition new_response (message : Message) (data : option (list dict))
    (visualization_type : PyVal) : result ChatQueryResponse :=
  match visualization_type with
  | PNone | PStr _ =>
      Ret {| message := message; data := data;
             visualization_type := visualization_type |}
  | _ => Raise (validation_error X "visualization_type" visualization_type)
  end.

(** Lines 189-233: what is done with the final outcome. *)
Definition conclude (llm : ChatModel) (chat : Chat) (query sql : string)
    (outcome : QueryOutcome) : M E (Ending ChatQueryResponse) :=
  match outcome with
  | QueryFailure error _ =>
      stored <- flushing (add_commit X (failed_turn chat sql error)) ;;
      match stored with
      | FlushError e => ret (FlushError e)
      | Done assistant_message =>
          response <- lift (new_response assistant_message None PNone) ;;
          ret (Done response)
      end
  | QuerySuccess rows _ row_count =>
      interpret_result <- interpret_results llm query sql rows ;;
      let interpretation := get_interpretation interpret_result in
      answer <- lift (py_get interpretation "answer"
                        (PStr ("Found " ++ PyStr.str_of_nat row_count
                               ++ " results."))) ;;
      viz_type <- lift (py_get interpretation "visualization_type"
                          (PStr "table")) ;;
      serialized <- lift (json_dumps X None (rows_val rows)) ;;
      stored <- flushing
                  (add_commit X (answer_turn chat answer sql serialized)) ;;
      match stored with
      | FlushError e => ret (FlushError e)
      | Done assistant_message =>
          response <-
            lift (new_response assistant_message (Some rows) viz_type) ;;
          ret (Done response)
      end
  end.

(** Lines 161-162: the history handed to the generator, oldest first. *)
Definition chat_history_of (previous_messages : list Message)
  : list (string * PyVal) :=
  map (fun msg => (role msg, content msg)) (rev previous_messages).

(** Lines 176-233: the [with] block. *)
Definition answer_with (llm : ChatModel) (chat : Chat) (path query sql : string)
    (schema : PyVal) : M E (Ending ChatQueryResponse) :=
  with_duckdb path (fun duck_db =>
    tried <- execute_with_repair llm duck_db sql schema ;;
    conclude llm chat query (fst tried) (snd tried)).

(** Lines 144-233: the body of the [try]. *)
Definition pipeline (chat : Chat) (project : option Project)
    (llm_config : LLMConfig) (query : string)
  : M E (Ending ChatQueryResponse) :=
  api_key <- lift (fernet_decrypt X (encrypted_api_key llm_config)) ;;
  llm <- lift (LLMService (provider llm_config) api_key) ;;
  schema <- lift (load_schema project) ;;
  previous_messages <- last_messages X (chat_id chat) ;;
  let chat_history := chat_history_of previous_messages in
  sql_result <- text_to_sql llm query schema chat_history ;;
  match sql_result with
  | SqlFailure error =>
      raise (HTTPException 500 ("Failed to generate SQL: " ++ error))
  | SqlSuccess sql =>
      path <- lift (store_path project) ;;
      answer_with llm chat path query sql schema
  end.

(** Lines 235-250: the [except Exception] clause.  In an inactive session
    its own commit (line 244) raises, so that no turn is stored and the
    500 of line 247 is not reached. *)
Definition on_exception (chat : Chat) (session : SessionState) (e : exn)
  : M E ChatQueryResponse :=
  match session with
  | Active =>
      add_commit X (exception_turn chat e) ;;;
      raise (HTTPException 500 (str_exn X e))
  | Inactive => raise (pending_rollback X e)
  end.

(** [query_data] *)
Definition query_data (request : ChatQueryRequest) (current_user : User)
  : M E ChatQueryResponse :=
  found <- first_chat (req_chat_id request) (user_id current_user) ;;
  match found with
  | None => raise (HTTPException 404 "Chat not found")
  | Some chat =>
      project <- first_project (chat_project_id chat) ;;
      active <- first_active_config (user_id current_user) ;;
      match active with
      | None =>
          raise (HTTPException 400
                   "No active LLM configuration. Please configure your API key.")
      | Some llm_config =>
          add_commit X (user_turn chat (req_query request)) ;;;
          try_except_session
            (pipeline chat project llm_config (req_query request))
            (on_exception chat)
      end
  end.

(** ** Scenarios

    Names for the situations the properties speak about. *)

(** The chat of the request belongs to the caller. *)
Definition chat_found (request : ChatQueryRequest) (current_user : User)
    (w : World E) (chat : Chat) : Prop :=
  fst (first_chat (req_chat_id request) (user_id current_user) w)
  = Ret (Some chat).

(** The caller has an active model configuration, or none. *)
Definition config_found (current_user : User) (w : World E)
    (active : option LLMConfig) : Prop :=
  fst (first_active_config (user_id current_user) w) = Ret active.

(** Everything the handler needs before it asks for SQL is in place: the
    chat, its project, an active configuration whose key decrypts and
    whose provider is supported, and a schema that loads and prints. *)
Record Resolved (request : ChatQueryRequest) (current_user : User)
    (w : World E) (chat : Chat) (project : Project) (llm : ChatModel)
    (schema : PyVal) (schema_context : string) : Prop := {
  res_chat : chat_found request current_user w chat;
  res_project : fst (first_project (chat_project_id chat) w)
                = Ret (Some project);
  res_llm : exists llm_config api_key,
      config_found current_user w (Some llm_config)
      /\ fernet_decrypt X (encrypted_api_key llm_config) = Ret api_key
      /\ LLMService (provider llm_config) api_key = Ret llm;
  res_schema : load_schema (Some project) = Ret schema;
  res_context : json_dumps X (Some 2) schema = Ret schema_context
}.

(** The messages of the generation prompt for a question asked in [w]:
    the history is read after the user turn is stored. *)
Definition generation_messages (w : World E) (chat : Chat) (query : string)
    (schema_context : string) : list ChatMessage :=
  sql_messages schema_context
    (history_context
       (chat_history_of
          (select_last_messages X
             (append_message (db w) (user_turn chat query)) (chat_id chat))))
    query.

(** The analytical store of the project opens in every state of the
    outside world. *)
Definition store_opens (path : string) : Prop :=
  forall e, fst (duckdb_connect X path e) = Ret tt.

(** An executor that always fails. *)
Definition executor_always_fails : Prop :=
  forall store sql e, exists err, fst (conn_execute X store sql e) = Raise err.

(** A model that always replies. *)
Definition model_always_replies : Prop :=
  forall llm msgs e, exists reply, fst (llm_invoke X llm msgs e) = Ret reply.

(** A computation that only adds to the trace and to the stored
    messages. *)
Definition extends {A} (m : M E A) : Prop :=
  forall w, exists events turns,
    trace (snd (m w)) = (trace w ++ events)%list
    /\ messages (db (snd (m w))) = (messages (db w) ++ turns)%list.

End Services.

(** ** A scripted outside world

    Concrete collaborators for running the handler: the model answers
    from a tape of prepared replies, the engine from a tape and, once the
    tape is used up, from a fixed table that leaves the world unchanged. *)

Module Scripted.

Record Tape : Type := {
  llm_tape : list (result string);
  engine_tape : list (result DataFrame)
}.

Definition count_frame : DataFrame :=
  {| df_columns := ["count"]; df_rows := [[PInt 42]] |}.

Definition ids_frame : DataFrame :=
  {| df_columns := ["id"]; df_rows := [[PInt 1]; [PInt 2]; [PInt 3]] |}.

Definition table (sql : string) : result DataFrame :=
  if String.eqb sql "SELECT COUNT(*) FROM data" then Ret count_frame
  else if String.eqb sql "SELECT id FROM data" then Ret ids_frame
  else Raise (OtherError "ParserException" "Parser Error: syntax error at X").

Definition next_reply (llm : ChatModel) (msgs : list ChatMessage) (t : Tape)
  : result string * Tape :=
  match llm_tape t with
  | [] => (Raise (OtherError "RuntimeError" "Connection error."), t)
  | r :: rest => (r, {| llm_tape := rest; engine_tape := engine_tape t |})
  end.

Definition run_sql (store sql : string) (t : Tape) : result DataFrame * Tape :=
  match engine_tape t with
  | [] => (table sql, t)
  | r :: rest => (r, {| llm_tape := llm_tape t; engine_tape := rest |})
  end.

Definition show (e : exn) : string :=
  match e with
  | HTTPException code detail => PyStr.str_of_nat code ++ ": " ++ detail
  | JSONDecodeError msg | ValueError msg | AttributeError msg
  | OtherError _ msg => msg
  end.

Definition answer_json : string := "{answer: 42, chart: bar}".

(** A store that keeps numbers as their decimal text and refuses every
    other value that is not a string. *)
Definition store_text (v : PyVal) : result string :=
  match v with
  | PInt z => Ret (NilZero.string_of_int (Z.to_int z))
  | PFloat repr => Ret repr
  | _ =>
      Raise (OtherError "InterfaceError"
               "Error binding parameter: type is not supported")
  end.

(** The texts of the errors of the store and of the response model. *)
Definition null_refused (column : string) : string :=
  "NOT NULL constraint failed: " ++ column.

Definition rolled_back (e : exn) : string :=
  "This Session's transaction has been rolled back due to a previous "
  ++ "exception during flush. Original exception was: " ++ show e.

Definition refused_field (field : string) (v : PyVal) : string :=
  "1 validation error for ChatQueryResponse: " ++ field.

(** Replies that parse to objects with a chart that is a number, with an
    answer that is null and with an answer that is a number. *)
Definition numeric_chart_json : string := "{answer: 3 ids, chart: 5}".
Definition null_answer_json : string := "{answer: null}".
Definition numeric_answer_json : string := "{answer: 42}".

Definition loads (text : string) : result PyVal :=
  if String.eqb text answer_json
  then Ret (PDict [("answer", PStr "There are 42 rows.");
                   ("insights", PList []);
                   ("visualization_type", PStr "bar")])
  else if String.eqb text numeric_chart_json
  then Ret (PDict [("answer", PStr "There are 3 ids.");
                   ("visualization_type", PInt 5)])
  else if String.eqb text null_answer_json
  then Ret (PDict [("answer", PNone)])
  else if String.eqb text numeric_answer_json
  then Ret (PDict [("answer", PInt 42)])
  else Raise (JSONDecodeError "Expecting value: line 1 column 1 (char 0)").

Definition X : Externals Tape :=
  {| str_exn := show;
     str_val := fun _ => "?";
     json_loads := loads;
     json_dumps := fun _ _ => Ret "[...]";
     fernet_decrypt := fun key => Ret key;
     llm_invoke := next_reply;
     duckdb_connect := fun _ t => (Ret tt, t);
     conn_execute := run_sql;
     conn_close := fun _ t => t;
     db_text := store_text;
     newest_first := @rev Message;
     not_null_text := null_refused;
     pending_rollback_text := rolled_back;
     validation_text := refused_field |}.

(** The same world with a model that always replies with a statement on
    a missing table and an engine that rejects every statement. *)
Definition X_failing : Externals Tape :=
  {| str_exn := show;
     str_val := fun _ => "?";
     json_loads := loads;
     json_dumps := fun _ _ => Ret "[...]";
     fernet_decrypt := fun key => Ret key;
     llm_invoke := fun _ _ t => (Ret "SELECT * FROM missing", t);
     duckdb_connect := fun _ t => (Ret tt, t);
     conn_execute := fun _ _ t =>
       (Raise (OtherError "CatalogException"
                 "Catalog Error: Table with name missing does not exist!"), t);
     conn_close := fun _ t => t;
     db_text := store_text;
     newest_first := @rev Message;
     not_null_text := null_refused;
     pending_rollback_text := rolled_back;
     validation_text := refused_field |}.

Definition alice : User := {| user_id := 7 |}.

Definition chat1 : Chat :=
  {| chat_id := 1; chat_user_id := 7; chat_project_id := 3 |}.

Definition project3 : Project :=
  {| project_id := 3; duckdb_file_path := "user_7_project_3.duckdb";
     schema_json := None |}.

Definition config7 : LLMConfig :=
  {| cfg_user_id := 7; provider := "openai"; encrypted_api_key := "gAAAA";
     is_active := 1 |}.

Definition store (configs : list LLMConfig) : Database :=
  {| chats := [chat1]; projects := [project3]; llm_configs := configs;
     messages := [] |}.

Definition world (configs : list LLMConfig) (replies : list (result string))
    (frames : list (result DataFrame)) : World Tape :=
  {| db := store configs;
     ext := {| llm_tape := replies; engine_tape := frames |};
     trace := [] |}.

Definition ask (question : string) : ChatQueryRequest :=
  {| req_chat_id := 1; req_query := question |}.

Definition gpt : ChatModel := ChatOpenAI "gpt-4o" "gAAAA".

Definition connected : DuckDBManager :=
  {| db_path := "user_7_project_3.duckdb";
     conn := Some "user_7_project_3.duckdb" |}.

End Scripted.

(** ** Bookkeeping of one request *)

(** The kind of an event, without its payload. *)
Inductive EventKind : Type :=
| KStore | KGenerate | KConnect | KExecute | KRepair | KInterpret | KClose.

Definition kind_of (ev : Event) : EventKind :=
  match ev with
  | EvStore _ => KStore
  | EvTextToSql _ => KGenerate
  | EvFixSql _ _ => KRepair
  | EvInterpret _ _ => KInterpret
  | EvConnect _ => KConnect
  | EvExecute _ => KExecute
  | EvClose _ => KClose
  end.

(** The relational store after some more messages were added. *)
Definition stored (d : Database) (turns : list Message) : Database :=
  fold_left append_message turns d.

(** What a computation did in [w]: its result, the events it added to the
    trace and the messages it added to the store, every other table being
    left as it was. *)
Definition effect {E A} (m : M E A) (w : World E) (r : result A)
    (events : list Event) (turns : list Message) : Prop :=
  fst (m w) = r
  /\ trace (snd (m w)) = (trace w ++ events)%list
  /\ db (snd (m w)) = stored (db w) turns.

(** The two forms of a response: the turn of a failed execution, without
    data or chart, and the turn of an answer, with the rows it reports. *)
Definition failure_response (resp : ChatQueryResponse) : Prop :=
  data resp = None /\ visualization_type resp = PNone
  /\ query_result (message resp) = None
  /\ exists sql err,
       sql_query (message resp) = Some sql
       /\ error_message (message resp) = Some err
       /\ content (message resp) = PStr ("I encountered an error: " ++ err).

Definition answer_response (resp : ChatQueryResponse) : Prop :=
  error_message (message resp) = None
  /\ exists rows sql serialized,
       data resp = Some rows
       /\ sql_query (message resp) = Some sql
       /\ query_result (message resp) = Some serialized.

(** The call sequences a request can leave in the trace, by kind. *)
Definition answered_courses : list (list EventKind) :=
  [ [KStore; KGenerate; KConnect; KExecute; KInterpret; KStore; KClose];
    [KStore; KGenerate; KConnect; KExecute; KRepair; KExecute; KInterpret;
     KStore; KClose] ].

Definition failed_courses : list (list EventKind) :=
  [ [KStore; KGenerate; KConnect; KExecute; KRepair; KStore; KClose];
    [KStore; KGenerate; KConnect; KExecute; KRepair; KExecute; KStore;
     KClose] ].

(** Courses that end with the error turn of the [except] clause as the
    only reply. *)
Definition raised_courses : list (list EventKind) :=
  [ [KStore; KStore];
    [KStore; KGenerate; KStore];
    [KStore; KGenerate; KConnect; KStore];
    [KStore; KGenerate; KConnect; KExecute; KInterpret; KClose; KStore];
    [KStore; KGenerate; KConnect; KExecute; KRepair; KExecute; KInterpret;
     KClose; KStore] ].

(** Courses in which the answer turn is stored and the response is then
    refused: the error turn is stored after it. *)
Definition refused_courses : list (list EventKind) :=
  [ [KStore; KGenerate; KConnect; KExecute; KInterpret; KStore; KClose;
     KStore];
    [KStore; KGenerate; KConnect; KExecute; KRepair; KExecute; KInterpret;
     KStore; KClose; KStore] ].

(** Courses in which the store refuses the answer turn: nothing is stored
    after the user turn. *)
Definition rolled_back_courses : list (list EventKind) :=
  [ [KStore; KGenerate; KConnect; KExecute; KInterpret; KClose];
    [KStore; KGenerate; KConnect; KExecute; KRepair; KExecute; KInterpret;
     KClose] ].

Definition request_courses : list (list EventKind) :=
  [] :: (answered_courses ++ failed_courses ++ raised_courses
         ++ refused_courses ++ rolled_back_courses)%list.

(** An assistant turn of the chat that carries a statement, serialized
    rows and no error, with the answer as the store keeps it. *)
Definition answer_of (chat : Chat) (turn : Message) : Prop :=
  exists answer sql serialized,
    turn = answer_turn chat (PStr answer) sql serialized.

(** ** More scripted worlds *)

Module Scripted2.
Import Scripted.

(** The scripted world with a store that cannot be opened. *)
Definition X_unreachable : Externals Tape :=
  {| str_exn := show;
     str_val := fun _ => "?";
     json_loads := loads;
     json_dumps := fun _ _ => Ret "[...]";
     fernet_decrypt := fun key => Ret key;
     llm_invoke := next_reply;
     duckdb_connect := fun _ t =>
       (Raise (OtherError "IOException"
                 "IO Error: Cannot open file: No such file or directory"), t);
     conn_execute := run_sql;
     conn_close := fun _ t => t;
     db_text := store_text;
     newest_first := @rev Message;
     not_null_text := null_refused;
     pending_rollback_text := rolled_back;
     validation_text := refused_field |}.

(** The scripted world with a [json.loads] that reads every text as the
    list of its lines' count: a reply that parses, but not to an object. *)
Definition X_listing : Externals Tape :=
  {| str_exn := show;
     str_val := fun _ => "?";
     json_loads := fun _ => Ret (PList [PInt 42]);
     json_dumps := fun _ _ => Ret "[...]";
     fernet_decrypt := fun key => Ret key;
     llm_invoke := next_reply;
     duckdb_connect := fun _ t => (Ret tt, t);
     conn_execute := run_sql;
     conn_close := fun _ t => t;
     db_text := store_text;
     newest_first := @rev Message;
     not_null_text := null_refused;
     pending_rollback_text := rolled_back;
     validation_text := refused_field |}.

(** A configuration for a provider the service does not know. *)
Definition config_mistral : LLMConfig :=
  {| cfg_user_id := 7; provider := "mistral"; encrypted_api_key := "gAAAA";
     is_active := 1 |}.

Definition bob : User := {| user_id := 8 |}.

End Scripted2.

(** ** Paths and settings *)

(** What holds of every character of a string. *)
Fixpoint all_chars (p : ascii -> bool) (s : string) : bool :=
  match s with
  | EmptyString => true
  | String c rest => p c && all_chars p rest
  end.

Definition is_digit (c : ascii) : bool :=
  let n := nat_of_ascii c in ((48 <=? n) && (n <=? 57))%nat.

(** A character other than the slash, and other than slash and dot. *)
Definition no_slash (c : ascii) : bool := negb (Ascii.eqb c "/").
Definition no_slash_no_dot (c : ascii) : bool :=
  negb (Ascii.eqb c "/") && negb (Ascii.eqb c ".").

Module PyPath.

(** [str.lower] on one code point below 256: the letters A-Z and the
    accented capitals U+00C0-U+00DE, the multiplication sign excepted. *)
Definition lower_char (c : ascii) : ascii :=
  let n := nat_of_ascii c in
  if (((65 <=? n) && (n <=? 90)) || ((192 <=? n) && (n <=? 214))
      || ((216 <=? n) && (n <=? 222)))%nat
  then ascii_of_nat (n + 32) else c.

(** [s.lower()] *)
Fixpoint lower (s : string) : string :=
  match s with
  | EmptyString => EmptyString
  | String c rest => String (lower_char c) (lower rest)
  end.

(** [s.split("/")] *)
Fixpoint split_slash (s : string) : list string :=
  match s with
  | EmptyString => [EmptyString]
  | String c rest =>
      if Ascii.eqb c "/" then EmptyString :: split_slash rest
      else
        match split_slash rest with
        | [] => [String c EmptyString]
        | part :: parts => String c part :: parts
        end
  end.

(** [PurePosixPath(s).name]: the last component, empty components and
    single dots being dropped when the path is parsed. *)
Definition name (s : string) : string :=
  last (filter (fun part => negb (String.eqb part "" || String.eqb part "."))
               (split_slash s))
       EmptyString.

(** The text of [nm] from its last dot on: [nm[nm.rfind('.'):]], or
    nothing when there is no dot. *)
Fixpoint from_last_dot (nm : string) : option string :=
  match nm with
  | EmptyString => None
  | String c rest =>
      match from_last_dot rest with
      | Some tail => Some tail
      | None => if Ascii.eqb c "." then Some nm else None
      end
  end.

(** [PurePosixPath(s).suffix]: with [i = name.rfind('.')], the text
    [name[i:]] when [0 < i < len(name) - 1], the empty string otherwise. *)
Definition suffix (s : string) : string :=
  let nm := name s in
  match from_last_dot nm with
  | Some tail =>
      if (String.length tail =? String.length nm)%nat
         || (String.length tail =? 1)%nat
      then EmptyString else tail
  | None => EmptyString
  end.

(** One step of [os.path.join] (POSIX). *)
Definition join2 (path b : string) : string :=
  if PyStr.startswith b "/" then b
  else
    match path with
    | EmptyString => b
    | _ =>
        if String.eqb (substring (String.length path - 1) 1 path) "/"
        then path ++ b else path ++ "/" ++ b
    end.

(** [os.path.join(a, *parts)] *)
Definition join (a : string) (parts : list string) : string :=
  fold_left join2 parts a.

End PyPath.

(** [app/config.py]: the settings the services read. *)
Record Settings : Type := {
  DUCKDB_PATH : string;
  UPLOAD_DIR : string;
  ALLOWED_EXTENSIONS : list string
}.

(** The defaults of the class [Settings]. *)
Definition default_settings : Settings :=
  {| DUCKDB_PATH := "./data/duckdb_files";
     UPLOAD_DIR := "./data/uploads";
     ALLOWED_EXTENSIONS := [".csv"; ".xlsx"; ".xls"; ".json"; ".sqlite"] |}.

(** ** [FileHandler] ([services/file_handler.py]) *)

Section FileHandler.

Context {E : Type} (X : Externals E).

Variable settings : Settings.

(** [repr] of a list of strings, as an f-string prints it. *)
Variable repr_list : list string -> string.

(** The file system: [os.makedirs(dir, exist_ok=True)], and the [try]
    block that opens the target and copies the upload into it. *)
Variable makedirs : string -> E -> result unit * E.
Variable copy_upload : string -> E -> result unit * E.
(** [file.file.close()] *)
Variable close_upload : E -> E.

(** [FileHandler.get_file_extension] *)
Definition get_file_extension (filename : string) : string :=
  PyPath.lower (PyPath.suffix filename).

(** [ext in list] *)
Definition py_in (x : string) (l : list string) : bool :=
  existsb (String.eqb x) l.

(** [FileHandler.validate_file] *)
Definition validate_file (filename : string) : result bool :=
  let file_ext := PyPath.lower (PyPath.suffix filename) in
  if py_in file_ext (ALLOWED_EXTENSIONS settings) then Ret true
  else
    Raise (HTTPException 400
             ("File type " ++ file_ext ++ " not allowed. Allowed types: "
              ++ repr_list (ALLOWED_EXTENSIONS settings))).

(** The directory of a project's uploads. *)
Definition user_upload_dir (user_id project_id : nat) : string :=
  PyPath.join (UPLOAD_DIR settings)
    ["user_" ++ PyStr.str_of_nat user_id;
     "project_" ++ PyStr.str_of_nat project_id].

(** [FileHandler.save_upload_file]: the upload is closed by the [finally]
    clause, whether the copy succeeded or not. *)
Definition save_upload_file (filename : string) (user_id project_id : nat)
  : M E string :=
  (lift (validate_file filename) ;;;
   let dir := user_upload_dir user_id project_id in
   external (makedirs dir) ;;;
   let file_path := PyPath.join dir [filename] in
   (fun w =>
      let (r, w') := external (copy_upload file_path) w in
      (r, Build_World (db w') (close_upload (ext w')) (trace w'))) ;;;
   ret file_path)%py.

(** The file of a project's analytical store. *)
Definition db_path_for (user_id project_id : nat) : string :=
  PyPath.join (DUCKDB_PATH settings)
    ["user_" ++ PyStr.str_of_nat user_id ++ "_project_"
     ++ PyStr.str_of_nat project_id ++ ".duckdb"].

(** [DuckDBManager.create_db_for_user] *)
Definition create_db_for_user (user_id project_id : nat) : M E string :=
  (let db_path := db_path_for user_id project_id in
   external (duckdb_connect X db_path) ;;;
   external (fun e => (Ret tt, conn_close X db_path e)) ;;;
   ret db_path)%py.

End FileHandler.


(** ** Model configurations ([api/llm_config.py]) *)

Section LLMConfigApi.

Context {E : Type}.

(** [encrypt_api_key] of [core/security.py]: Fernet draws an
    initialisation vector and reads the clock. *)
Variable encrypt_api_key : string -> E -> result string * E.

(** [{"is_active": 0}] applied to one row *)
Definition deactivate (c : LLMConfig) : LLMConfig :=
  {| cfg_user_id := cfg_user_id c;
     provider := provider c;
     encrypted_api_key := encrypted_api_key c;
     is_active := 0 |}.

(** [db.query(LLMConfig).filter(LLMConfig.user_id == uid)
      .update({"is_active": 0})] *)
Definition deactivate_all (uid : nat) (d : Database) : Database :=
  {| chats := chats d;
     projects := projects d;
     llm_configs :=
       map (fun c => if Nat.eqb (cfg_user_id c) uid then deactivate c else c)
           (llm_configs d);
     messages := messages d |}.

(** [db.add(new_config); db.commit()] *)
Definition add_config (c : LLMConfig) (d : Database) : Database :=
  {| chats := chats d;
     projects := projects d;
     llm_configs := (llm_configs d ++ [c])%list;
     messages := messages d |}.

(** [create_llm_config] *)
Definition create_llm_config (provider api_key : string)
    (current_user : User) : M E LLMConfig :=
  (encrypted_key <- external (encrypt_api_key api_key) ;;
   fun w =>
     let new_config :=
       {| cfg_user_id := user_id current_user;
          provider := provider;
          encrypted_api_key := encrypted_key;
          is_active := 1 |} in
     (Ret new_config,
      Build_World
        (add_config new_config
           (deactivate_all (user_id current_user) (db w)))
        (ext w) (trace w)))%py.

(** [get_llm_configs] *)
Definition get_llm_configs (current_user : User) : M E (list LLMConfig) :=
  fun w =>
    (Ret (filter (fun c => Nat.eqb (cfg_user_id c) (user_id current_user))
                 (llm_configs (db w))), w).

(** [get_active_config] *)
Definition get_active_config (current_user : User) : M E LLMConfig :=
  (config <- first_active_config (user_id current_user) ;;
   match config with
   | None =>
       raise (HTTPException 404
                "No active LLM configuration found. Please set up your API key.")
   | Some c => ret c
   end)%py.

End LLMConfigApi.

(** The rows of a user that are active. *)
Definition active_configs (uid : nat) (d : Database) : list LLMConfig :=
  filter (fun c => Nat.eqb (cfg_user_id c) uid && Z.eqb (is_active c) 1)
         (llm_configs d).

(** ** Chats ([api/chat.py]) *)

Section ChatApi.

Context {E : Type}.

(** [get_chat] *)
Definition get_chat (id : nat) (current_user : User) : M E Chat :=
  (chat <- first_chat id (user_id current_user) ;;
   match chat with
   | None => raise (HTTPException 404 "Chat not found")
   | Some c => ret c
   end)%py.

(** [db.delete(chat); db.commit()]: the row goes, and with it, by the
    cascade of [Chat.messages], the messages of the chat. *)
Definition delete_commit (chat : Chat) (d : Database) : Database :=
  {| chats :=
       filter (fun c => negb (Nat.eqb (chat_id c) (chat_id chat))) (chats d);
     projects := projects d;
     llm_configs := llm_configs d;
     messages :=
       filter (fun m => negb (Nat.eqb (msg_chat_id m) (chat_id chat)))
              (messages d) |}.

(** [delete_chat] *)
Definition delete_chat (id : nat) (current_user : User) : M E unit :=
  (chat <- first_chat id (user_id current_user) ;;
   match chat with
   | None => raise (HTTPException 404 "Chat not found")
   | Some c =>
       fun w => (Ret tt, Build_World (delete_commit c (db w)) (ext w) (trace w))
   end)%py.

End ChatApi.

(** ** [LLMService.generate_schema] ([services/llm_service.py]) *)

(** The dictionary returned by [generate_schema]. *)
Inductive SchemaResult : Type :=
| SchemaSuccess (schema : PyVal)
| SchemaUnparsed (error raw_response : string)
| SchemaFailure (error : string).

Section SchemaGeneration.

Context {E : Type} (X : Externals E).

(** The message of the [UnboundLocalError] for a name; its wording depends
    on the interpreter's version. *)
Variable unbound_local : string -> string.

Definition schema_prompt (schema_info : string) : string :=
  PyStr.join PyStr.nl
    [ "You are a data analyst. Analyze the following database schema and sample data, then generate a semantic description.";
      "";
      "Database Information:";
      schema_info;
      "";
      "Generate a JSON response with:";
      "1. " ++ PyStr.dq ++ "tables" ++ PyStr.dq
        ++ ": A list of table descriptions including:";
      "   - " ++ PyStr.dq ++ "table_name" ++ PyStr.dq
        ++ ": The name of the table";
      "   - " ++ PyStr.dq ++ "description" ++ PyStr.dq
        ++ ": What this table represents";
      "   - " ++ PyStr.dq ++ "columns" ++ PyStr.dq
        ++ ": List of column descriptions with:";
      "     - " ++ PyStr.dq ++ "name" ++ PyStr.dq ++ ": Column name";
      "     - " ++ PyStr.dq ++ "type" ++ PyStr.dq ++ ": Data type";
      "     - " ++ PyStr.dq ++ "description" ++ PyStr.dq
        ++ ": What this column represents";
      "     - " ++ PyStr.dq ++ "example_values" ++ PyStr.dq
        ++ ": A few example values";
      "2. " ++ PyStr.dq ++ "relationships" ++ PyStr.dq
        ++ ": Any apparent relationships between tables";
      "3. " ++ PyStr.dq ++ "insights" ++ PyStr.dq
        ++ ": Initial insights about the data";
      "";
      "Return ONLY valid JSON, no other text." ].

Definition schema_messages (schema_info : string) : list ChatMessage :=
  [ SystemMessage
      "You are a data analyst expert at understanding database schemas.";
    HumanMessage (schema_prompt schema_info) ].

(** [LLMService.generate_schema].  The handler of [JSONDecodeError] reads
    [content], which is bound only once the model has replied. *)
Definition generate_schema (llm : ChatModel) (schema_info : PyVal)
  : M E SchemaResult :=
  (info <- lift (json_dumps X (Some 2) schema_info) ;;
   fun w =>
     match external (llm_invoke X llm (schema_messages info)) w with
     | (Raise (JSONDecodeError _), w') =>
         (Raise (OtherError "UnboundLocalError" (unbound_local "content")), w')
     | (Raise e, w') => (Ret (SchemaFailure (str_exn X e)), w')
     | (Ret content, w') =>
         match json_loads X content with
         | Ret schema_json => (Ret (SchemaSuccess schema_json), w')
         | Raise (JSONDecodeError msg) =>
             (Ret (SchemaUnparsed
                     ("Failed to parse JSON: "
                      ++ str_exn X (JSONDecodeError msg)) content), w')
         | Raise e => (Ret (SchemaFailure (str_exn X e)), w')
         end
     end)%py.

End SchemaGeneration.

(** ** Ingestion ([services/duckdb_manager.py]) *)

(** The dictionary returned by [ingest_csv], [ingest_excel] and
    [ingest_json]; a sheet is reported by its table, its name, its number
    of rows and its columns. *)
Inductive IngestResult : Type :=
| IngestTable (table_name : string) (rows : nat) (columns : list string)
| IngestSheets (tables : list (string * string * nat * list string))
| IngestFailure (error : string).

Section Ingestion.

Context {E : Type} (X : Externals E).

(** pandas: [pd.read_csv(path)], [pd.read_json(path)],
    [pd.ExcelFile(path).sheet_names], [pd.read_excel(path, sheet_name=..)]. *)
Variable read_csv : string -> E -> result DataFrame * E.
Variable read_json : string -> E -> result DataFrame * E.
Variable excel_sheet_names : string -> E -> result (list string) * E.
Variable read_excel : string -> string -> E -> result DataFrame * E.

(** [conn.execute(statement)] on the connection bound to a store; the
    statement may name the local frame [df]. *)
Variable conn_run : string -> string -> DataFrame -> E -> result unit * E.
(** [conn.execute(sql).fetchall()] and [conn.execute(sql).fetchone()] *)
Variable conn_fetchall :
  string -> string -> E -> result (list (list PyVal)) * E.
Variable conn_fetchone :
  string -> string -> E -> result (option (list PyVal)) * E.

(** [self.conn.<method>] on a manager that was never entered *)
Definition on_conn {A} (self : DuckDBManager) (call : string -> M E A)
  : M E A :=
  match conn self with
  | Some store => call store
  | None =>
      raise (AttributeError "'NoneType' object has no attribute 'execute'")
  end.

(** The two statements that load the frame [df] into a table. *)
Definition load_frame (self : DuckDBManager) (table_name : string)
    (df : DataFrame) : M E unit :=
  (on_conn self (fun store =>
     external (conn_run store ("DROP TABLE IF EXISTS " ++ table_name) df)) ;;;
   on_conn self (fun store =>
     external (conn_run store
                 ("CREATE TABLE " ++ table_name ++ " AS SELECT * FROM df")
                 df)))%py.

(** [DuckDBManager.ingest_csv] *)
Definition ingest_csv (self : DuckDBManager) (file_path table_name : string)
  : M E IngestResult :=
  try_except
    (df <- external (read_csv file_path) ;;
     load_frame self table_name df ;;;
     ret (IngestTable table_name (length (df_rows df)) (df_columns df)))%py
    (fun e => ret (IngestFailure (str_exn X e))).

(** The table a sheet is loaded into. *)
Definition safe_table_name (table_name sheet_name : string) : string :=
  table_name ++ "_" ++ PyStr.replace sheet_name " " "_".

(** The loop of [ingest_excel] over the sheets. *)
Fixpoint ingest_sheets (self : DuckDBManager) (file_path table_name : string)
    (sheet_names : list string)
    (results : list (string * string * nat * list string))
  : M E (list (string * string * nat * list string)) :=
  match sheet_names with
  | [] => ret results
  | sheet_name :: rest =>
      (df <- external (read_excel file_path sheet_name) ;;
       load_frame self (safe_table_name table_name sheet_name) df ;;;
       ingest_sheets self file_path table_name rest
         (results ++ [(safe_table_name table_name sheet_name, sheet_name,
                       length (df_rows df), df_columns df)]))%py
  end.

(** What a completed loop has done, sheet after sheet, from the state [e]
    of the outside world to the state [e']: the sheet was read, its table
    was dropped if it existed and created from the frame read, and its
    entry reports that frame. *)
Inductive sheets_loaded (store file_path table_name : string)
  : list string -> E -> E -> list (string * string * nat * list string)
    -> Prop :=
| loaded_none (e : E) : sheets_loaded store file_path table_name [] e e []
| loaded_sheet (sheet_name : string) (rest : list string) (df : DataFrame)
    (e e1 e2 e3 e' : E) (entries : list (string * string * nat * list string)) :
    let safe := safe_table_name table_name sheet_name in
    read_excel file_path sheet_name e = (Ret df, e1) ->
    conn_run store ("DROP TABLE IF EXISTS " ++ safe) df e1 = (Ret tt, e2) ->
    conn_run store ("CREATE TABLE " ++ safe ++ " AS SELECT * FROM df") df e2
      = (Ret tt, e3) ->
    sheets_loaded store file_path table_name rest e3 e' entries ->
    sheets_loaded store file_path table_name (sheet_name :: rest) e e'
      ((safe, sheet_name, length (df_rows df), df_columns df) :: entries).

(** [DuckDBManager.ingest_excel] *)
Definition ingest_excel (self : DuckDBManager) (file_path table_name : string)
  : M E IngestResult :=
  try_except
    (sheet_names <- external (excel_sheet_names file_path) ;;
     results <- ingest_sheets self file_path table_name sheet_names [] ;;
     ret (IngestSheets results))%py
    (fun e => ret (IngestFailure (str_exn X e))).

(** [DuckDBManager.ingest_json] *)
Definition ingest_json (self : DuckDBManager) (file_path table_name : string)
  : M E IngestResult :=
  try_except
    (df <- external (read_json file_path) ;;
     load_frame self table_name df ;;;
     ret (IngestTable table_name (length (df_rows df)) (df_columns df)))%py
    (fun e => ret (IngestFailure (str_exn X e))).

(** [t[0]] on a row *)
Definition first_cell (row : list PyVal) : result PyVal :=
  match row with
  | v :: _ => Ret v
  | [] => Raise (OtherError "IndexError" "tuple index out of range")
  end.

(** [fetchone()[0]] *)
Definition first_of_one (row : option (list PyVal)) : result PyVal :=
  match row with
  | Some cells => first_cell cells
  | None =>
      Raise (OtherError "TypeError" "'NoneType' object is not subscriptable")
  end.

(** The loop of [get_schema_info] over the rows of [SHOW TABLES]. *)
Fixpoint describe_tables (self : DuckDBManager) (tables : list (list PyVal))
    (schema_info : list PyVal) : M E (list PyVal) :=
  match tables with
  | [] => ret schema_info
  | table :: rest =>
      (table_name <- lift (first_cell table) ;;
       columns <- on_conn self (fun store =>
         external (conn_execute X store ("DESCRIBE " ++ fmt X table_name))) ;;
       sample_data <- on_conn self (fun store =>
         external (conn_execute X store
                     ("SELECT * FROM " ++ fmt X table_name ++ " LIMIT 5"))) ;;
       counted <- on_conn self (fun store =>
         external (conn_fetchone store
                     ("SELECT COUNT(*) FROM " ++ fmt X table_name))) ;;
       row_count <- lift (first_of_one counted) ;;
       describe_tables self rest
         (schema_info
          ++ [PDict [ ("table_name", table_name);
                      ("columns", rows_val (to_dict_records columns));
                      ("sample_data", rows_val (to_dict_records sample_data));
                      ("row_count", row_count) ]]))%py
  end.

(** [DuckDBManager.get_schema_info] *)
Definition get_schema_info (self : DuckDBManager) : M E (list PyVal) :=
  (tables <- on_conn self (fun store =>
     external (conn_fetchall store "SHOW TABLES")) ;;
   describe_tables self tables [])%py.

End Ingestion.

(** ** Projects ([api/projects.py]) *)

(** [db.add(p); db.commit()] *)
Definition add_project (p : Project) (d : Database) : Database :=
  {| chats := chats d;
     projects := (projects d ++ [p])%list;
     llm_configs := llm_configs d;
     messages := messages d |}.

(** [db.commit()] after the attributes of the row [p] were set *)
Definition update_project (p : Project) (d : Database) : Database :=
  {| chats := chats d;
     projects :=
       map (fun q => if Nat.eqb (project_id q) (project_id p) then p else q)
           (projects d);
     llm_configs := llm_configs d;
     messages := messages d |}.

(** [db.delete(p); db.commit()]: the row goes, and by the cascades of
    [Project.chats] and [Chat.messages] its chats and their messages. *)
Definition delete_project_commit (p : Project) (d : Database) : Database :=
  let doomed c := Nat.eqb (chat_project_id c) (project_id p) in
  {| chats := filter (fun c => negb (doomed c)) (chats d);
     projects :=
       filter (fun q => negb (Nat.eqb (project_id q) (project_id p)))
              (projects d);
     llm_configs := llm_configs d;
     messages :=
       filter (fun m =>
                 negb (existsb (fun c => doomed c
                                         && Nat.eqb (chat_id c) (msg_chat_id m))
                               (chats d)))
              (messages d) |}.

Section ProjectApi.

Context {E : Type} (X : Externals E).

Variable settings : Settings.
Variable repr_list : list string -> string.
Variable makedirs : string -> E -> result unit * E.
Variable copy_upload : string -> E -> result unit * E.
Variable close_upload : E -> E.
Variable unbound_local : string -> string.
Variable read_csv : string -> E -> result DataFrame * E.
Variable read_json : string -> E -> result DataFrame * E.
Variable excel_sheet_names : string -> E -> result (list string) * E.
Variable read_excel : string -> string -> E -> result DataFrame * E.
Variable conn_run : string -> string -> DataFrame -> E -> result unit * E.
Variable conn_fetchall :
  string -> string -> E -> result (list (list PyVal)) * E.
Variable conn_fetchone :
  string -> string -> E -> result (option (list PyVal)) * E.

(** The key the store gives a new row of [projects]. *)
Variable fresh_id : Database -> nat.

(** Lines 52-63 of [create_project]: the ingestion chosen by the
    extension. *)
Definition ingest_file (duck_db : DuckDBManager) (file_ext file_path : string)
  : M E IngestResult :=
  if String.eqb file_ext ".csv" then
    ingest_csv X read_csv conn_run duck_db file_path "data"
  else if py_in file_ext [".xlsx"; ".xls"] then
    ingest_excel X excel_sheet_names read_excel conn_run duck_db file_path
      "data"
  else if String.eqb file_ext ".json" then
    ingest_json X read_json conn_run duck_db file_path "data"
  else raise (HTTPException 400 ("Unsupported file type: " ++ file_ext)).

(** [json.dumps({"tables": schema_info})] *)
Definition raw_schema (schema_info : PyVal) : result string :=
  json_dumps X None (PDict [("tables", schema_info)]).

(** Lines 74-97 of [create_project]: the text stored as the schema of
    the project. *)
Definition project_schema (current_user : User) (schema_info : PyVal)
  : M E string :=
  (llm_config <- first_active_config (user_id current_user) ;;
   match llm_config with
   | Some cfg =>
       api_key <- lift (fernet_decrypt X (encrypted_api_key cfg)) ;;
       llm_service <- lift (LLMService (provider cfg) api_key) ;;
       schema_result <-
         generate_schema X unbound_local llm_service schema_info ;;
       match schema_result with
       | SchemaSuccess schema => lift (json_dumps X None schema)
       | _ => lift (raw_schema schema_info)
       end
   | None => lift (raw_schema schema_info)
   end)%py.

(** The body of the [try] of [create_project]. *)
Definition build_project (filename : string) (current_user : User)
    (new_project : Project) : M E Project :=
  (file_path <-
     save_upload_file settings repr_list makedirs copy_upload close_upload
       filename (user_id current_user) (project_id new_project) ;;
   db_path <-
     create_db_for_user X settings (user_id current_user)
       (project_id new_project) ;;
   let file_ext := get_file_extension filename in
   schema <-
     with_duckdb X db_path (fun duck_db =>
       result <- ingest_file duck_db file_ext file_path ;;
       match result with
       | IngestFailure error =>
           raise (HTTPException 500 ("Failed to ingest file: " ++ error))
       | _ =>
           schema_info <-
             get_schema_info X conn_fetchall conn_fetchone duck_db ;;
           project_schema current_user (PList schema_info)
       end) ;;
   let stored :=
     {| project_id := project_id new_project;
        duckdb_file_path := db_path;
        schema_json := Some schema |} in
   fun w =>
     (Ret stored,
      Build_World (update_project stored (db w)) (ext w) (trace w)))%py.

(** [create_project].  Of the columns of the new row the record keeps the
    key, the path of the store and the schema; the name, the description
    and the file name are set here and read by none of the handlers
    above. *)
Definition create_project (filename : string) (current_user : User)
  : M E Project :=
  fun w0 =>
    let new_project :=
      {| project_id := fresh_id (db w0);
         duckdb_file_path := "";
         schema_json := None |} in
    ((fun w =>
        (Ret tt,
         Build_World (add_project new_project (db w)) (ext w) (trace w))) ;;;
     try_except
       (build_project filename current_user new_project)
       (fun e =>
          (fun w =>
             (Ret tt,
              Build_World (delete_project_commit new_project (db w))
                (ext w) (trace w))) ;;;
          raise (HTTPException 500
                   ("Failed to create project: " ++ str_exn X e))))%py w0.

End ProjectApi.

(** A computation that leaves the relational store as it is. *)
Definition keeps_db {E A} (m : M E A) : Prop :=
  forall w, db (snd (m w)) = db w.

(** [c] with every space turned into an underscore. *)
Definition underscore (c : ascii) : ascii :=
  if Ascii.eqb c " " then "_"%char else c.

Fixpoint map_chars (f : ascii -> ascii) (s : string) : string :=
  match s with
  | EmptyString => EmptyString
  | String c rest => String (f c) (map_chars f rest)
  end.

(** ** Scripted collaborators of the uploads, the ingestion and the
    configurations *)

Module Scripted3.
Import Scripted.

(** An encryption that leaves the outside world alone. *)
Definition encrypt (api_key : string) (t : Tape) : result string * Tape :=
  (Ret ("gAAAA" ++ api_key), t).

Definition repr_list (l : list string) : string :=
  "[" ++ PyStr.join ", " (map (fun s => "'" ++ s ++ "'") l) ++ "]".

(** A file system on which everything succeeds. *)
Definition makedirs (dir : string) (t : Tape) : result unit * Tape :=
  (Ret tt, t).
Definition copy_upload (path : string) (t : Tape) : result unit * Tape :=
  (Ret tt, t).
Definition close_upload (t : Tape) : Tape := t.

Definition unbound_local (name : string) : string :=
  "cannot access local variable '" ++ name
  ++ "' where it is not associated with a value".

(** A workbook with two sheets whose names differ in a space. *)
Definition sheet_names (path : string) (t : Tape)
  : result (list string) * Tape :=
  (Ret ["Q1 sales"; "Q1_sales"], t).

Definition read_frame (path : string) (t : Tape) : result DataFrame * Tape :=
  (Ret ids_frame, t).
Definition read_sheet (path sheet : string) (t : Tape)
  : result DataFrame * Tape :=
  (Ret ids_frame, t).

Definition run_statement (store sql : string) (df : DataFrame) (t : Tape)
  : result unit * Tape :=
  (Ret tt, t).
Definition fetchall (store sql : string) (t : Tape)
  : result (list (list PyVal)) * Tape :=
  (Ret [[PStr "data"]], t).
Definition fetchone (store sql : string) (t : Tape)
  : result (option (list PyVal)) * Tape :=
  (Ret (Some [PInt 3]), t).

(** The next key of a table whose keys grow. *)
Definition next_id (d : Database) : nat :=
  S (list_max (map project_id (projects d))).

(** Alice's two chats, with one question each. *)
Definition chat2 : Chat :=
  {| chat_id := 2; chat_user_id := 7; chat_project_id := 3 |}.

Definition two_chats : World Tape :=
  {| db := {| chats := [chat1; chat2]; projects := [project3];
              llm_configs := [config7];
              messages := [user_turn chat1 "How many rows are there?";
                           user_turn chat2 "Which ids are there?"] |};
     ext := {| llm_tape := []; engine_tape := [] |};
     trace := [] |}.

(** The scripted world with an engine that answers every statement. *)
Definition X_describing : Externals Tape :=
  {| str_exn := show;
     str_val := fun _ => "?";
     json_loads := loads;
     json_dumps := fun _ _ => Ret "[...]";
     fernet_decrypt := fun key => Ret key;
     llm_invoke := next_reply;
     duckdb_connect := fun _ t => (Ret tt, t);
     conn_execute := fun _ _ t => (Ret ids_frame, t);
     conn_close := fun _ t => t;
     db_text := store_text;
     newest_first := @rev Message;
     not_null_text := null_refused;
     pending_rollback_text := rolled_back;
     validation_text := refused_field |}.

Definition create (X : Externals Tape) (filename : string) (u : User)
  : M Tape Project :=
  create_project X default_settings repr_list makedirs copy_upload
    close_upload unbound_local read_frame read_frame sheet_names read_sheet
    run_statement fetchall fetchone next_id filename u.

End Scripted3.

(** * Properties *)

(** ** Strings: [prefix], [contains], [strip] and [replace] *)

Module PyStrFacts.
Import PyStr.

Lemma prefix_split (p s : string) :
  prefix p s = true -> exists t, s = p ++ t.
Proof.
  revert s; induction p as [|a p IH]; intros s H.
  - exists s; reflexivity.
  - destruct s as [|b s]; simpl in H; [discriminate|].
    destruct (ascii_dec a b) as [->|]; [|discriminate].
    destruct (IH s H) as [t ->]. exists t; reflexivity.
Qed.

Lemma prefix_refl (p : string) : prefix p p = true.
Proof.
  induction p as [|a p IH]; [reflexivity|].
  simpl. destruct (ascii_dec a a); [exact IH|congruence].
Qed.

Lemma prefix_app (p s t : string) :
  prefix p s = true -> prefix p (s ++ t) = true.
Proof.
  revert s; induction p as [|a p IH]; intros s H.
  - destruct (s ++ t); reflexivity.
  - destruct s as [|b s]; simpl in H; [discriminate|].
    simpl. destruct (ascii_dec a b); [auto|discriminate].
Qed.

Lemma contains_tail (p : string) (c : ascii) (s : string) :
  contains p (String c s) = false -> contains p s = false.
Proof.
  cbn [contains]. intros H. apply orb_false_iff in H. tauto.
Qed.

Lemma contains_app (p s t : string) :
  contains p s = true -> contains p (s ++ t) = true.
Proof.
  induction s as [|c s IH]; intros H.
  - destruct p; [|discriminate H]. destruct t; reflexivity.
  - cbn [contains] in H. apply orb_true_iff in H.
    change (String c s ++ t) with (String c (s ++ t)). cbn [contains].
    destruct H as [H|H].
    + apply (prefix_app p _ t) in H.
      change (String c s ++ t) with (String c (s ++ t)) in H.
      rewrite H. reflexivity.
    + rewrite (IH H). apply orb_true_r.
Qed.

Lemma lstrip_keeps_absent (p s : string) :
  contains p s = false -> contains p (lstrip s) = false.
Proof.
  induction s as [|c s IH]; intros H; [exact H|].
  cbn [lstrip]. destruct (isspace c); [|exact H].
  apply IH. exact (contains_tail p c s H).
Qed.

Lemma rstrip_nonspace (c : ascii) (s : string) :
  isspace c = false -> rstrip (String c s) = String c (rstrip s).
Proof.
  intros H. cbn [rstrip]. destruct (rstrip s); [rewrite H|]; reflexivity.
Qed.

Lemma rstrip_is_prefix (s : string) : exists t, s = rstrip s ++ t.
Proof.
  induction s as [|c s [t IH]].
  - exists ""; reflexivity.
  - cbn [rstrip]. destruct (rstrip s) as [|k kept].
    + destruct (isspace c).
      * exists (String c s); reflexivity.
      * exists s; reflexivity.
    + exists t. simpl. simpl in IH. rewrite <- IH. reflexivity.
Qed.

Lemma rstrip_keeps_absent (p s : string) :
  contains p s = false -> contains p (rstrip s) = false.
Proof.
  intros H. destruct (contains p (rstrip s)) eqn:C; [|reflexivity].
  destruct (rstrip_is_prefix s) as [t Ht].
  apply (contains_app p _ t) in C. rewrite <- Ht in C. congruence.
Qed.

Lemma strip_keeps_absent (p s : string) :
  contains p s = false -> contains p (strip s) = false.
Proof.
  intros H. apply rstrip_keeps_absent, lstrip_keeps_absent, H.
Qed.

(** A string that opens with the fence still does after [strip]. *)
Lemma strip_keeps_fence (s : string) :
  startswith s fence = true -> startswith (strip s) fence = true.
Proof.
  unfold startswith. intros H.
  destruct (prefix_split _ _ H) as [t ->].
  unfold strip. cbn [fence append lstrip].
  replace (isspace "`") with false by reflexivity.
  rewrite !rstrip_nonspace by reflexivity.
  exact (prefix_app fence fence (rstrip t) (prefix_refl fence)).
Qed.

Lemma replace_scan_skip (old new t s : string) :
  replace_scan old new (String.length t) (t ++ s) = replace_scan old new 0 s.
Proof.
  induction t as [|c t IH]; [reflexivity|exact IH].
Qed.

Lemma replace_scan_match (a : ascii) (old' new s : string) :
  replace_scan (String a old') new 0 (String a old' ++ s)
  = new ++ replace_scan (String a old') new 0 s.
Proof.
  cbn [append replace_scan].
  replace (prefix (String a old') (String a (old' ++ s))) with true.
  - replace (String.length (String a old') - 1) with (String.length old')
      by (cbn [String.length]; lia).
    rewrite replace_scan_skip. reflexivity.
  - symmetry. exact (prefix_app _ (String a old') s (prefix_refl _)).
Qed.

End PyStrFacts.

(** ** Fence removal *)

Module FenceFacts.
Import PyStr PyStrFacts.

(** One pass of [replace] over a string that does not open with the fence
    yields a string that does not open with it either. *)
Lemma prefix_nil (s : string) : prefix "" s = true.
Proof. destruct s; reflexivity. Qed.

Ltac by_char :=
  repeat (cbn [replace_scan prefix append] in *;
          rewrite ?prefix_nil in *;
          match goal with
          | H : context [ascii_dec ?x ?y] |- _ => destruct (ascii_dec x y); subst
          | |- context [ascii_dec ?x ?y] => destruct (ascii_dec x y); subst
          end);
  cbn [replace_scan prefix append] in *;
  rewrite ?prefix_nil in *;
  try congruence.

Lemma scan_head (s : string) :
  prefix fence s = false -> prefix fence (replace_scan fence "" 0 s) = false.
Proof.
  unfold fence. intros H.
  destruct s as [|a s]; [reflexivity|]. by_char.
  destruct s as [|b s]; [reflexivity|]. by_char.
  destruct s as [|c s]; [reflexivity|]. by_char.
Qed.

Lemma scan_no_fence_upto (n : nat) (s : string) :
  String.length s <= n -> contains fence (replace_scan fence "" 0 s) = false.
Proof.
  revert s; induction n as [|n IH]; intros s Hn.
  - destruct s; [reflexivity|simpl in Hn; lia].
  - destruct s as [|a s]; [reflexivity|].
    destruct (prefix fence (String a s)) eqn:P.
    + destruct (prefix_split _ _ P) as [t Ht]. rewrite Ht.
      unfold fence at 2 3. rewrite replace_scan_match.
      apply IH. rewrite Ht in Hn. simpl in Hn. lia.
    + pose proof (scan_head _ P) as Hhead.
      cbn [replace_scan] in *. rewrite P in *.
      cbn [contains]. rewrite Hhead. apply IH. simpl in Hn. lia.
Qed.

(** After [replace("```", "")] no fence is left anywhere. *)
Lemma replace_no_fence (s : string) :
  contains fence (replace s fence "") = false.
Proof. exact (scan_no_fence_upto (String.length s) s (le_n _)). Qed.

(** The cleaned statement of a fenced reply holds no fence. *)
Lemma clean_sql_no_fence (content : string) :
  startswith (strip content) fence = true ->
  contains fence (clean_sql content) = false.
Proof.
  intros H. unfold clean_sql.
  destruct (startswith (strip content) fence_sql).
  - apply strip_keeps_absent, replace_no_fence.
  - rewrite H. apply strip_keeps_absent, replace_no_fence.
Qed.

(** The tagged fence is gone as well, since it opens with the plain one. *)
Lemma no_fence_no_tag (s : string) :
  contains fence s = false -> contains fence_sql s = false.
Proof.
  intros H. destruct (contains fence_sql s) eqn:C; [|reflexivity].
  exfalso. revert H C. induction s as [|c s IH]; cbn [contains]; intros H C.
  - discriminate C.
  - apply orb_false_iff in H. destruct H as [H1 H2].
    apply orb_true_iff in C. destruct C as [C|C]; [|exact (IH H2 C)].
    destruct (prefix_split _ _ C) as [t Ht].
    rewrite Ht in H1.
    change (fence_sql ++ t) with (fence ++ ("sql" ++ t)) in H1.
    rewrite (prefix_app fence fence _ (prefix_refl fence)) in H1.
    discriminate.
Qed.

Lemma lstrip_length (s : string) : String.length (lstrip s) <= String.length s.
Proof.
  induction s as [|c s IH]; [apply le_n|].
  cbn [lstrip]. destruct (isspace c); cbn [String.length]; lia.
Qed.





Lemma append_assoc (a b c : string) : (a ++ b) ++ c = a ++ (b ++ c).
Proof. induction a as [|x a IH]; [reflexivity|]. cbn. rewrite IH. reflexivity. Qed.



Lemma scan_absent (p new t : string) :
  contains p t = false -> replace_scan p new 0 t = t.
Proof.
  induction t as [|c t IH]; [reflexivity|].
  cbn [contains replace_scan]. intros H.
  apply orb_false_iff in H. destruct H as [H1 H2].
  rewrite H1, (IH H2). reflexivity.
Qed.







End FenceFacts.

(** ** [replace], and what [clean_sql] keeps *)

Module ReplaceFacts.
Import PyStr PyStrFacts FenceFacts.

Lemma but_last_snoc (s : string) :
  s <> "" -> exists l, s = but_last s ++ String l "".
Proof.
  induction s as [|c s IH]; intros H; [congruence|].
  destruct s as [|d s].
  - exists c. reflexivity.
  - destruct IH as [l Hl]; [discriminate|]. exists l.
    change (but_last (String c (String d s)))
      with (String c (but_last (String d s))).
    cbn [append]. rewrite <- Hl. reflexivity.
Qed.

Lemma length_of_append (s t : string) :
  String.length (s ++ t) = String.length s + String.length t.
Proof. induction s as [|c s IH]; cbn; [reflexivity|rewrite IH; reflexivity]. Qed.

Lemma prefix_app_long (p s t : string) :
  String.length p <= String.length s -> prefix p (s ++ t) = prefix p s.
Proof.
  revert s; induction p as [|a p IH]; intros s H;
    [rewrite !prefix_nil; reflexivity|].
  destruct s as [|b s]; [cbn in H; lia|].
  cbn [append prefix]. destruct (ascii_dec a b); [|reflexivity].
  apply IH. cbn in H. lia.
Qed.

Lemma prefix_short (p s : string) :
  String.length s < String.length p -> prefix p s = false.
Proof.
  revert s; induction p as [|a p IH]; intros s H; [cbn in H; lia|].
  destruct s as [|b s]; [reflexivity|].
  cbn [prefix]. destruct (ascii_dec a b); [|reflexivity].
  apply IH. cbn in H. lia.
Qed.

Lemma contains_short (p s : string) :
  String.length s < String.length p -> contains p s = false.
Proof.
  induction s as [|c s IH]; intros H; cbn [contains].
  - rewrite (prefix_short p "" H). reflexivity.
  - rewrite (prefix_short p _ H). apply IH. cbn in H. lia.
Qed.

(** Whether an occurrence starts at a character followed by the pattern
    is decided before the last character of the pattern. *)
Lemma prefix_before_old (old : string) (c : ascii) (a rest : string) :
  old <> "" ->
  prefix old (String c a ++ old ++ rest)
  = prefix old (String c a ++ but_last old).
Proof.
  intros H. destruct (but_last_snoc old H) as [l Hl].
  rewrite Hl at 2. rewrite !append_assoc, <- (append_assoc (String c a)).
  apply prefix_app_long.
  rewrite Hl at 1. rewrite !length_of_append. cbn [String.length]. lia.
Qed.

Lemma replace_scan_part (old new a rest : string) :
  old <> "" -> contains old (a ++ but_last old) = false ->
  replace_scan old new 0 (a ++ old ++ rest)
  = a ++ new ++ replace_scan old new 0 rest.
Proof.
  intros Hold. induction a as [|c a IH]; intros H.
  - destruct old as [|x old']; [congruence|]. apply replace_scan_match.
  - change (String c a ++ but_last old) with (String c (a ++ but_last old)) in H.
    cbn [contains] in H. apply orb_false_iff in H. destruct H as [H1 H2].
    change (String c (a ++ but_last old)) with (String c a ++ but_last old)
      in H1.
    rewrite <- (prefix_before_old old c a rest Hold) in H1.
    change (String c a ++ old ++ rest) with (String c (a ++ old ++ rest)) in *.
    cbn [replace_scan]. rewrite H1, (IH H2). reflexivity.
Qed.

(** [s.replace(old, new)] is [new.join(s.split(old))]. *)
Lemma replace_joins (old new : string) (parts : list string) :
  old <> "" -> split_at old parts = true ->
  replace (join old parts) old new = join new parts.
Proof.
  intros Hold. assert (Hr : forall s, replace s old new = replace_scan old new 0 s)
    by (intros s; destruct old; [congruence|reflexivity]).
  rewrite Hr. clear Hr.
  induction parts as [|part rest IH]; intros H; [discriminate H|].
  destruct rest as [|next rest].
  - cbn [split_at join] in *. apply negb_true_iff in H.
    apply scan_absent, H.
  - change (split_at old (part :: next :: rest))
      with (negb (contains old (part ++ but_last old))
            && split_at old (next :: rest)) in H.
    apply andb_true_iff in H. destruct H as [H1 H2].
    apply negb_true_iff in H1.
    change (join old (part :: next :: rest))
      with (part ++ old ++ join old (next :: rest)).
    change (join new (part :: next :: rest))
      with (part ++ new ++ join new (next :: rest)).
    rewrite (replace_scan_part old new part _ Hold H1), (IH H2). reflexivity.
Qed.

Lemma first_occurrence (old s : string) :
  old <> "" -> contains old s = true ->
  exists a rest,
    s = a ++ old ++ rest /\ contains old (a ++ but_last old) = false.
Proof.
  intros Hold. induction s as [|c s IH]; intros H.
  - cbn [contains] in H. rewrite orb_false_r in H.
    destruct old; [congruence|discriminate H].
  - destruct (prefix old (String c s)) eqn:P.
    + destruct (prefix_split _ _ P) as [t Ht]. exists "", t.
      split; [exact Ht|]. apply contains_short.
      destruct (but_last_snoc old Hold) as [l Hl]. cbn [append].
      rewrite Hl at 2. rewrite length_of_append. cbn [String.length]. lia.
    + cbn [contains] in H. rewrite P in H. cbn [orb] in H.
      destruct (IH H) as (a & rest & -> & Ha).
      exists (String c a), rest. split; [reflexivity|].
      change (String c a ++ but_last old) with (String c (a ++ but_last old)).
      cbn [contains]. rewrite Ha, orb_false_r.
      change (String c (a ++ but_last old)) with (String c a ++ but_last old).
      rewrite <- (prefix_before_old old c a rest Hold). exact P.
Qed.

(** Every string splits. *)
Lemma split_exists (old s : string) :
  old <> "" -> exists parts, split_at old parts = true /\ join old parts = s.
Proof.
  intros Hold.
  assert (H : forall n s, String.length s <= n ->
                exists parts, split_at old parts = true /\ join old parts = s).
  { clear s. induction n as [|n IH]; intros s Hn.
    - destruct s; [|cbn in Hn; lia]. exists [""]. split; [|reflexivity].
      cbn [split_at]. rewrite contains_short; [reflexivity|].
      destruct old; [congruence|cbn; lia].
    - destruct (contains old s) eqn:C.
      + destruct (first_occurrence old s Hold C) as (a & rest & -> & Ha).
        destruct (IH rest) as (parts & Hp & Hj).
        { rewrite !length_of_append in Hn.
          destruct old; [congruence|]. cbn [String.length] in Hn. lia. }
        exists (a :: parts). destruct parts as [|p ps]; [discriminate Hp|].
        split.
        * change (split_at old (a :: p :: ps))
            with (negb (contains old (a ++ but_last old))
                  && split_at old (p :: ps)).
          rewrite Ha, Hp. reflexivity.
        * change (join old (a :: p :: ps))
            with (a ++ old ++ join old (p :: ps)).
          rewrite Hj. reflexivity.
      + exists [s]. split; [|reflexivity]. cbn [split_at]. rewrite C.
        reflexivity. }
  exact (H (String.length s) s (le_n _)).
Qed.


Lemma fence_nonempty : fence <> "".
Proof. discriminate. Qed.

Lemma fence_sql_nonempty : fence_sql <> "".
Proof. discriminate. Qed.

(** The branch of [clean_sql] for a reply that opens with a fence and not
    with the tagged one. *)
Lemma clean_sql_parts (content : string) (parts : list string) :
  startswith (strip content) fence_sql = false ->
  startswith (strip content) fence = true ->
  fence_parts (strip content) parts ->
  clean_sql content = strip (join "" parts).
Proof.
  intros H1 H2 [Hs Hj]. unfold clean_sql. rewrite H1, H2, Hj.
  rewrite (replace_joins fence "" parts fence_nonempty Hs). reflexivity.
Qed.

(** The branch of [clean_sql] for a reply that opens with the tagged
    fence. *)
Lemma clean_sql_tagged_parts (content : string) (parts : list string) :
  startswith (strip content) fence_sql = true ->
  tagged_fence_parts (strip content) parts ->
  clean_sql content = strip (join "" parts).
Proof.
  intros H1 (tagged & Ht & Hj & Hs & Hj'). unfold clean_sql.
  rewrite H1, Hj.
  rewrite (replace_joins fence_sql "" tagged fence_sql_nonempty Ht), Hj'.
  rewrite (replace_joins fence "" parts fence_nonempty Hs). reflexivity.
Qed.

Lemma fence_parts_exist (s : string) : exists parts, fence_parts s parts.
Proof.
  destruct (split_exists fence s fence_nonempty) as (parts & Hs & Hj).
  exists parts. split; [exact Hs|symmetry; exact Hj].
Qed.

Lemma tagged_fence_parts_exist (s : string) :
  exists parts, tagged_fence_parts s parts.
Proof.
  destruct (split_exists fence_sql s fence_sql_nonempty)
    as (tagged & Ht & Hj).
  destruct (fence_parts_exist (join "" tagged)) as (parts & Hp).
  exists parts, tagged. split; [exact Ht|]. split; [symmetry; exact Hj|].
  exact Hp.
Qed.



End ReplaceFacts.

(** ** The services, run step by step *)

Section ServiceRuns.

Context {E : Type} (X : Externals E).

Lemma text_to_sql_replied llm q schema hist ctx content (w : World E) e' :
  json_dumps X (Some 2) schema = Ret ctx ->
  llm_invoke X llm (sql_messages ctx (history_context X hist) q) (ext w)
    = (Ret content, e') ->
  text_to_sql X llm q schema hist w
    = (Ret (SqlSuccess (clean_sql content)),
       Build_World (db w) e' (trace w ++ [EvTextToSql q])).
Proof.
  intros Hd Hl. unfold text_to_sql, invoke_for_sql, bind, try_except, lift,
    external, log, ret. cbn [db ext trace]. rewrite Hd, Hl. reflexivity.
Qed.

Lemma text_to_sql_raised llm q schema hist ctx e (w : World E) e' :
  json_dumps X (Some 2) schema = Ret ctx ->
  llm_invoke X llm (sql_messages ctx (history_context X hist) q) (ext w)
    = (Raise e, e') ->
  text_to_sql X llm q schema hist w
    = (Ret (SqlFailure (str_exn X e)),
       Build_World (db w) e' (trace w ++ [EvTextToSql q])).
Proof.
  intros Hd Hl. unfold text_to_sql, invoke_for_sql, bind, try_except, lift,
    external, log, ret. cbn [db ext trace]. rewrite Hd, Hl. reflexivity.
Qed.

Lemma fix_sql_error_replied llm sql err schema ctx content (w : World E) e' :
  json_dumps X (Some 2) schema = Ret ctx ->
  llm_invoke X llm (fix_messages ctx sql err) (ext w) = (Ret content, e') ->
  fix_sql_error X llm sql err schema w
    = (Ret (SqlSuccess (clean_sql content)),
       Build_World (db w) e' (trace w ++ [EvFixSql sql err])).
Proof.
  intros Hd Hl. unfold fix_sql_error, invoke_for_sql, bind, try_except, lift,
    external, log, ret. cbn [db ext trace]. rewrite Hd, Hl. reflexivity.
Qed.

Lemma fix_sql_error_raised llm sql err schema ctx e (w : World E) e' :
  json_dumps X (Some 2) schema = Ret ctx ->
  llm_invoke X llm (fix_messages ctx sql err) (ext w) = (Raise e, e') ->
  fix_sql_error X llm sql err schema w
    = (Ret (SqlFailure (str_exn X e)),
       Build_World (db w) e' (trace w ++ [EvFixSql sql err])).
Proof.
  intros Hd Hl. unfold fix_sql_error, invoke_for_sql, bind, try_except, lift,
    external, log, ret. cbn [db ext trace]. rewrite Hd, Hl. reflexivity.
Qed.

Lemma execute_query_fetched store path sql frame (w : World E) e' :
  conn_execute X store sql (ext w) = (Ret frame, e') ->
  execute_query X {| db_path := path; conn := Some store |} sql w
    = (Ret (QuerySuccess (to_dict_records frame) (df_columns frame)
              (length (df_rows frame))),
       Build_World (db w) e' (trace w ++ [EvExecute sql])).
Proof.
  intros H. unfold execute_query, bind, try_except, external, log, ret.
  cbn [db ext trace conn]. rewrite H. reflexivity.
Qed.

Lemma execute_query_rejected store path sql e (w : World E) e' :
  conn_execute X store sql (ext w) = (Raise e, e') ->
  execute_query X {| db_path := path; conn := Some store |} sql w
    = (Ret (QueryFailure (str_exn X e) sql),
       Build_World (db w) e' (trace w ++ [EvExecute sql])).
Proof.
  intros H. unfold execute_query, bind, try_except, external, log, ret.
  cbn [db ext trace conn]. rewrite H. reflexivity.
Qed.

(** The executor returns an outcome in every world: no exception leaves
    [execute_query], and the relational store is left alone. *)
Lemma execute_query_returns self sql (w : World E) :
  exists outcome e',
    execute_query X self sql w
    = (Ret outcome, Build_World (db w) e' (trace w ++ [EvExecute sql])).
Proof.
  destruct self as [path [store|]].
  - destruct (conn_execute X store sql (ext w)) as [[frame|e] e'] eqn:H.
    + eexists _, _. eapply execute_query_fetched, H.
    + eexists _, _. eapply execute_query_rejected, H.
  - eexists _, _. reflexivity.
Qed.

Lemma to_dict_records_length (df : DataFrame) :
  length (to_dict_records df) = length (df_rows df).
Proof. apply length_map. Qed.

Lemma to_dict_records_nth (df : DataFrame) (i : nat) (row : list PyVal) :
  nth_error (df_rows df) i = Some row ->
  nth_error (to_dict_records df) i = Some (dict_of_zip (df_columns df) row).
Proof. intros H. unfold to_dict_records. rewrite nth_error_map, H. reflexivity. Qed.

End ServiceRuns.

(** ** The SQL generator and the repair path *)

Section GeneratorProperties.

Context {E : Type} (X : Externals E).

Import PyStr.


(** C10.  When the model's reply opens with a fence (after leading
    whitespace, if any), [text_to_sql] and [fix_sql_error] return the same
    cleaned statement, which holds no fence marker and no tagged fence at
    any position.  It is the
    stripped reply without the fences a scan from the left finds in it,
    stripped again, and nothing else is deleted: if the stripped reply
    opens with the tagged fence, it is cut at the tagged fences, what is
    left is cut at the fences, and the parts are put together; otherwise
    it is cut at the fences only.  So a marker inside a string literal of
    the statement is deleted along with the wrapper, and a single
    backtick stays. *)
Theorem fenced_reply_loses_every_fence llm schema ctx content :
  startswith (strip content) fence = true ->
  json_dumps X (Some 2) schema = Ret ctx ->
  let returned := clean_sql content in
  (forall q hist (w : World E) e',
      llm_invoke X llm (sql_messages ctx (history_context X hist) q) (ext w)
        = (Ret content, e') ->
      fst (text_to_sql X llm q schema hist w) = Ret (SqlSuccess returned))
  /\ (forall original err (w : World E) e',
      llm_invoke X llm (fix_messages ctx original err) (ext w)
        = (Ret content, e') ->
      fst (fix_sql_error X llm original err schema w)
      = Ret (SqlSuccess returned))
  /\ contains fence returned = false
  /\ contains fence_sql returned = false
  /\ (startswith (strip content) fence_sql = true ->
      (exists parts, tagged_fence_parts (strip content) parts)
      /\ forall parts,
           tagged_fence_parts (strip content) parts ->
           returned = strip (join "" parts))
  /\ (startswith (strip content) fence_sql = false ->
      (exists parts, fence_parts (strip content) parts)
      /\ forall parts,
           fence_parts (strip content) parts ->
           returned = strip (join "" parts))
  /\ clean_sql ("```sql" ++ nl ++ "SELECT '```' AS f" ++ nl ++ "```")
     = "SELECT '' AS f"
  /\ clean_sql ("```sql" ++ nl ++ "SELECT `a` FROM t" ++ nl ++ "```")
     = "SELECT `a` FROM t".
Proof.
  intros Hfenced Hd returned.
  pose proof (FenceFacts.clean_sql_no_fence content Hfenced) as Hclean.
  split; [|split; [|split; [|split; [|split; [|split; [|split]]]]]].
  - intros q hist w e' Hl.
    rewrite (text_to_sql_replied X _ _ _ _ _ _ _ _ Hd Hl). reflexivity.
  - intros original err w e' Hl.
    rewrite (fix_sql_error_replied X _ _ _ _ _ _ _ _ Hd Hl). reflexivity.
  - exact Hclean.
  - apply FenceFacts.no_fence_no_tag, Hclean.
  - intros Htag. split.
    + apply ReplaceFacts.tagged_fence_parts_exist.
    + intros parts Hp.
      exact (ReplaceFacts.clean_sql_tagged_parts content parts Htag Hp).
  - intros Htag. split.
    + apply ReplaceFacts.fence_parts_exist.
    + intros parts Hp.
      exact (ReplaceFacts.clean_sql_parts content parts Htag Hfenced Hp).
  - reflexivity.
  - reflexivity.
Qed.

End GeneratorProperties.



Lemma fenced_reply_loses_every_fence_witness :
  fst (fix_sql_error Scripted.X Scripted.gpt "SELEC 1" "syntax error"
         (PDict [])
         (Scripted.world [] [Ret "```SELECT '```' AS `f````"] []))
  = Ret (SqlSuccess "SELECT '' AS `f`")
  /\ clean_sql "```SELECT '```' AS `f````"
     = PyStr.strip (PyStr.join "" [""; "SELECT '"; "' AS `f"; "`"]).
Proof.
  split.
  - exact (proj1 (proj2 (fenced_reply_loses_every_fence Scripted.X
                   Scripted.gpt (PDict []) "[...]"
                   "```SELECT '```' AS `f````" eq_refl eq_refl))
             "SELEC 1" "syntax error"
             (Scripted.world [] [Ret "```SELECT '```' AS `f````"] [])
             {| Scripted.llm_tape := []; Scripted.engine_tape := [] |}
             eq_refl).
  - refine (proj2 (proj1 (proj2 (proj2 (proj2 (proj2 (proj2
              (fenced_reply_loses_every_fence Scripted.X Scripted.gpt
                 (PDict []) "[...]" "```SELECT '```' AS `f````"
                 eq_refl eq_refl)))))) eq_refl)
              [""; "SELECT '"; "' AS `f"; "`"] _).
    split; reflexivity.
Defined.

(** ** The result interpreter *)

Section InterpreterProperties.

Context {E : Type} (X : Externals E).

Lemma interpret_results_parsed llm q sql rows preview raw v (w : World E) e' :
  json_dumps X (Some 2) (rows_val (firstn 10 rows)) = Ret preview ->
  llm_invoke X llm (interpret_messages q sql preview (length rows)) (ext w)
    = (Ret raw, e') ->
  json_loads X (PyStr.strip raw) = Ret v ->
  interpret_results X llm q sql rows w
    = (Ret (InterpretSuccess v),
       Build_World (db w) e' (trace w ++ [EvInterpret sql (length rows)])).
Proof.
  intros Hd Hl Hj.
  unfold interpret_results, bind, try_except, lift, external, log, ret.
  cbn [db ext trace]. rewrite Hd, Hl, Hj. reflexivity.
Qed.

Lemma interpret_results_unparsable llm q sql rows preview raw msg
    (w : World E) e' :
  json_dumps X (Some 2) (rows_val (firstn 10 rows)) = Ret preview ->
  llm_invoke X llm (interpret_messages q sql preview (length rows)) (ext w)
    = (Ret raw, e') ->
  json_loads X (PyStr.strip raw) = Raise (JSONDecodeError msg) ->
  interpret_results X llm q sql rows w
    = (Ret (InterpretSuccess (fallback_interpretation (length rows))),
       Build_World (db w) e' (trace w ++ [EvInterpret sql (length rows)])).
Proof.
  intros Hd Hl Hj.
  unfold interpret_results, bind, try_except, lift, external, log, ret.
  cbn [db ext trace]. rewrite Hd, Hl, Hj. reflexivity.
Qed.


(** C6.  For every row list, when the model's reply to the interpretation
    prompt is not parsable as JSON, [interpret_results] raises nothing and
    returns the canned interpretation: answer ["Found {n} results."] with
    [n] the number of rows, no insights, visualization type ["table"].
    For the rows [{"id":1}, {"id":2}, {"id":3}] the answer is
    ["Found 3 results."]. *)
Theorem interpret_results_falls_back llm q sql rows preview raw msg
    (w : World E) e' :
  json_dumps X (Some 2) (rows_val (firstn 10 rows)) = Ret preview ->
  llm_invoke X llm (interpret_messages q sql preview (length rows)) (ext w)
    = (Ret raw, e') ->
  json_loads X (PyStr.strip raw) = Raise (JSONDecodeError msg) ->
  fst (interpret_results X llm q sql rows w)
  = Ret (InterpretSuccess
           (PDict [("answer",
                    PStr ("Found " ++ PyStr.str_of_nat (length rows)
                          ++ " results."));
                   ("insights", PList []);
                   ("visualization_type", PStr "table")]))
  /\ (rows = [[("id", PInt 1)]; [("id", PInt 2)]; [("id", PInt 3)]] ->
      fst (interpret_results X llm q sql rows w)
      = Ret (InterpretSuccess
               (PDict [("answer", PStr "Found 3 results.");
                       ("insights", PList []);
                       ("visualization_type", PStr "table")]))).
Proof.
  intros Hd Hl Hj.
  rewrite (interpret_results_unparsable _ _ _ _ _ _ _ _ _ Hd Hl Hj).
  split; [reflexivity|]. intros ->. reflexivity.
Qed.

End InterpreterProperties.

(** The three rows of C6 on the scripted model, which answers with text
    that is not JSON. *)
Lemma interpret_results_falls_back_witness :
  fst (interpret_results Scripted.X Scripted.gpt "Which ids are there?"
         "SELECT id FROM data"
         [[("id", PInt 1)]; [("id", PInt 2)]; [("id", PInt 3)]]
         (Scripted.world [] [Ret "Here are your ids!"] []))
  = Ret (InterpretSuccess
           (PDict [("answer", PStr "Found 3 results.");
                   ("insights", PList []);
                   ("visualization_type", PStr "table")])).
Proof.
  refine (proj2 (interpret_results_falls_back Scripted.X Scripted.gpt
                   "Which ids are there?" "SELECT id FROM data"
                   [[("id", PInt 1)]; [("id", PInt 2)]; [("id", PInt 3)]]
                   "[...]" "Here are your ids!"
                   "Expecting value: line 1 column 1 (char 0)"
                   (Scripted.world [] [Ret "Here are your ids!"] [])
                   {| Scripted.llm_tape := []; Scripted.engine_tape := [] |}
                   eq_refl eq_refl eq_refl) eq_refl).
Defined.

(** ** The query executor *)

Section ExecutorProperties.

Context {E : Type} (X : Externals E).

(** C7.  For every SQL string and every world, [execute_query] returns an
    outcome and raises nothing.  When the engine raises, the outcome is
    the failure carrying [str(e)] unchanged and the SQL that was tried.
    When the engine returns a frame, the outcome carries one record per
    row of the frame, in order and without a cap, the frame's column
    names, and a row count equal to the number of records. *)
Theorem execute_query_never_raises self sql (w : World E) :
  (exists outcome, fst (execute_query X self sql w) = Ret outcome)
  /\ (forall store e e',
        conn self = Some store ->
        conn_execute X store sql (ext w) = (Raise e, e') ->
        fst (execute_query X self sql w)
        = Ret (QueryFailure (str_exn X e) sql))
  /\ (forall store frame e',
        conn self = Some store ->
        conn_execute X store sql (ext w) = (Ret frame, e') ->
        exists rows,
          fst (execute_query X self sql w)
          = Ret (QuerySuccess rows (df_columns frame) (length rows))
          /\ length rows = length (df_rows frame)
          /\ forall i row,
               nth_error (df_rows frame) i = Some row ->
               nth_error rows i = Some (dict_of_zip (df_columns frame) row)).
Proof.
  repeat split.
  - destruct (execute_query_returns X self sql w) as (outcome & e' & H).
    exists outcome. rewrite H. reflexivity.
  - intros store e e' Hc H. destruct self as [path c]. cbn in Hc. subst c.
    rewrite (execute_query_rejected X _ _ _ _ _ _ H). reflexivity.
  - intros store frame e' Hc H. destruct self as [path c]. cbn in Hc. subst c.
    exists (to_dict_records frame).
    rewrite (execute_query_fetched X _ _ _ _ _ _ H).
    rewrite to_dict_records_length.
    split; [reflexivity|]. split; [reflexivity|].
    apply to_dict_records_nth.
Qed.

End ExecutorProperties.

(** A rejected statement and a three-row result on the scripted engine. *)
Lemma execute_query_never_raises_witness :
  fst (execute_query Scripted.X Scripted.connected "SELEC id FROM data"
         (Scripted.world [] [] []))
  = Ret (QueryFailure "Parser Error: syntax error at X" "SELEC id FROM data")
  /\ exists rows,
       fst (execute_query Scripted.X Scripted.connected "SELECT id FROM data"
              (Scripted.world [] [] []))
       = Ret (QuerySuccess rows ["id"] (length rows))
       /\ length rows = 3.
Proof.
  split.
  - refine (proj1 (proj2 (execute_query_never_raises Scripted.X
              Scripted.connected "SELEC id FROM data"
              (Scripted.world [] [] []))) _ _ _ eq_refl eq_refl).
  - destruct (proj2 (proj2 (execute_query_never_raises Scripted.X
              Scripted.connected "SELECT id FROM data"
              (Scripted.world [] [] []))) _ _ _ eq_refl eq_refl)
      as (rows & Hrun & Hlen & _).
    exists rows. split; [exact Hrun | exact Hlen].
Defined.

(** ** The handler, run step by step *)

Section HandlerRuns.

Context {E : Type} (X : Externals E).

Lemma with_duckdb_opened {A} path (body : DuckDBManager -> M E A)
    (w : World E) e1 :
  duckdb_connect X path (ext w) = (Ret tt, e1) ->
  with_duckdb X path body w
  = (fst (body {| db_path := path; conn := Some path |}
            (Build_World (db w) e1 (trace w ++ [EvConnect path]))),
     let w' := snd (body {| db_path := path; conn := Some path |}
                      (Build_World (db w) e1 (trace w ++ [EvConnect path]))) in
     Build_World (db w') (conn_close X path (ext w'))
       (trace w' ++ [EvClose path])).
Proof.
  intros H. unfold with_duckdb, enter, exit, bind, external, log, ret.
  cbn [db ext trace db_path conn]. rewrite H.
  destruct (body _ _) as [r w']. reflexivity.
Qed.

Lemma with_duckdb_unopened {A} path (body : DuckDBManager -> M E A)
    (w : World E) e e1 :
  duckdb_connect X path (ext w) = (Raise e, e1) ->
  with_duckdb X path body w
  = (Raise e, Build_World (db w) e1 (trace w ++ [EvConnect path])).
Proof.
  intros H. unfold with_duckdb, enter, bind, external, log, ret.
  cbn [db ext trace db_path]. rewrite H. reflexivity.
Qed.

Lemma conclude_failed llm chat q sql err tried (w : World E) :
  conclude X llm chat q sql (QueryFailure err tried) w
  = (Ret (Done {| message := failed_turn chat sql err; data := None;
                  visualization_type := PNone |}),
     Build_World (append_message (db w) (failed_turn chat sql err)) (ext w)
       (trace w ++ [EvStore (failed_turn chat sql err)])).
Proof. reflexivity. Qed.



(** First execution succeeds: no repair. *)
Lemma execute_with_repair_first llm path store sql schema frame
    (w : World E) e1 :
  conn_execute X store sql (ext w) = (Ret frame, e1) ->
  execute_with_repair X llm {| db_path := path; conn := Some store |}
    sql schema w
  = (Ret (sql, QuerySuccess (to_dict_records frame) (df_columns frame)
                 (length (df_rows frame))),
     Build_World (db w) e1 (trace w ++ [EvExecute sql])).
Proof.
  intros H. unfold execute_with_repair, bind.
  rewrite (execute_query_fetched X _ _ _ _ _ _ H). reflexivity.
Qed.

(** First execution fails and the repair call fails: the first failure
    stands, nothing is executed again. *)
Lemma execute_with_repair_unrepaired llm path store sql schema ctx err e
    (w : World E) e1 e2 :
  json_dumps X (Some 2) schema = Ret ctx ->
  conn_execute X store sql (ext w) = (Raise err, e1) ->
  llm_invoke X llm (fix_messages ctx sql (str_exn X err)) e1 = (Raise e, e2) ->
  execute_with_repair X llm {| db_path := path; conn := Some store |}
    sql schema w
  = (Ret (sql, QueryFailure (str_exn X err) sql),
     Build_World (db w) e2
       ((trace w ++ [EvExecute sql]) ++ [EvFixSql sql (str_exn X err)])).
Proof.
  intros Hd H1 H2. unfold execute_with_repair, bind.
  rewrite (execute_query_rejected X _ _ _ _ _ _ H1).
  rewrite (fix_sql_error_raised X _ _ _ _ _ _
             (Build_World (db w) e1 (trace w ++ [EvExecute sql])) _ Hd H2).
  reflexivity.
Qed.

(** First execution fails, the repair call replies: the repaired statement
    is executed once, and its outcome is final. *)
Lemma execute_with_repair_repaired llm path store sql schema ctx err reply r
    (w : World E) e1 e2 e3 :
  json_dumps X (Some 2) schema = Ret ctx ->
  conn_execute X store sql (ext w) = (Raise err, e1) ->
  llm_invoke X llm (fix_messages ctx sql (str_exn X err)) e1
    = (Ret reply, e2) ->
  conn_execute X store (clean_sql reply) e2 = (r, e3) ->
  execute_with_repair X llm {| db_path := path; conn := Some store |}
    sql schema w
  = (Ret (clean_sql reply,
          match r with
          | Ret frame =>
              QuerySuccess (to_dict_records frame) (df_columns frame)
                (length (df_rows frame))
          | Raise err' => QueryFailure (str_exn X err') (clean_sql reply)
          end),
     Build_World (db w) e3
       (((trace w ++ [EvExecute sql]) ++ [EvFixSql sql (str_exn X err)])
        ++ [EvExecute (clean_sql reply)])).
Proof.
  intros Hd H1 H2 H3. unfold execute_with_repair, bind.
  rewrite (execute_query_rejected X _ _ _ _ _ _ H1).
  rewrite (fix_sql_error_replied X _ _ _ _ _ _
             (Build_World (db w) e1 (trace w ++ [EvExecute sql])) _ Hd H2).
  destruct r as [frame|err'].
  - rewrite (execute_query_fetched X _ _ _ _
               (Build_World (db w) e2
                  ((trace w ++ [EvExecute sql])
                   ++ [EvFixSql sql (str_exn X err)])) _ H3).
    reflexivity.
  - rewrite (execute_query_rejected X _ _ _ _
               (Build_World (db w) e2
                  ((trace w ++ [EvExecute sql])
                   ++ [EvFixSql sql (str_exn X err)])) _ H3).
    reflexivity.
Qed.

(** A flush changes nothing but the content, which it turns into text. *)
Lemma flush_keeps_columns (m row : Message) :
  flush X m = Ret row ->
  msg_chat_id row = msg_chat_id m /\ role row = role m
  /\ sql_query row = sql_query m /\ query_result row = query_result m
  /\ error_message row = error_message m
  /\ exists text, content row = PStr text.
Proof.
  unfold flush. destruct (content m) eqn:Hc; try discriminate;
    try (destruct (db_text X _) as [text|e]; [|discriminate];
         intros H; injection H as <-; cbn; repeat split; eauto).
  intros H. injection H as <-. repeat split. eauto.
Qed.

Lemma flush_text (m : Message) (text : string) :
  content m = PStr text -> flush X m = Ret m.
Proof. unfold flush. intros ->. reflexivity. Qed.

(** The success branch of [conclude], step by step. *)
Lemma conclude_success_run llm chat q sql rows cols n (w : World E) :
  conclude X llm chat q sql (QuerySuccess rows cols n) w
  = match interpret_results X llm q sql rows w with
    | (Raise e, w1) => (Raise e, w1)
    | (Ret r, w1) =>
        match py_get (get_interpretation r) "answer"
                (PStr ("Found " ++ PyStr.str_of_nat n ++ " results.")),
              py_get (get_interpretation r) "visualization_type"
                (PStr "table")
        with
        | Raise e, _ => (Raise e, w1)
        | Ret _, Raise e => (Raise e, w1)
        | Ret answer, Ret viz =>
            match json_dumps X None (rows_val rows) with
            | Raise e => (Raise e, w1)
            | Ret serialized =>
                match flush X (answer_turn chat answer sql serialized) with
                | Raise e => (Ret (FlushError e), w1)
                | Ret turn =>
                    (match new_response X turn (Some rows) viz with
                     | Ret response => Ret (Done response)
                     | Raise e => Raise e
                     end,
                     Build_World (append_message (db w1) turn) (ext w1)
                       (trace w1 ++ [EvStore turn]))
                end
            end
        end
    end.
Proof.
  unfold conclude, bind, lift, flushing, add_commit, ret.
  destruct (interpret_results X llm q sql rows w) as [[r|e] w1];
    [|reflexivity].
  destruct (py_get (get_interpretation r) "answer" _) as [answer|e];
    [|reflexivity].
  destruct (py_get (get_interpretation r) "visualization_type" _)
    as [viz|e]; [|reflexivity].
  destruct (json_dumps X None (rows_val rows)) as [serialized|e];
    [|reflexivity].
  destruct (flush X _) as [turn|e]; [|reflexivity].
  destruct (new_response X turn _ _); reflexivity.
Qed.

(** What [interpret_results] leaves behind, however it ends. *)
Lemma interpret_results_state llm q sql rows (w : World E) :
  db (snd (interpret_results X llm q sql rows w)) = db w
  /\ trace (snd (interpret_results X llm q sql rows w))
     = (trace w ++ [EvInterpret sql (length rows)])%list.
Proof.
  unfold interpret_results, bind, try_except, lift, external, log, ret.
  cbn [db ext trace].
  destruct (json_dumps X (Some 2) _) as [preview|e0]; [|auto].
  destruct (llm_invoke X llm _ (ext w)) as [[raw|e1] e'].
  - destruct (json_loads X _) as [v|[]]; auto.
  - destruct e1; auto.
Qed.

(** Every way the success branch of [conclude] can end.  Before anything
    is stored it raises (the rows do not print, the interpretation is not
    an object) or the flush of the answer turn fails; once the answer
    turn is stored, with the statement and the serialized rows, the
    response is returned or refused. *)
Lemma conclude_success_cases llm chat q sql rows cols n (w : World E) :
  exists w1,
    db w1 = db w
    /\ trace w1 = (trace w ++ [EvInterpret sql (length rows)])%list
    /\ ((exists cause,
           conclude X llm chat q sql (QuerySuccess rows cols n) w
           = (Raise cause, w1))
        \/ (exists cause,
              conclude X llm chat q sql (QuerySuccess rows cols n) w
              = (Ret (FlushError cause), w1))
        \/ (exists turn serialized r,
              conclude X llm chat q sql (QuerySuccess rows cols n) w
              = (r, Build_World (append_message (db w1) turn) (ext w1)
                      (trace w1 ++ [EvStore turn]))
              /\ json_dumps X None (rows_val rows) = Ret serialized
              /\ msg_chat_id turn = chat_id chat
              /\ role turn = "assistant"
              /\ (exists text, content turn = PStr text)
              /\ sql_query turn = Some sql
              /\ query_result turn = Some serialized
              /\ error_message turn = None
              /\ ((exists viz,
                     r = Ret (Done {| message := turn; data := Some rows;
                                      visualization_type := viz |}))
                  \/ (exists cause, r = Raise cause)))).
Proof.
  rewrite conclude_success_run.
  destruct (interpret_results_state llm q sql rows w) as [Hdb Htr].
  destruct (interpret_results X llm q sql rows w) as [[r|cause] w1];
    cbn [snd] in Hdb, Htr; exists w1; (split; [exact Hdb|]);
    (split; [exact Htr|]); [|left; eauto].
  destruct (py_get (get_interpretation r) "answer" _) as [answer|cause];
    [|left; eauto].
  destruct (py_get (get_interpretation r) "visualization_type" _)
    as [viz|cause]; [|left; eauto].
  destruct (json_dumps X None (rows_val rows)) as [serialized|cause] eqn:Hs;
    [|left; eauto].
  destruct (flush X (answer_turn chat answer sql serialized))
    as [turn|cause] eqn:Hf; [|right; left; eauto].
  right. right.
  destruct (flush_keeps_columns _ _ Hf) as (H1 & H2 & H3 & H4 & H5 & H6).
  exists turn, serialized.
  destruct (new_response X turn (Some rows) viz) as [resp|cause] eqn:Hr.
  - eexists. split; [reflexivity|].
    repeat (split; [assumption || reflexivity|]).
    left. exists viz. unfold new_response in Hr.
    destruct viz; try discriminate Hr; injection Hr as <-; reflexivity.
  - eexists. split; [reflexivity|].
    repeat (split; [assumption || reflexivity|]).
    right. eauto.
Qed.

Lemma found_chat request user (w : World E) chat :
  chat_found request user w chat ->
  first_chat (req_chat_id request) (user_id user) w = (Ret (Some chat), w).
Proof.
  unfold chat_found, first_chat. cbn [fst]. intros H.
  injection H as H. rewrite H. reflexivity.
Qed.

Lemma found_config user (w : World E) active :
  config_found user w active ->
  first_active_config (user_id user) w = (Ret active, w).
Proof.
  unfold config_found, first_active_config. cbn [fst]. intros H.
  injection H as H. rewrite H. reflexivity.
Qed.

(** With everything resolved, the handler stores the user turn and runs
    the pipeline under the [except] clause. *)
Lemma query_data_resolved request user (w : World E) chat llm_config :
  chat_found request user w chat ->
  config_found user w (Some llm_config) ->
  query_data X request user w
  = try_except_session
      (pipeline X chat
         (find (fun p => Nat.eqb (project_id p) (chat_project_id chat))
            (projects (db w)))
         llm_config (req_query request))
      (on_exception X chat)
      (Build_World
         (append_message (db w) (user_turn chat (req_query request))) (ext w)
         (trace w ++ [EvStore (user_turn chat (req_query request))])).
Proof.
  intros Hc Hf. unfold query_data. unfold bind at 1.
  rewrite (found_chat _ _ _ _ Hc). unfold bind at 1.
  unfold first_project at 1. unfold bind at 1.
  rewrite (found_config _ _ _ Hf). reflexivity.
Qed.

(** With everything resolved, the pipeline reaches the generator. *)
Lemma query_data_generating request user (w : World E) chat project llm
    schema ctx :
  Resolved X request user w chat project llm schema ctx ->
  query_data X request user w
  = try_except_session
      (fun w1 =>
         match
           llm_invoke X llm
             (generation_messages X w chat (req_query request) ctx) (ext w1)
         with
         | (Ret reply, e1) =>
             answer_with X llm chat (duckdb_file_path project)
               (req_query request) (clean_sql reply) schema
               (Build_World (db w1) e1
                  (trace w1 ++ [EvTextToSql (req_query request)]))
         | (Raise e, e1) =>
             (Raise (HTTPException 500
                       ("Failed to generate SQL: " ++ str_exn X e)),
              Build_World (db w1) e1
                (trace w1 ++ [EvTextToSql (req_query request)]))
         end)
      (on_exception X chat)
      (Build_World
         (append_message (db w) (user_turn chat (req_query request))) (ext w)
         (trace w ++ [EvStore (user_turn chat (req_query request))])).
Proof.
  intros [Hchat Hproj (cfg & key & Hcfg & Hkey & Hllm) Hschema Hctx].
  rewrite (query_data_resolved _ _ _ _ cfg Hchat Hcfg).
  unfold first_project in Hproj. cbn [fst] in Hproj. injection Hproj as Hproj.
  rewrite Hproj. unfold try_except_session.
  match goal with
  | |- match ?a with _ => _ end = match ?b with _ => _ end =>
      assert (a = b) as ->; [|reflexivity]
  end.
  cbn beta. unfold pipeline, bind, lift, last_messages.
  rewrite Hkey, Hllm, Hschema. cbn [db ext trace].
  destruct (llm_invoke X llm
              (generation_messages X w chat (req_query request) ctx) (ext w))
    as [[reply|e] e1] eqn:Hl; pose proof Hl as Hl';
    unfold generation_messages in Hl'.
  - rewrite (text_to_sql_replied X _ _ _ _ _ _
               (Build_World
                  (append_message (db w) (user_turn chat (req_query request)))
                  (ext w)
                  (trace w ++ [EvStore (user_turn chat (req_query request))]))
               _ Hctx Hl').
    reflexivity.
  - rewrite (text_to_sql_raised X _ _ _ _ _ _
               (Build_World
                  (append_message (db w) (user_turn chat (req_query request)))
                  (ext w)
                  (trace w ++ [EvStore (user_turn chat (req_query request))]))
               _ Hctx Hl').
    reflexivity.
Qed.

End HandlerRuns.

(** ** The handler: repair *)

Section RepairProperties.

Context {E : Type} (X : Externals E).

(** C3.  Against an executor that always fails (the request being
    resolved, the store opening and the model replying to its prompts),
    the handler makes exactly these calls, in this order: one generation,
    one execution, one repair, one execution of the repaired statement.
    It then stores the assistant turn of a failure (an error summary as
    content, the statement last tried, the engine's error, no result
    data) and returns it.  No second repair takes place. *)
Theorem failing_executor_one_repair request user (w : World E)
    chat project llm schema ctx :
  Resolved X request user w chat project llm schema ctx ->
  store_opens X (duckdb_file_path project) ->
  executor_always_fails X ->
  model_always_replies X ->
  exists sql err fixed err',
    let q := req_query request in
    let turn := failed_turn chat fixed err' in
    let run := query_data X request user w in
    fst run = Ret {| message := turn; data := None;
                     visualization_type := PNone |}
    /\ trace (snd run)
       = (trace w
          ++ [ EvStore (user_turn chat q);
               EvTextToSql q;
               EvConnect (duckdb_file_path project);
               EvExecute sql;
               EvFixSql sql err;
               EvExecute fixed;
               EvStore turn;
               EvClose (duckdb_file_path project) ])%list
    /\ messages (db (snd run))
       = (messages (db w) ++ [user_turn chat q; turn])%list
    /\ role turn = "assistant"
    /\ content turn = PStr ("I encountered an error: " ++ err')
    /\ sql_query turn = Some fixed
    /\ error_message turn = Some err'
    /\ query_result turn = None.
Proof.
  intros Hres Hopen Hfail Hreply. cbn zeta.
  rewrite (query_data_generating X _ _ _ _ _ _ _ _ Hres).
  unfold try_except_session. cbn [db ext trace].
  set (path := duckdb_file_path project). set (q := req_query request).
  destruct (llm_invoke X llm (generation_messages X w chat q ctx) (ext w))
    as [r0 e1] eqn:Hgen.
  destruct (Hreply llm (generation_messages X w chat q ctx) (ext w))
    as [reply Hr]. rewrite Hgen in Hr. cbn [fst] in Hr. subst r0.
  set (sql := clean_sql reply).
  destruct (duckdb_connect X path e1) as [r1 e2] eqn:Hcon.
  pose proof (Hopen e1) as Hr. fold path in Hr. rewrite Hcon in Hr.
  cbn [fst] in Hr. subst r1.
  destruct (conn_execute X path sql e2) as [r2 e3] eqn:Hex1.
  destruct (Hfail path sql e2) as [err Hr]. rewrite Hex1 in Hr.
  cbn [fst] in Hr. subst r2.
  destruct (llm_invoke X llm (fix_messages ctx sql (str_exn X err)) e3)
    as [r3 e4] eqn:Hfix.
  destruct (Hreply llm (fix_messages ctx sql (str_exn X err)) e3)
    as [reply' Hr]. rewrite Hfix in Hr. cbn [fst] in Hr. subst r3.
  set (fixed := clean_sql reply').
  destruct (conn_execute X path fixed e4) as [r4 e5] eqn:Hex2.
  destruct (Hfail path fixed e4) as [err' Hr]. rewrite Hex2 in Hr.
  cbn [fst] in Hr. subst r4.
  exists sql, (str_exn X err), fixed, (str_exn X err').
  unfold answer_with.
  rewrite (with_duckdb_opened X path _
             (Build_World _ e1 _) e2 Hcon).
  unfold bind. cbn [db ext trace].
  rewrite (execute_with_repair_repaired X llm path path sql schema ctx err
             reply' (Raise err') (Build_World _ e2 _) e3 e4 e5
             (res_context X _ _ _ _ _ _ _ _ Hres) Hex1 Hfix Hex2).
  cbn [fst snd]. rewrite conclude_failed. cbn [fst snd db ext trace].
  split; [reflexivity|]. split; [|split].
  - rewrite <- !app_assoc. reflexivity.
  - cbn [append_message messages]. rewrite <- !app_assoc. reflexivity.
  - repeat split.
Qed.

End RepairProperties.

(** ** The handler: interpretation *)

Section InterpretationProperties.

Context {E : Type} (X : Externals E).



End InterpretationProperties.

(** ** The handler: what it stores and when *)

Create HintDb extends.

Section Bookkeeping.

Context {E : Type} (X : Externals E).

Lemma extends_ret {A} (a : A) : extends (E:=E) (ret a).
Proof. intros w. exists [], []. cbn. rewrite !app_nil_r. auto. Qed.

Lemma extends_raise {A} (e : exn) : extends (E:=E) (A:=A) (raise e).
Proof. intros w. exists [], []. cbn. rewrite !app_nil_r. auto. Qed.

Lemma extends_lift {A} (r : result A) : extends (E:=E) (lift r).
Proof. intros w. exists [], []. cbn. rewrite !app_nil_r. auto. Qed.

Lemma extends_external {A} (f : E -> result A * E) : extends (external f).
Proof.
  intros w. exists [], []. unfold external.
  destruct (f (ext w)). cbn. rewrite !app_nil_r. auto.
Qed.

Lemma extends_log (ev : Event) : extends (E:=E) (log ev).
Proof. intros w. exists [ev], []. cbn. rewrite app_nil_r. auto. Qed.

Lemma extends_add_commit (m : Message) : extends (add_commit X m).
Proof.
  intros w. unfold add_commit. destruct (flush X m) as [row|e].
  - exists [EvStore row], [row]. cbn. auto.
  - exists [], []. cbn. rewrite !app_nil_r. auto.
Qed.

Lemma extends_last_messages id : extends (last_messages X id).
Proof. intros w. exists [], []. cbn. rewrite !app_nil_r. auto. Qed.

Lemma extends_flushing {A} (m : M E A) : extends m -> extends (flushing m).
Proof.
  intros Hm w. unfold flushing. specialize (Hm w).
  destruct (m w) as [[a|e] w1]; exact Hm.
Qed.

Lemma extends_bind {A B} (m : M E A) (k : A -> M E B) :
  extends m -> (forall a, extends (k a)) -> extends (bind m k).
Proof.
  intros Hm Hk w. unfold bind.
  destruct (Hm w) as (ev1 & ms1 & Ht1 & Hm1).
  destruct (m w) as [[a|e] w1]; cbn [snd] in *.
  - destruct (Hk a w1) as (ev2 & ms2 & Ht2 & Hm2).
    exists (ev1 ++ ev2)%list, (ms1 ++ ms2)%list.
    rewrite Ht2, Hm2, Ht1, Hm1, <- !app_assoc. auto.
  - exists ev1, ms1. auto.
Qed.

Lemma extends_try_except {A} (body : M E A) (handler : exn -> M E A) :
  extends body -> (forall e, extends (handler e)) ->
  extends (try_except body handler).
Proof.
  intros Hm Hk w. unfold try_except.
  destruct (Hm w) as (ev1 & ms1 & Ht1 & Hm1).
  destruct (body w) as [[a|e] w1]; cbn [snd] in *.
  - exists ev1, ms1. auto.
  - destruct (Hk e w1) as (ev2 & ms2 & Ht2 & Hm2).
    exists (ev1 ++ ev2)%list, (ms1 ++ ms2)%list.
    rewrite Ht2, Hm2, Ht1, Hm1, <- !app_assoc. auto.
Qed.

Lemma extends_try_except_session {A} (body : M E (Ending A))
    (handler : SessionState -> exn -> M E A) :
  extends body -> (forall session e, extends (handler session e)) ->
  extends (try_except_session body handler).
Proof.
  intros Hm Hk w. unfold try_except_session.
  destruct (Hm w) as (ev1 & ms1 & Ht1 & Hm1).
  destruct (body w) as [[[a|e]|e] w1]; cbn [snd] in *.
  - exists ev1, ms1. auto.
  - destruct (Hk Inactive e w1) as (ev2 & ms2 & Ht2 & Hm2).
    exists (ev1 ++ ev2)%list, (ms1 ++ ms2)%list.
    rewrite Ht2, Hm2, Ht1, Hm1, <- !app_assoc. auto.
  - destruct (Hk Active e w1) as (ev2 & ms2 & Ht2 & Hm2).
    exists (ev1 ++ ev2)%list, (ms1 ++ ms2)%list.
    rewrite Ht2, Hm2, Ht1, Hm1, <- !app_assoc. auto.
Qed.

#[local] Hint Resolve extends_ret extends_raise extends_lift extends_external
  extends_log extends_add_commit extends_last_messages : extends.

Lemma extends_enter self : extends (enter X self).
Proof.
  unfold enter. apply extends_bind; [auto with extends|intros _].
  apply extends_bind; [auto with extends|intros _]. auto with extends.
Qed.

Lemma extends_exit self : extends (exit X self).
Proof.
  unfold exit. destruct (conn self); [|auto with extends].
  apply extends_bind; [auto with extends|intros _]. auto with extends.
Qed.

Lemma extends_with_duckdb {A} path (body : DuckDBManager -> M E A) :
  (forall duck_db, extends (body duck_db)) -> extends (with_duckdb X path body).
Proof.
  intros Hb. unfold with_duckdb. apply extends_bind; [apply extends_enter|].
  intros duck_db w.
  destruct (Hb duck_db w) as (ev1 & ms1 & Ht1 & Hm1).
  destruct (body duck_db w) as [r w1]. cbn [snd] in *.
  destruct (extends_exit duck_db w1) as (ev2 & ms2 & Ht2 & Hm2).
  exists (ev1 ++ ev2)%list, (ms1 ++ ms2)%list.
  rewrite Ht2, Hm2, Ht1, Hm1, <- !app_assoc. auto.
Qed.

Ltac extends_step :=
  match goal with
  | |- extends (bind _ _) => apply extends_bind; [|intros]
  | |- extends (try_except _ _) => apply extends_try_except; [|intros]
  | |- extends (try_except_session _ _) =>
      apply extends_try_except_session; [|intros]
  | |- extends (flushing _) => apply extends_flushing
  | |- extends (with_duckdb _ _ _) => apply extends_with_duckdb; intros
  | |- extends (match ?x with _ => _ end) => destruct x
  | |- extends _ => solve [auto with extends]
  end.

Lemma extends_pipeline chat project llm_config query :
  extends (pipeline X chat project llm_config query).
Proof.
  unfold pipeline, text_to_sql, answer_with, execute_with_repair, conclude,
    fix_sql_error, invoke_for_sql, interpret_results, execute_query.
  repeat extends_step.
Qed.

Lemma extends_on_exception chat session e :
  extends (on_exception X chat session e).
Proof. unfold on_exception. repeat extends_step. Qed.

End Bookkeeping.

(** ** The handler: what reaches the caller *)

Section Propagation.

Context {E : Type} (X : Externals E).

Lemma query_data_no_chat request user (w : World E) :
  fst (first_chat (req_chat_id request) (user_id user) w) = Ret None ->
  query_data X request user w
  = (Raise (HTTPException 404 "Chat not found"), w).
Proof.
  intros Hnone. unfold query_data. unfold bind at 1.
  unfold first_chat in *. cbn [fst] in *. injection Hnone as ->.
  reflexivity.
Qed.

Lemma query_data_no_config request user (w : World E) chat :
  chat_found request user w chat -> config_found user w None ->
  query_data X request user w
  = (Raise (HTTPException 400
              "No active LLM configuration. Please configure your API key."),
     w).
Proof.
  intros Hchat Hnone. unfold query_data. unfold bind at 1.
  rewrite (found_chat _ _ _ _ Hchat). unfold bind at 1.
  unfold first_project at 1. unfold bind at 1.
  rewrite (found_config _ _ _ Hnone). reflexivity.
Qed.

(** C2, as the code has it.  The active configuration is looked up before
    anything is stored: when the chat resolves and no configuration is
    active, the handler raises the 400 error and leaves the world as it
    was, so no turn at all is stored.  When both resolve, storing the
    user turn is the first thing the handler does: its trace begins with
    that store, ahead of any generation call, and the user turn is the
    first message added. *)
Theorem user_turn_stored_after_config_check request user (w : World E) chat :
  chat_found request user w chat ->
  let run := query_data X request user w in
  (config_found user w None ->
     fst run
     = Raise (HTTPException 400
                "No active LLM configuration. Please configure your API key.")
     /\ snd run = w)
  /\ (forall llm_config,
        config_found user w (Some llm_config) ->
        exists later_events later_turns,
          trace (snd run)
          = (trace w
             ++ EvStore (user_turn chat (req_query request)) :: later_events)%list
          /\ messages (db (snd run))
             = (messages (db w)
                ++ user_turn chat (req_query request) :: later_turns)%list).
Proof.
  intros Hchat run. subst run. split.
  - intros Hnone. rewrite (query_data_no_config _ _ _ _ Hchat Hnone).
    split; reflexivity.
  - intros cfg Hcfg.
    rewrite (query_data_resolved X _ _ _ _ cfg Hchat Hcfg).
    match goal with
    | |- context [try_except_session ?body ?handler ?w1] =>
        destruct (extends_try_except_session body handler
                    (extends_pipeline X _ _ _ _)
                    (extends_on_exception X chat) w1)
          as (events & turns & Ht & Hm)
    end.
    exists events, turns. rewrite Ht, Hm.
    cbn [db trace append_message messages]. rewrite <- !app_assoc.
    split; reflexivity.
Qed.

End Propagation.

(** ** The properties on the scripted world *)

Module ScriptedRuns.
Import Scripted.

(** Alice's request on chat 1 is resolved in every scripted world where
    her configuration is stored. *)
Lemma resolved (X0 : Externals Tape) question replies frames :
  fernet_decrypt X0 = fernet_decrypt X ->
  json_loads X0 = json_loads X ->
  json_dumps X0 = json_dumps X ->
  Resolved X0 (ask question) alice (world [config7] replies frames)
    chat1 project3 gpt (PDict []) "[...]".
Proof.
  intros Hk Hl Hd. constructor.
  - reflexivity.
  - reflexivity.
  - exists config7, "gAAAA". rewrite Hk. repeat split.
  - reflexivity.
  - rewrite Hd. reflexivity.
Qed.


(** Alice has no active configuration: the 400 error is raised and her
    question is not among the stored messages. *)
Lemma no_config_stores_no_user_turn :
  ~ (forall request user (w : World Tape) chat,
        chat_found request user w chat ->
        In (user_turn chat (req_query request))
           (messages (db (snd (query_data X request user w))))).
Proof.
  intros H.
  exact (H (ask "How many rows are there?") alice (world [] [] []) chat1
           eq_refl).
Qed.

Lemma user_turn_stored_after_config_check_witness :
  (fst (query_data X (ask "How many rows are there?") alice (world [] [] []))
   = Raise (HTTPException 400
              "No active LLM configuration. Please configure your API key.")
   /\ snd (query_data X (ask "How many rows are there?") alice
             (world [] [] []))
      = world [] [] [])
  /\ exists later_events later_turns,
       trace (snd (query_data X (ask "How many rows are there?") alice
                     (world [config7] [] [])))
       = EvStore (user_turn chat1 "How many rows are there?") :: later_events
       /\ messages (db (snd (query_data X (ask "How many rows are there?")
                               alice (world [config7] [] []))))
          = user_turn chat1 "How many rows are there?" :: later_turns.
Proof.
  split.
  - exact (proj1 (user_turn_stored_after_config_check X
                    (ask "How many rows are there?") alice (world [] [] [])
                    chat1 eq_refl) eq_refl).
  - exact (proj2 (user_turn_stored_after_config_check X
                    (ask "How many rows are there?") alice
                    (world [config7] [] []) chat1 eq_refl) config7 eq_refl).
Defined.

Lemma failing_executor_one_repair_witness :
  exists sql err fixed err',
    fst (query_data X_failing (ask "How many rows are there?") alice
           (world [config7] [] []))
    = Ret {| message := failed_turn chat1 fixed err'; data := None;
             visualization_type := PNone |}
    /\ trace (snd (query_data X_failing (ask "How many rows are there?") alice
                     (world [config7] [] [])))
       = [ EvStore (user_turn chat1 "How many rows are there?");
           EvTextToSql "How many rows are there?";
           EvConnect "user_7_project_3.duckdb";
           EvExecute sql;
           EvFixSql sql err;
           EvExecute fixed;
           EvStore (failed_turn chat1 fixed err');
           EvClose "user_7_project_3.duckdb" ].
Proof.
  destruct (failing_executor_one_repair X_failing
              (ask "How many rows are there?") alice (world [config7] [] [])
              chat1 project3 gpt (PDict []) "[...]")
    as (sql & err & fixed & err' & Hrun & Htrace & _).
  - apply resolved; reflexivity.
  - intros e. reflexivity.
  - intros store sql e. eexists. reflexivity.
  - intros llm msgs e. eexists. reflexivity.
  - exists sql, err, fixed, err'. split; [exact Hrun | exact Htrace].
Defined.





End ScriptedRuns.

(** ** Concrete runs *)

Module Runs.
Import Scripted.

Example clean_sql_tagged :
  clean_sql ("```sql" ++ PyStr.nl ++ "SELECT 1" ++ PyStr.nl ++ "```") = "SELECT 1".
Proof. reflexivity. Qed.

Example clean_sql_untagged :
  clean_sql ("```" ++ PyStr.nl ++ "SELECT 1" ++ PyStr.nl ++ "```") = "SELECT 1".
Proof. reflexivity. Qed.

(** A reply that does not open with a fence is only stripped of its
    surrounding whitespace. *)
Example clean_sql_plain : clean_sql "  SELECT 1 ``` " = "SELECT 1 ```".
Proof. reflexivity. Qed.

Example replace_empty_pattern : PyStr.replace "ab" "" "-" = "-a-b-".
Proof. reflexivity. Qed.

Example replace_runs : PyStr.replace "a```````b" "```" "" = "a`b".
Proof. reflexivity. Qed.

Example strip_both_ends :
  PyStr.strip (PyStr.nl ++ "  SELECT 1 ;  " ++ PyStr.nl) = "SELECT 1 ;".
Proof. reflexivity. Qed.

Example records_of_frame :
  to_dict_records ids_frame
  = [[("id", PInt 1)]; [("id", PInt 2)]; [("id", PInt 3)]].
Proof. reflexivity. Qed.

(** The counting question: the statement is generated, executed and
    interpreted, and the rows come back with the answer. *)
Example counting_question :
  fst (query_data X (ask "How many rows are there?") alice
         (world [config7] [Ret "SELECT COUNT(*) FROM data"; Ret answer_json] []))
  = Ret {| message :=
             answer_turn chat1 (PStr "There are 42 rows.")
               "SELECT COUNT(*) FROM data" "[...]";
           data := Some [[("count", PInt 42)]];
           visualization_type := PStr "bar" |}.
Proof. reflexivity. Qed.

(** The repair call fails: the first error is reported and the statement
    is not executed again. *)
Example repair_call_fails :
  trace (snd (query_data X (ask "How many rows are there?") alice
                (world [config7] [Ret "SELEC 1"] [])))
  = [ EvStore (user_turn chat1 "How many rows are there?");
      EvTextToSql "How many rows are there?";
      EvConnect "user_7_project_3.duckdb";
      EvExecute "SELEC 1";
      EvFixSql "SELEC 1" "Parser Error: syntax error at X";
      EvStore (failed_turn chat1 "SELEC 1" "Parser Error: syntax error at X");
      EvClose "user_7_project_3.duckdb" ].
Proof. reflexivity. Qed.

(** An answer of null: the store refuses the answer turn, the commit of the
    [except] clause raises, and the user turn is all that is stored. *)
Example null_answer_is_refused :
  let run :=
    query_data X (ask "Which ids are there?") alice
      (world [config7] [Ret "SELECT id FROM data"; Ret null_answer_json] []) in
  fst run
  = Raise (pending_rollback X (not_null_violation X "messages.content"))
  /\ messages (db (snd run)) = [user_turn chat1 "Which ids are there?"].
Proof. split; reflexivity. Qed.

(** An answer that is a number comes back as the text the store keeps. *)
Example numeric_answer_is_kept_as_text :
  fst (query_data X (ask "Which ids are there?") alice
         (world [config7] [Ret "SELECT id FROM data"; Ret numeric_answer_json]
            []))
  = Ret {| message :=
             answer_turn chat1 (PStr "42") "SELECT id FROM data" "[...]";
           data := Some [[("id", PInt 1)]; [("id", PInt 2)]; [("id", PInt 3)]];
           visualization_type := PStr "table" |}.
Proof. reflexivity. Qed.

(** The history window in the scripted world, whose store returns the
    newest row first: the five newest messages of the chat, oldest
    first. *)
Example history_window :
  let turn n := user_turn chat1 (PyStr.str_of_nat n) in
  chat_history_of
    (select_last_messages X
       {| chats := []; projects := []; llm_configs := [];
          messages := map turn [1; 2; 3; 4; 5; 6; 7] |} 1)
  = map (fun n => ("user", PStr (PyStr.str_of_nat n))) [3; 4; 5; 6; 7].
Proof. reflexivity. Qed.

End Runs.

(** ** Every path of the handler *)

Section Paths.

Context {E : Type} (X : Externals E).

Lemma stored_app d ms1 ms2 : stored d (ms1 ++ ms2) = stored (stored d ms1) ms2.
Proof. apply fold_left_app. Qed.

Lemma stored_messages d ms : messages (stored d ms) = (messages d ++ ms)%list.
Proof.
  unfold stored. revert d; induction ms as [|m ms IH]; intros d; cbn [fold_left].
  - rewrite app_nil_r. reflexivity.
  - rewrite IH. cbn. rewrite <- app_assoc. reflexivity.
Qed.

Lemma stored_tables d ms :
  chats (stored d ms) = chats d /\ projects (stored d ms) = projects d
  /\ llm_configs (stored d ms) = llm_configs d.
Proof.
  unfold stored. revert d; induction ms as [|m ms IH]; intros d;
    cbn [fold_left]; [auto|].
  destruct (IH (append_message d m)) as (H1 & H2 & H3).
  rewrite H1, H2, H3. auto.
Qed.

Lemma effect_bind {A B} (m : M E A) (k : A -> M E B) w a r ev1 ms1 ev2 ms2 :
  effect m w (Ret a) ev1 ms1 ->
  effect (k a) (snd (m w)) r ev2 ms2 ->
  effect (bind m k) w r (ev1 ++ ev2) (ms1 ++ ms2).
Proof.
  unfold effect, bind. intros (Hr & Ht & Hd) (Hr' & Ht' & Hd').
  destruct (m w) as [r0 w1]. cbn [fst snd] in *. subst r0.
  rewrite Hr', Ht', Hd', Ht, Hd, stored_app, app_assoc. auto.
Qed.

Lemma effect_bind_raise {A B} (m : M E A) (k : A -> M E B) w e ev ms :
  effect m w (Raise e) ev ms -> effect (bind m k) w (Raise e) ev ms.
Proof.
  unfold effect, bind. intros (Hr & Ht & Hd).
  destruct (m w) as [r0 w1]. cbn [fst snd] in *. subst r0. auto.
Qed.


Ltac crack :=
  repeat match goal with
    | |- context [match ?x with _ => _ end] =>
        lazymatch x with
        | context [match _ with _ => _ end] => fail
        | _ => destruct x eqn:?
        end
    end.

Ltac settle :=
  unfold effect; cbn [fst snd db ext trace];
  repeat match goal with
    | |- exists _, _ => eexists
    | |- _ /\ _ => split
    end;
  try reflexivity;
  try (rewrite <- ?app_assoc; reflexivity);
  try (rewrite ?app_nil_r; reflexivity).

Lemma conclude_effect llm chat q sql outcome (w : World E) :
  exists r events turns,
    effect (conclude X llm chat q sql outcome) w r events turns
    /\ match outcome, r with
       | QueryFailure err _, Ret (Done resp) =>
           resp = {| message := failed_turn chat sql err; data := None;
                     visualization_type := PNone |}
           /\ turns = [message resp] /\ map kind_of events = [KStore]
       | QueryFailure _ _, _ => False
       | QuerySuccess rows _ _, Ret (Done resp) =>
           (exists answer serialized,
               message resp = answer_turn chat (PStr answer) sql serialized)
           /\ data resp = Some rows
           /\ turns = [message resp]
           /\ map kind_of events = [KInterpret; KStore]
       | QuerySuccess _ _ _, Ret (FlushError _) =>
           turns = [] /\ map kind_of events = [KInterpret]
       | QuerySuccess _ _ _, Raise _ =>
           turns = [] /\ map kind_of events = [KInterpret]
           \/ (exists answer serialized,
                  turns = [answer_turn chat (PStr answer) sql serialized])
              /\ map kind_of events = [KInterpret; KStore]
       end.
Proof.
  destruct outcome as [rows cols n | err tried].
  - destruct (conclude_success_cases X llm chat q sql rows cols n w)
      as (w1 & Hdb & Htr & [(cause & Hc) | [(cause & Hc) | Hc]]).
    + exists (Raise cause), [EvInterpret sql (length rows)], [].
      unfold effect. rewrite Hc. cbn [fst snd stored fold_left]. auto 10.
    + exists (Ret (FlushError cause)), [EvInterpret sql (length rows)], [].
      unfold effect. rewrite Hc. cbn [fst snd stored fold_left]. auto 10.
    + destruct Hc as (turn & serialized & r & Hc & _ & Hid & Hrole
                      & (text & Htext) & Hsql & Hres & Herr & Hr).
      assert (Hturn : turn = answer_turn chat (PStr text) sql serialized).
      { destruct turn. cbn in *. subst. reflexivity. }
      exists r, [EvInterpret sql (length rows); EvStore turn], [turn].
      split.
      * unfold effect. rewrite Hc.
        cbn [fst snd db trace stored fold_left]. rewrite Htr, Hdb.
        rewrite <- app_assoc. auto.
      * destruct Hr as [(viz & ->) | (cause & ->)].
        -- cbn [message data]. split; [eauto|auto].
        -- right. split; [rewrite Hturn; eauto|reflexivity].
  - eexists (Ret (Done _)), [_], [_]. unfold effect. rewrite conclude_failed.
    settle.
Qed.


Lemma execute_query_effect self sql (w : World E) :
  exists outcome,
    effect (execute_query X self sql) w (Ret outcome) [EvExecute sql] []
    /\ (forall err s, outcome = QueryFailure err s -> s = sql).
Proof.
  destruct (execute_query_returns X self sql w) as (outcome & e' & H).
  exists outcome. unfold effect. rewrite H. cbn [fst snd db trace stored fold_left].
  repeat split. intros err s ->.
  destruct self as [path [store|]].
  - destruct (conn_execute X store sql (ext w)) as [[frame|e] e1] eqn:Hc.
    + rewrite (execute_query_fetched X _ _ _ _ _ _ Hc) in H. discriminate.
    + rewrite (execute_query_rejected X _ _ _ _ _ _ Hc) in H.
      inversion H. reflexivity.
  - unfold execute_query, bind, try_except, log, raise, ret in H.
    cbn in H. inversion H. reflexivity.
Qed.

(** The three courses of lines 176-187.  The statement returned is the one
    whose outcome is returned. *)
Lemma execute_with_repair_effect llm self sql schema ctx (w : World E) :
  json_dumps X (Some 2) schema = Ret ctx ->
  exists tried outcome events,
    effect (execute_with_repair X llm self sql schema) w
      (Ret (tried, outcome)) events []
    /\ (forall err s, outcome = QueryFailure err s -> s = tried)
    /\ ((exists rows cols n,
            outcome = QuerySuccess rows cols n
            /\ tried = sql /\ events = [EvExecute sql])
        \/ (exists err,
              outcome = QueryFailure err sql
              /\ tried = sql /\ events = [EvExecute sql; EvFixSql sql err])
        \/ (exists err,
              events = [EvExecute sql; EvFixSql sql err; EvExecute tried])).
Proof.
  intros Hd.
  destruct (execute_query_effect self sql w) as (o1 & H1 & Hp1).
  destruct o1 as [rows cols n | err s].
  - exists sql, (QuerySuccess rows cols n), [EvExecute sql]. split; [|split].
    + unfold execute_with_repair.
      change [EvExecute sql] with ([EvExecute sql] ++ [])%list.
      change (@nil Message) with (@nil Message ++ [])%list.
      eapply effect_bind; [exact H1|]. settle.
    + intros err s Heq. discriminate Heq.
    + left. eauto 10.
  - assert (s = sql) by eauto. subst s.
    set (w1 := snd (execute_query X self sql w)) in *.
    destruct (llm_invoke X llm (fix_messages ctx sql err) (ext w1))
      as [[reply|e] e2] eqn:Hl.
    + pose proof (fix_sql_error_replied X llm sql err schema ctx reply w1 e2
                    Hd Hl) as Hfix.
      destruct (execute_query_effect self (clean_sql reply)
                  (Build_World (db w1) e2 (trace w1 ++ [EvFixSql sql err])))
        as (o2 & H2 & Hp2).
      exists (clean_sql reply), o2,
        [EvExecute sql; EvFixSql sql err; EvExecute (clean_sql reply)].
      split; [|split].
      * unfold execute_with_repair.
        change [EvExecute sql; EvFixSql sql err; EvExecute (clean_sql reply)]
          with ([EvExecute sql]
                ++ [EvFixSql sql err; EvExecute (clean_sql reply)])%list.
        change (@nil Message) with (@nil Message ++ [])%list.
        eapply effect_bind; [exact H1|]. fold w1. cbn beta iota.
        unfold effect, bind. rewrite Hfix.
        destruct H2 as (Hr & Ht & Hdb).
        destruct (execute_query X self (clean_sql reply) _) as [r2 w3].
        cbn [fst snd db trace] in *. subst r2. unfold ret.
        cbn [fst snd]. rewrite Ht, Hdb, <- app_assoc. repeat split.
      * exact Hp2.
      * right. right. eauto.
    + pose proof (fix_sql_error_raised X llm sql err schema ctx e w1 e2
                    Hd Hl) as Hfix.
      exists sql, (QueryFailure err sql), [EvExecute sql; EvFixSql sql err].
      split; [|split].
      * unfold execute_with_repair.
        change [EvExecute sql; EvFixSql sql err]
          with ([EvExecute sql] ++ [EvFixSql sql err])%list.
        change (@nil Message) with (@nil Message ++ [])%list.
        eapply effect_bind; [exact H1|]. fold w1. cbn beta iota.
        unfold effect, bind. rewrite Hfix. settle.
      * intros err' s' Heq. injection Heq as _ <-. reflexivity.
      * right. left. eauto.
Qed.

Lemma failed_turn_response chat sql err :
  failure_response {| message := failed_turn chat sql err; data := None;
                      visualization_type := PNone |}.
Proof. unfold failure_response. cbn. repeat split. eauto. Qed.

Lemma answer_turn_response (resp : ChatQueryResponse) chat answer sql
    serialized rows :
  message resp = answer_turn chat answer sql serialized ->
  data resp = Some rows -> answer_response resp.
Proof.
  intros Hm Hd. unfold answer_response. rewrite Hm, Hd. cbn. eauto 10.
Qed.

(** Every course of the [with] block, lines 176-233. *)
Lemma answer_with_effect llm chat path q sql schema ctx (w : World E) :
  json_dumps X (Some 2) schema = Ret ctx ->
  exists r events turns,
    effect (answer_with X llm chat path q sql schema) w r events turns
    /\ match r with
       | Ret (Done resp) =>
           turns = [message resp]
           /\ role (message resp) = "assistant"
           /\ msg_chat_id (message resp) = chat_id chat
           /\ (failure_response resp
                /\ In (map kind_of events)
                     [ [KConnect; KExecute; KRepair; KStore; KClose];
                       [KConnect; KExecute; KRepair; KExecute; KStore; KClose] ]
               \/ answer_response resp
                  /\ In (map kind_of events)
                       [ [KConnect; KExecute; KInterpret; KStore; KClose];
                         [KConnect; KExecute; KRepair; KExecute; KInterpret;
                          KStore; KClose] ])
       | Ret (FlushError e) =>
           turns = []
           /\ In (map kind_of events)
                [ [KConnect; KExecute; KInterpret; KClose];
                  [KConnect; KExecute; KRepair; KExecute; KInterpret; KClose] ]
       | Raise e =>
           turns = []
           /\ In (map kind_of events)
                [ [KConnect];
                  [KConnect; KExecute; KInterpret; KClose];
                  [KConnect; KExecute; KRepair; KExecute; KInterpret; KClose] ]
           \/ (exists turn, turns = [turn] /\ answer_of chat turn)
              /\ In (map kind_of events)
                   [ [KConnect; KExecute; KInterpret; KStore; KClose];
                     [KConnect; KExecute; KRepair; KExecute; KInterpret;
                      KStore; KClose] ]
       end.
Proof.
  intros Hd. unfold answer_with.
  destruct (duckdb_connect X path (ext w)) as [[[]|e] e1] eqn:Hc.
  - set (duck_db := {| db_path := path; conn := Some path |}).
    set (w1 := Build_World (db w) e1 (trace w ++ [EvConnect path])).
    destruct (execute_with_repair_effect llm duck_db sql schema ctx w1 Hd)
      as (tried & outcome & ev1 & Hrun & _ & Hcourse).
    set (w2 := snd (execute_with_repair X llm duck_db sql schema w1)) in *.
    destruct (conclude_effect llm chat q tried outcome w2)
      as (r & ev2 & ms2 & Hconc & Hshape).
    pose proof (effect_bind _
                  (fun t => conclude X llm chat q (fst t) (snd t))
                  w1 _ r ev1 [] ev2 ms2 Hrun Hconc) as (Hr & Ht & Hdb).
    exists r, (EvConnect path :: ev1 ++ ev2 ++ [EvClose path])%list, ms2.
    split.
    + unfold effect. rewrite (with_duckdb_opened X path _ w e1 Hc).
      fold duck_db w1. cbn [fst snd db trace]. rewrite Hr, Ht, Hdb.
      cbn [db trace w1]. rewrite <- !app_assoc. repeat split.
    + destruct outcome as [rows cols n | err tried'],
        r as [[resp|cause]|cause]; try contradiction.
      * destruct Hshape as ((answer & ser & Hm) & Hdata & -> & Hk).
        split; [reflexivity|]. rewrite Hm.
        split; [reflexivity|]. split; [reflexivity|]. right.
        split; [eapply answer_turn_response; eauto|].
        cbn [map]. rewrite !map_app, Hk.
        destruct Hcourse as [(? & ? & ? & _ & _ & ->)
                            |[(? & Hf & _) | (? & ->)]];
          [|discriminate Hf|]; cbn; auto.
      * destruct Hshape as (-> & Hk). split; [reflexivity|].
        cbn [map]. rewrite !map_app, Hk.
        destruct Hcourse as [(? & ? & ? & _ & _ & ->)
                            |[(? & Hf & _) | (? & ->)]];
          [|discriminate Hf|]; cbn; auto.
      * destruct Hshape as [(-> & Hk) | ((answer & ser & ->) & Hk)].
        -- left. split; [reflexivity|].
           cbn [map]. rewrite !map_app, Hk.
           destruct Hcourse as [(? & ? & ? & _ & _ & ->)
                               |[(? & Hf & _) | (? & ->)]];
             [|discriminate Hf|]; cbn; auto.
        -- right. split; [eexists; split; [reflexivity|]; red; eauto|].
           cbn [map]. rewrite !map_app, Hk.
           destruct Hcourse as [(? & ? & ? & _ & _ & ->)
                               |[(? & Hf & _) | (? & ->)]];
             [|discriminate Hf|]; cbn; auto.
      * destruct Hshape as (-> & -> & Hk).
        split; [reflexivity|]. split; [reflexivity|]. split; [reflexivity|].
        left. split; [apply failed_turn_response|].
        cbn [map]. rewrite !map_app, Hk.
        destruct Hcourse as [(? & ? & ? & Hf & _)
                            |[(? & _ & _ & ->) | (? & ->)]];
          [discriminate Hf| |]; cbn; auto.
  - exists (Raise e), [EvConnect path], []. split.
    + unfold effect. rewrite (with_duckdb_unopened X path _ w e e1 Hc).
      repeat split.
    + left. split; [reflexivity|]. cbn. auto.
Qed.


(** Every course of the body of the [try], lines 144-233. *)
Lemma pipeline_run chat p cfg q api_key llm schema (w : World E) :
  fernet_decrypt X (encrypted_api_key cfg) = Ret api_key ->
  LLMService (provider cfg) api_key = Ret llm ->
  load_schema X (Some p) = Ret schema ->
  pipeline X chat (Some p) cfg q w
  = match
      text_to_sql X llm q schema
        (chat_history_of (select_last_messages X (db w) (chat_id chat))) w
    with
    | (Ret (SqlSuccess sql), w1) =>
        answer_with X llm chat (duckdb_file_path p) q sql schema w1
    | (Ret (SqlFailure error), w1) =>
        (Raise (HTTPException 500 ("Failed to generate SQL: " ++ error)), w1)
    | (Raise e, w1) => (Raise e, w1)
    end.
Proof.
  intros Hk Hl Hs. unfold pipeline, bind, lift, last_messages.
  rewrite Hk, Hl, Hs.
  destruct (text_to_sql X llm q schema _ w) as [[[sql|error]|e] w1];
    reflexivity.
Qed.

Lemma pipeline_effect chat project cfg q (w : World E) :
  exists r events turns,
    effect (pipeline X chat project cfg q) w r events turns
    /\ match r with
       | Ret (Done resp) =>
           turns = [message resp]
           /\ role (message resp) = "assistant"
           /\ msg_chat_id (message resp) = chat_id chat
           /\ (failure_response resp
                /\ In (KStore :: map kind_of events) failed_courses
               \/ answer_response resp
                  /\ In (KStore :: map kind_of events) answered_courses)
       | Ret (FlushError e) =>
           turns = []
           /\ In (KStore :: map kind_of events) rolled_back_courses
       | Raise e =>
           turns = []
           /\ In (KStore :: map kind_of events ++ [KStore])%list raised_courses
           \/ (exists turn, turns = [turn] /\ answer_of chat turn)
              /\ In (KStore :: map kind_of events ++ [KStore])%list
                   refused_courses
       end.
Proof.
  destruct (fernet_decrypt X (encrypted_api_key cfg)) as [api_key|e] eqn:Hk;
    [|exists (Raise e), [], []; split;
      [unfold pipeline, bind, lift; rewrite Hk; settle|cbn; auto]].
  destruct (LLMService (provider cfg) api_key) as [llm|e] eqn:Hllm;
    [|exists (Raise e), [], []; split;
      [unfold pipeline, bind, lift; rewrite Hk, Hllm; settle|cbn; auto]].
  destruct (load_schema X project) as [schema|e] eqn:Hs;
    [|exists (Raise e), [], []; split;
      [unfold pipeline, bind, lift; rewrite Hk, Hllm, Hs; settle|cbn; auto]].
  destruct project as [p|]; [|discriminate Hs].
  unfold effect. rewrite (pipeline_run chat p cfg q api_key llm schema w Hk Hllm Hs).
  set (hist := chat_history_of (select_last_messages X (db w) (chat_id chat))).
  destruct (json_dumps X (Some 2) schema) as [ctx|e] eqn:Hd.
  - destruct (llm_invoke X llm (sql_messages ctx (history_context X hist) q)
                (ext w)) as [[reply|e] e1] eqn:Hl.
    + rewrite (text_to_sql_replied X _ _ _ _ _ _ _ _ Hd Hl).
      set (w1 := Build_World (db w) e1 (trace w ++ [EvTextToSql q])).
      destruct (answer_with_effect llm chat (duckdb_file_path p) q
                  (clean_sql reply) schema ctx w1 Hd)
        as (r & ev & ms & (Hr & Ht & Hdb) & Hshape).
      exists r, (EvTextToSql q :: ev), ms. split.
      * rewrite Hr, Ht, Hdb. cbn [w1 db trace].
        rewrite <- app_assoc. repeat split.
      * cbn [map]. destruct r as [[resp|cause]|cause].
        -- destruct Hshape as (H1 & H2 & H3 & H4).
           repeat (split; [assumption|]).
           destruct H4 as [[Hf Hk'] | [Ha Hk']]; [left|right]; split; auto;
             cbn in Hk'; cbn;
             repeat (destruct Hk' as [<- | Hk']; [auto 10|]); contradiction.
        -- destruct Hshape as (H1 & Hk'). split; [assumption|].
           cbn in Hk'. cbn.
           repeat (destruct Hk' as [<- | Hk']; [cbn; auto 10|]); contradiction.
        -- destruct Hshape as [(H1 & Hk') | (H1 & Hk')]; [left|right];
             (split; [assumption|]); cbn in Hk'; cbn;
             repeat (destruct Hk' as [<- | Hk']; [cbn; auto 10|]);
             contradiction.
    + rewrite (text_to_sql_raised X _ _ _ _ _ _ _ _ Hd Hl).
      eexists (Raise _), [EvTextToSql q], []. split; [settle|cbn; auto].
  - unfold text_to_sql, bind, log, lift. cbn [db ext trace].
    rewrite Hd.
    eexists (Raise _), [EvTextToSql q], []. split; [settle|cbn; auto].
Qed.

(** Every course of the handler. *)
Lemma query_data_effect request user (w : World E) :
  exists r events turns,
    effect (query_data X request user) w r events turns
    /\ match fst (first_chat (req_chat_id request) (user_id user) w),
             fst (first_active_config (user_id user) w) with
       | Ret (Some chat), Ret (Some llm_config) =>
           exists replies,
             turns = user_turn chat (req_query request) :: replies
             /\ match r with
                | Ret resp =>
                    replies = [message resp]
                    /\ role (message resp) = "assistant"
                    /\ msg_chat_id (message resp) = chat_id chat
                    /\ (failure_response resp
                         /\ In (map kind_of events) failed_courses
                        \/ answer_response resp
                           /\ In (map kind_of events) answered_courses)
                | Raise e =>
                    (exists cause,
                        e = HTTPException 500 (str_exn X cause)
                        /\ (replies = [exception_turn X chat cause]
                            /\ In (map kind_of events) raised_courses
                            \/ (exists turn,
                                   replies = [turn; exception_turn X chat cause]
                                   /\ answer_of chat turn)
                               /\ In (map kind_of events) refused_courses))
                    \/ (exists cause,
                           e = pending_rollback X cause
                           /\ replies = []
                           /\ In (map kind_of events) rolled_back_courses)
                end
       | Ret (Some chat), _ =>
           r = Raise (HTTPException 400
                        "No active LLM configuration. Please configure your API key.")
           /\ events = [] /\ turns = []
       | _, _ =>
           r = Raise (HTTPException 404 "Chat not found")
           /\ events = [] /\ turns = []
       end.
Proof.
  unfold effect.
  destruct (fst (first_chat (req_chat_id request) (user_id user) w))
    as [[chat|]|e] eqn:Hchat.
  - destruct (fst (first_active_config (user_id user) w))
      as [[cfg|]|e] eqn:Hcfg.
    + rewrite (query_data_resolved X request user w chat cfg Hchat Hcfg).
      set (q := req_query request).
      set (w1 := Build_World (append_message (db w) (user_turn chat q))
                   (ext w) (trace w ++ [EvStore (user_turn chat q)])).
      match goal with |- context [pipeline X chat ?p cfg q] =>
        destruct (pipeline_effect chat p cfg q w1)
          as (r & ev & ms & (Hr & Ht & Hdb) & Hshape);
        set (body := pipeline X chat p cfg q) in *
      end.
      unfold try_except_session.
      destruct (body w1) as [r0 w2]. cbn [fst snd] in Hr, Ht, Hdb. subst r0.
      destruct r as [[resp|cause]|cause].
      * destruct Hshape as (-> & Hrole & Hid & Hk).
        exists (Ret resp), (EvStore (user_turn chat q) :: ev),
          [user_turn chat q; message resp].
        cbn [fst snd]. rewrite Ht, Hdb. cbn [w1 db trace].
        rewrite <- app_assoc. split; [repeat split|].
        exists [message resp]. split; [reflexivity|].
        repeat (split; [reflexivity || assumption|]).
        exact Hk.
      * destruct Hshape as (-> & Hk).
        exists (Raise (pending_rollback X cause)),
          (EvStore (user_turn chat q) :: ev), [user_turn chat q].
        unfold on_exception, raise. cbn [fst snd db trace].
        rewrite Ht, Hdb. cbn [w1 db trace stored fold_left].
        rewrite <- !app_assoc. split; [repeat split|].
        exists []. split; [reflexivity|]. right. exists cause.
        repeat (split; [reflexivity|]). exact Hk.
      * unfold on_exception, bind, add_commit, raise.
        cbn [flush content exception_turn fst snd db trace].
        destruct Hshape as [(-> & Hk) | ((turn & -> & Hturn) & Hk)].
        -- exists (Raise (HTTPException 500 (str_exn X cause))),
             (EvStore (user_turn chat q) :: ev
              ++ [EvStore (exception_turn X chat cause)])%list,
             [user_turn chat q; exception_turn X chat cause].
           rewrite Ht, Hdb. cbn [w1 db trace stored fold_left].
           rewrite <- !app_assoc. split; [repeat split|].
           exists [exception_turn X chat cause]. split; [reflexivity|].
           left. exists cause. split; [reflexivity|]. left.
           split; [reflexivity|]. cbn [map]. rewrite map_app. exact Hk.
        -- exists (Raise (HTTPException 500 (str_exn X cause))),
             (EvStore (user_turn chat q) :: ev
              ++ [EvStore (exception_turn X chat cause)])%list,
             [user_turn chat q; turn; exception_turn X chat cause].
           rewrite Ht, Hdb. cbn [w1 db trace stored fold_left].
           rewrite <- !app_assoc. split; [repeat split|].
           exists [turn; exception_turn X chat cause]. split; [reflexivity|].
           left. exists cause. split; [reflexivity|]. right.
           split; [eauto|]. cbn [map]. rewrite map_app. exact Hk.
    + exists (Raise (HTTPException 400
                "No active LLM configuration. Please configure your API key.")),
        [], [].
      rewrite (query_data_no_config X request user w chat Hchat Hcfg).
      split; [settle|auto].
    + discriminate Hcfg.
  - exists (Raise (HTTPException 404 "Chat not found")), [], [].
    rewrite (query_data_no_chat X request user w Hchat). split; [settle|auto].
  - discriminate Hchat.
Qed.


(** X1.  Lines 176-187 on an open connection, the schema printing as it did
    for generation: the block raises nothing and stores nothing. The generated
    statement is executed; when the engine returns a frame, that statement is
    returned with the rows, columns and row count of that frame. When the
    engine raises, the model is asked once for a repair, with the text of that
    very error. If that call raises, the generated statement is returned with
    the failure of its execution. If it replies, the cleaned reply is executed
    once, in the state the model left, and is returned with the outcome of
    that execution: the records of the frame the engine returned, or the text
    of the error it raised together with the repaired statement. *)
Theorem execute_with_repair_pairs_statement_and_outcome
    llm path store sql schema ctx (w : World E) :
  json_dumps X (Some 2) schema = Ret ctx ->
  let self := {| db_path := path; conn := Some store |} in
  let outcome_of (tried : string) (r : result DataFrame) :=
    match r with
    | Ret frame =>
        QuerySuccess (to_dict_records frame) (df_columns frame)
          (length (df_rows frame))
    | Raise err => QueryFailure (str_exn X err) tried
    end in
  let first := conn_execute X store sql (ext w) in
  execute_with_repair X llm self sql schema w
  = match fst first with
    | Ret frame =>
        (Ret (sql, outcome_of sql (fst first)),
         Build_World (db w) (snd first) (trace w ++ [EvExecute sql]))
    | Raise err =>
        let repair :=
          llm_invoke X llm (fix_messages ctx sql (str_exn X err)) (snd first) in
        match fst repair with
        | Raise _ =>
            (Ret (sql, outcome_of sql (fst first)),
             Build_World (db w) (snd repair)
               (trace w ++ [EvExecute sql; EvFixSql sql (str_exn X err)]))
        | Ret reply =>
            let fixed := clean_sql reply in
            let second := conn_execute X store fixed (snd repair) in
            (Ret (fixed, outcome_of fixed (fst second)),
             Build_World (db w) (snd second)
               (trace w
                ++ [EvExecute sql; EvFixSql sql (str_exn X err);
                    EvExecute fixed]))
        end
    end.
Proof.
  intros Hd. cbn zeta.
  destruct (conn_execute X store sql (ext w)) as [[frame|err] e1] eqn:H1;
    cbn [fst snd].
  - exact (execute_with_repair_first X llm path store sql schema frame w e1 H1).
  - destruct (llm_invoke X llm (fix_messages ctx sql (str_exn X err)) e1)
      as [[reply|cause] e2] eqn:H2; cbn [fst snd].
    + destruct (conn_execute X store (clean_sql reply) e2) as [r e3] eqn:H3.
      rewrite (execute_with_repair_repaired X llm path store sql schema ctx
                 err reply r w e1 e2 e3 Hd H1 H2 H3).
      cbn [fst snd]. rewrite <- !app_assoc. reflexivity.
    + rewrite (execute_with_repair_unrepaired X llm path store sql schema ctx
                 err cause w e1 e2 Hd H1 H2).
      rewrite <- !app_assoc. reflexivity.
Qed.

End Paths.

(** ** The handler: which failures reach the caller *)

Section FailurePolicy.

Context {E : Type} (X : Externals E).


End FailurePolicy.

(** ** What every request does *)

Section EveryRequest.

Context {E : Type} (X : Externals E).

(** X2.  Whatever the model, the engine and the libraries do, the calls of one
    request follow one of the courses of [request_courses]: at most one
    generation, one connection, two executions, one repair and one
    interpretation, a repair only after a failed first execution, an opened
    connection always closed. A response that carries rows ends a course with
    an interpretation and the store of the answer; a response that reports a
    failed execution ends a course with a repair and without interpretation.
    A request that raises was rejected before any call, or raises a 500 after
    the store of the error turn, which follows the store of the answer turn
    when the response was refused, or raises the PendingRollbackError of a
    course in which the answer turn was not stored. *)
Theorem query_data_courses request user (w : World E) :
  let run := query_data X request user w in
  exists events,
    trace (snd run) = (trace w ++ events)%list
    /\ In (map kind_of events) request_courses
    /\ match fst run with
       | Ret resp =>
           answer_response resp /\ In (map kind_of events) answered_courses
           \/ failure_response resp /\ In (map kind_of events) failed_courses
       | Raise e =>
           events = []
           \/ (exists text, e = HTTPException 500 text)
              /\ (In (map kind_of events) raised_courses
                  \/ In (map kind_of events) refused_courses)
           \/ (exists cause, e = pending_rollback X cause)
              /\ In (map kind_of events) rolled_back_courses
       end.
Proof.
  cbn zeta.
  destruct (query_data_effect X request user w)
    as (r & events & turns & (Hr & Ht & _) & Hcase).
  exists events. rewrite Hr. split; [exact Ht|].
  unfold request_courses.
  destruct (fst (first_chat _ _ w)) as [[chat|]|e];
    [destruct (fst (first_active_config _ w)) as [[cfg|]|e]|..].
  - destruct Hcase as (replies & _ & Hcase). destruct r as [resp|e].
    + destruct Hcase as (_ & _ & _ & [[Hf Hk] | [Ha Hk]]).
      * split; [|auto]. right. apply in_or_app. right. apply in_or_app. auto.
      * split; [|auto]. right. apply in_or_app. auto.
    + destruct Hcase as [(cause & -> & [(_ & Hk) | (_ & Hk)])
                        | (cause & -> & _ & Hk)].
      * split; [|right; left; eauto].
        right. do 2 (apply in_or_app; right). apply in_or_app. auto.
      * split; [|right; left; eauto].
        right. do 3 (apply in_or_app; right). apply in_or_app. auto.
      * split; [|right; right; eauto].
        right. do 4 (apply in_or_app; right). exact Hk.
  - destruct Hcase as (-> & -> & _). cbn. auto.
  - destruct Hcase as (-> & -> & _). cbn. auto.
  - destruct Hcase as (-> & -> & _). cbn. auto.
  - destruct Hcase as (-> & -> & _). cbn. auto.
Qed.

(** X3.  What an accepted question leaves in the transcript: the user turn
    first, then at most two assistant turns of the same chat. When the
    request returns, exactly one follows, the turn of the response. When it
    raises a 500, the last turn records the error and carries neither
    statement nor rows; the answer turn stands before it when the response
    was refused after the answer was stored. Anything else the request raises
    is the PendingRollbackError of a refused answer turn, and then nothing
    follows the user turn. *)
Theorem accepted_question_transcript request user (w : World E)
    chat llm_config :
  chat_found request user w chat ->
  config_found user w (Some llm_config) ->
  let run := query_data X request user w in
  exists replies,
    messages (db (snd run))
    = (messages (db w) ++ user_turn chat (req_query request) :: replies)%list
    /\ length replies <= 2
    /\ (forall m, In m replies ->
          role m = "assistant" /\ msg_chat_id m = chat_id chat)
    /\ match fst run with
       | Ret resp => replies = [message resp]
       | Raise e =>
           (exists text earlier reply,
               e = HTTPException 500 text
               /\ replies = (earlier ++ [reply])%list
               /\ (forall m, In m earlier -> answer_of chat m)
               /\ error_message reply = Some text
               /\ content reply = PStr ("An error occurred: " ++ text)
               /\ sql_query reply = None /\ query_result reply = None)
           \/ (exists cause, e = pending_rollback X cause /\ replies = [])
       end.
Proof.
  intros Hchat Hcfg. cbn zeta.
  destruct (query_data_effect X request user w)
    as (r & events & turns & (Hr & _ & Hdb) & Hcase).
  unfold chat_found in Hchat. unfold config_found in Hcfg.
  rewrite Hchat, Hcfg in Hcase.
  destruct Hcase as (replies & -> & Hcase).
  exists replies. rewrite Hdb, stored_messages, Hr.
  split; [reflexivity|]. destruct r as [resp|e].
  - destruct Hcase as (-> & Hrole & Hid & _).
    split; [cbn; lia|]. split; [|reflexivity].
    intros m [<-|[]]. auto.
  - destruct Hcase as [(cause & -> & [(-> & _) | ((turn & -> & Hturn) & _)])
                      | (cause & -> & -> & _)].
    + split; [cbn; lia|]. split.
      * intros m [<-|[]]. split; reflexivity.
      * left. exists (str_exn X cause), [], (exception_turn X chat cause).
        repeat split. intros m [].
    + split; [cbn; lia|]. split.
      * intros m [<-|[<-|[]]]; [|split; reflexivity].
        destruct Hturn as (a & s & ser & ->). split; reflexivity.
      * left. exists (str_exn X cause), [turn], (exception_turn X chat cause).
        repeat split. intros m [<-|[]]. exact Hturn.
    + split; [cbn; lia|]. split; [intros m []|]. right. eauto.
Qed.

(** X4.  The conversation store is append-only and nothing else is written:
    every request leaves the chats, the projects and the configurations as
    they were, keeps every stored message in place, and adds at most three
    messages: none when the request is rejected with 404 or 400, and
    otherwise the user turn followed by at most two assistant turns. *)
Theorem query_data_appends_only request user (w : World E) :
  let run := query_data X request user w in
  chats (db (snd run)) = chats (db w)
  /\ projects (db (snd run)) = projects (db w)
  /\ llm_configs (db (snd run)) = llm_configs (db w)
  /\ exists added,
       messages (db (snd run)) = (messages (db w) ++ added)%list
       /\ length added <= 3
       /\ (added = []
           \/ exists chat replies,
                chat_found request user w chat
                /\ added = user_turn chat (req_query request) :: replies
                /\ forall m, In m replies -> role m = "assistant").
Proof.
  cbn zeta.
  destruct (query_data_effect X request user w)
    as (r & events & turns & (_ & _ & Hdb) & Hcase).
  rewrite Hdb. destruct (stored_tables (db w) turns) as (H1 & H2 & H3).
  repeat (split; [assumption|]).
  exists turns. split; [apply stored_messages|].
  unfold chat_found.
  destruct (fst (first_chat _ _ w)) as [[chat|]|e];
    [destruct (fst (first_active_config _ w)) as [[cfg|]|e]|..].
  - destruct Hcase as (replies & -> & Hcase).
    assert (Hn : length replies <= 2
                 /\ forall m, In m replies -> role m = "assistant").
    { destruct r as [resp|e].
      - destruct Hcase as (-> & Hrole & _). split; [cbn; lia|].
        intros m [<-|[]]. exact Hrole.
      - destruct Hcase
          as [(cause & -> & [(-> & _) | ((turn & -> & Hturn) & _)])
             | (cause & -> & -> & _)].
        + split; [cbn; lia|]. intros m [<-|[]]. reflexivity.
        + split; [cbn; lia|]. intros m [<-|[<-|[]]]; [|reflexivity].
          destruct Hturn as (a & s & ser & ->). reflexivity.
        + split; [cbn; lia|]. intros m []. }
    destruct Hn as [Hn Hroles]. split; [cbn; lia|]. right. eauto 10.
  - destruct Hcase as (_ & _ & ->). cbn. split; [lia|auto].
  - destruct Hcase as (_ & _ & ->). cbn. split; [lia|auto].
  - destruct Hcase as (_ & _ & ->). cbn. split; [lia|auto].
  - destruct Hcase as (_ & _ & ->). cbn. split; [lia|auto].
Qed.

End EveryRequest.

(** ** The history window and the prompts *)

Section Prompts.

Context {E : Type} (X : Externals E).

Lemma last5_length {A} (l : list A) : length (last5 l) = min 5 (length l).
Proof. unfold last5. rewrite length_skipn. lia. Qed.

Lemma last5_nil_iff {A} (l : list A) : last5 l = [] <-> l = [].
Proof.
  split; [|intros ->; reflexivity].
  intros H. pose proof (last5_length l) as Hl. rewrite H in Hl.
  destruct l; [reflexivity|cbn in Hl; lia].
Qed.

Lemma history_context_last5 (hist hist' : list (string * PyVal)) :
  last5 hist = last5 hist' ->
  history_context X hist = history_context X hist'.
Proof.
  intros H. unfold history_context. rewrite <- H.
  destruct hist as [|h hs], hist' as [|h' hs']; try reflexivity.
  - symmetry in H. apply (proj1 (last5_nil_iff _)) in H. discriminate H.
  - apply (proj1 (last5_nil_iff _)) in H. discriminate H.
Qed.

(** X6.  Only the last five entries of the history reach the generation
    prompt: two histories with the same last five entries give the same call
    to the model and the same result. *)
Theorem text_to_sql_reads_last_five llm q schema
    (hist hist' : list (string * PyVal)) (w : World E) :
  last5 hist = last5 hist' ->
  text_to_sql X llm q schema hist w = text_to_sql X llm q schema hist' w.
Proof.
  intros H. unfold text_to_sql.
  rewrite (history_context_last5 hist hist' H). reflexivity.
Qed.

End Prompts.

(** ** More on the post-processing of replies *)

Module CleanSqlFacts.
Import PyStr PyStrFacts FenceFacts.

Lemma rstrip_idempotent (s : string) : rstrip (rstrip s) = rstrip s.
Proof.
  induction s as [|c s IH]; [reflexivity|].
  cbn [rstrip]. destruct (rstrip s) as [|k kept] eqn:Hk.
  - destruct (isspace c) eqn:Hc; [reflexivity|].
    cbn [rstrip]. rewrite Hc. reflexivity.
  - cbn [rstrip] in *. rewrite IH. reflexivity.
Qed.

Lemma lstrip_fixed_head (c : ascii) (s : string) :
  lstrip (String c s) = String c s -> isspace c = false.
Proof.
  cbn [lstrip]. destruct (isspace c); [|reflexivity]. intros H. exfalso.
  pose proof (lstrip_length s) as Hl. rewrite H in Hl.
  cbn [String.length] in Hl. lia.
Qed.

Lemma lstrip_idempotent (s : string) : lstrip (lstrip s) = lstrip s.
Proof.
  induction s as [|c s IH]; [reflexivity|].
  cbn [lstrip]. destruct (isspace c) eqn:Hc; [exact IH|].
  cbn [lstrip]. rewrite Hc. reflexivity.
Qed.

Lemma lstrip_rstrip (s : string) : lstrip s = s -> lstrip (rstrip s) = rstrip s.
Proof.
  destruct s as [|c s]; [reflexivity|]. intros H.
  pose proof (lstrip_fixed_head c s H) as Hc.
  rewrite (rstrip_nonspace c s Hc). cbn [lstrip]. rewrite Hc. reflexivity.
Qed.

Lemma strip_idempotent (s : string) : strip (strip s) = strip s.
Proof.
  unfold strip.
  rewrite (lstrip_rstrip (lstrip s) (lstrip_idempotent s)).
  apply rstrip_idempotent.
Qed.

Lemma tag_needs_fence (s : string) :
  prefix fence s = false -> prefix fence_sql s = false.
Proof.
  intros H. destruct (prefix fence_sql s) eqn:P; [|reflexivity].
  destruct (prefix_split _ _ P) as [t ->].
  change (fence_sql ++ t) with (fence ++ ("sql" ++ t)) in H.
  rewrite (prefix_app fence fence _ (prefix_refl fence)) in H. discriminate.
Qed.

Lemma absent_not_head (p s : string) :
  contains p s = false -> prefix p s = false.
Proof.
  destruct s; cbn [contains]; intros H; apply orb_false_iff in H; tauto.
Qed.

(** What [clean_sql] returns is stripped and does not open with a fence. *)
Lemma clean_sql_shape (content : string) :
  strip (clean_sql content) = clean_sql content
  /\ startswith (clean_sql content) fence = false.
Proof.
  unfold clean_sql.
  destruct (startswith (strip content) fence_sql) eqn:Ht.
  - split; [apply strip_idempotent|].
    apply absent_not_head, strip_keeps_absent, replace_no_fence.
  - destruct (startswith (strip content) fence) eqn:Hf.
    + split; [apply strip_idempotent|].
      apply absent_not_head, strip_keeps_absent, replace_no_fence.
    + split; [apply strip_idempotent|exact Hf].
Qed.

(** X7.  Cleaning a cleaned statement changes nothing, and a cleaned statement
    has no whitespace at either end. *)
Theorem clean_sql_idempotent (content : string) :
  clean_sql (clean_sql content) = clean_sql content
  /\ strip (clean_sql content) = clean_sql content.
Proof.
  destruct (clean_sql_shape content) as [Hs Hf]. split; [|exact Hs].
  unfold clean_sql at 1. rewrite Hs.
  unfold startswith in *. rewrite (tag_needs_fence _ Hf), Hf. reflexivity.
Qed.

(** X8.  Fences are removed only from a reply that opens with one: the
    statement returned still holds a fence exactly when the stripped reply
    holds one without opening with it (prose before a fenced block, say), and
    then the reply is returned as it is, stripped. *)
Theorem clean_sql_keeps_fence_iff (content : string) :
  (contains fence (clean_sql content) = true
   <-> startswith (strip content) fence = false
       /\ contains fence (strip content) = true)
  /\ (startswith (strip content) fence = false ->
      clean_sql content = strip content).
Proof.
  assert (Hplain : startswith (strip content) fence = false ->
                   clean_sql content = strip content).
  { intros Hf. unfold clean_sql. unfold startswith in *.
    rewrite (tag_needs_fence _ Hf), Hf. reflexivity. }
  split; [|exact Hplain]. split.
  - intros Hc. destruct (startswith (strip content) fence) eqn:Hf.
    + rewrite (clean_sql_no_fence content Hf) in Hc. discriminate.
    + rewrite (Hplain eq_refl) in Hc. auto.
  - intros [Hf Hc]. rewrite (Hplain Hf). exact Hc.
Qed.

End CleanSqlFacts.

(** ** Rejections and failures around the pipeline *)

Section Edges.

Context {E : Type} (X : Externals E).

Lemma find_all_false {A} (f : A -> bool) (l : list A) :
  (forall x, In x l -> f x = false) -> find f l = None.
Proof.
  induction l as [|a l IH]; intros H; [reflexivity|].
  cbn [find]. rewrite (H a (or_introl eq_refl)).
  apply IH. intros x Hx. apply H. right. exact Hx.
Qed.

(** X9.  A chat can be queried by its owner only: when every chat with the
    requested id belongs to somebody else (or none exists), the request is
    refused with 404 and leaves no trace at all: nothing is stored, no model
    and no store is called. *)
Theorem foreign_chat_is_refused request user (w : World E) :
  (forall c, In c (chats (db w)) ->
             chat_id c = req_chat_id request ->
             chat_user_id c <> user_id user) ->
  query_data X request user w
  = (Raise (HTTPException 404 "Chat not found"), w).
Proof.
  intros Hforeign. apply query_data_no_chat.
  unfold first_chat. cbn [fst]. f_equal. apply find_all_false.
  intros c Hc. apply andb_false_iff.
  destruct (Nat.eqb_spec (chat_id c) (req_chat_id request)) as [Hid|];
    [|auto].
  right. apply Nat.eqb_neq. exact (Hforeign c Hc Hid).
Qed.

Lemma unsupported_provider (p key : string) :
  p <> "openai" -> p <> "google" -> p <> "anthropic" ->
  LLMService p key = Raise (ValueError ("Unsupported provider: " ++ p)).
Proof.
  intros H1 H2 H3. unfold LLMService, initialize_llm.
  destruct (String.eqb_spec p "openai"); [contradiction|].
  destruct (String.eqb_spec p "google"); [contradiction|].
  destruct (String.eqb_spec p "anthropic"); [contradiction|].
  reflexivity.
Qed.

Lemma prelude_failure request user (w : World E) chat cfg cause :
  chat_found request user w chat ->
  config_found user w (Some cfg) ->
  (forall w1,
      pipeline X chat
        (find (fun p => Nat.eqb (project_id p) (chat_project_id chat))
           (projects (db w)))
        cfg (req_query request) w1
      = (Raise cause, w1)) ->
  query_data X request user w
  = (Raise (HTTPException 500 (str_exn X cause)),
     Build_World
       (stored (db w)
          [user_turn chat (req_query request); exception_turn X chat cause])
       (ext w)
       (trace w ++ [EvStore (user_turn chat (req_query request));
                    EvStore (exception_turn X chat cause)])).
Proof.
  intros Hchat Hcfg Hp.
  rewrite (query_data_resolved X request user w chat cfg Hchat Hcfg).
  unfold try_except_session. rewrite Hp.
  unfold on_exception, bind, add_commit, raise.
  cbn [flush content exception_turn db ext trace].
  rewrite <- app_assoc. reflexivity.
Qed.

(** X10.  A defect of the stored configuration or schema makes the request
    fail with a 500 after the question is stored and before anything is
    called: an API key that does not decrypt, a provider other than the three
    supported ones, a schema text that does not load. The trace holds the two
    stores only, and the error turn names the cause. *)
Theorem configuration_defect_fails_early request user (w : World E)
    chat project llm_config :
  chat_found request user w chat ->
  fst (first_project (chat_project_id chat) w) = Ret project ->
  config_found user w (Some llm_config) ->
  let q := req_query request in
  let fails_with cause :=
    fst (query_data X request user w)
    = Raise (HTTPException 500 (str_exn X cause))
    /\ trace (snd (query_data X request user w))
       = (trace w ++ [EvStore (user_turn chat q);
                      EvStore (exception_turn X chat cause)])%list
    /\ messages (db (snd (query_data X request user w)))
       = (messages (db w)
          ++ [user_turn chat q; exception_turn X chat cause])%list in
  (forall cause,
      fernet_decrypt X (encrypted_api_key llm_config) = Raise cause ->
      fails_with cause)
  /\ (forall api_key,
        fernet_decrypt X (encrypted_api_key llm_config) = Ret api_key ->
        provider llm_config <> "openai" ->
        provider llm_config <> "google" ->
        provider llm_config <> "anthropic" ->
        fails_with
          (ValueError ("Unsupported provider: " ++ provider llm_config)))
  /\ (forall api_key llm cause,
        fernet_decrypt X (encrypted_api_key llm_config) = Ret api_key ->
        LLMService (provider llm_config) api_key = Ret llm ->
        load_schema X project = Raise cause ->
        fails_with cause).
Proof.
  intros Hchat Hproj Hcfg q. cbn zeta.
  unfold first_project in Hproj. cbn [fst] in Hproj. injection Hproj as Hproj.
  assert (Hfail : forall cause,
             (forall w1, pipeline X chat project llm_config q w1
                         = (Raise cause, w1)) ->
             fst (query_data X request user w)
             = Raise (HTTPException 500 (str_exn X cause))
             /\ trace (snd (query_data X request user w))
                = (trace w ++ [EvStore (user_turn chat q);
                               EvStore (exception_turn X chat cause)])%list
             /\ messages (db (snd (query_data X request user w)))
                = (messages (db w)
                   ++ [user_turn chat q; exception_turn X chat cause])%list).
  { intros cause Hp. rewrite <- Hproj in Hp.
    rewrite (prelude_failure request user w chat llm_config cause
               Hchat Hcfg Hp).
    cbn [fst snd db trace]. rewrite stored_messages. auto. }
  repeat apply conj.
  - intros cause Hk. apply Hfail. intros w1.
    unfold pipeline, bind, lift. rewrite Hk. reflexivity.
  - intros key Hk H1 H2 H3. apply Hfail. intros w1.
    unfold pipeline, bind, lift.
    rewrite Hk, (unsupported_provider _ key H1 H2 H3). reflexivity.
  - intros key llm cause Hk Hl Hs. apply Hfail. intros w1.
    unfold pipeline, bind, lift. rewrite Hk, Hl, Hs. reflexivity.
Qed.

(** X11.  When the project's store cannot be opened, the request fails with a
    500 after the statement was generated: nothing is executed, and as the
    connection was never opened it is never closed. *)
Theorem unopened_store_fails_request request user (w : World E)
    chat project llm schema ctx reply cause e1 e2 :
  let q := req_query request in
  let path := duckdb_file_path project in
  let run := query_data X request user w in
  Resolved X request user w chat project llm schema ctx ->
  llm_invoke X llm (generation_messages X w chat q ctx) (ext w)
    = (Ret reply, e1) ->
  duckdb_connect X path e1 = (Raise cause, e2) ->
  fst run = Raise (HTTPException 500 (str_exn X cause))
  /\ trace (snd run)
     = (trace w ++ [EvStore (user_turn chat q); EvTextToSql q;
                    EvConnect path;
                    EvStore (exception_turn X chat cause)])%list
  /\ messages (db (snd run))
     = (messages (db w) ++ [user_turn chat q; exception_turn X chat cause])%list.
Proof.
  intros q path run Hres Hgen Hcon. subst run.
  rewrite (query_data_generating X _ _ _ _ _ _ _ _ Hres).
  unfold try_except_session. cbn [db ext trace]. fold q. rewrite Hgen.
  unfold answer_with. fold path.
  rewrite (with_duckdb_unopened X path _ (Build_World _ e1 _) cause e2 Hcon).
  unfold on_exception, bind, add_commit, raise.
  cbn [flush content exception_turn fst snd db ext trace append_message
       messages].
  rewrite <- !app_assoc. repeat split.
Qed.


Lemma conclude_not_object llm chat q sql rows cols n v (w w1 : World E) :
  interpret_results X llm q sql rows w = (Ret (InterpretSuccess v), w1) ->
  (forall d, v <> PDict d) ->
  conclude X llm chat q sql (QuerySuccess rows cols n) w
  = (Raise (AttributeError
              ("'" ++ type_name v ++ "' object has no attribute 'get'")),
     w1).
Proof.
  intros Hi Hv. unfold conclude, bind. rewrite Hi.
  cbn [get_interpretation]. unfold py_get, lift.
  destruct v; try reflexivity. exfalso. exact (Hv items eq_refl).
Qed.

(** X12.  A reply to the interpretation prompt that parses, but not to a JSON
    object (a list, a number, a string, null), is not degraded to the canned
    answer: reading its fields raises, and the request fails with a 500
    although the statement was executed successfully. The turn stored for it
    records the attribute error and carries neither the statement nor the
    rows; the connection is closed before it is stored. *)
Theorem non_object_interpretation_fails_request request user (w : World E)
    chat project llm schema ctx reply frame preview raw v e1 e2 e3 e4 :
  let q := req_query request in
  let path := duckdb_file_path project in
  let sql := clean_sql reply in
  let rows := to_dict_records frame in
  let run := query_data X request user w in
  let cause :=
    AttributeError ("'" ++ type_name v ++ "' object has no attribute 'get'") in
  Resolved X request user w chat project llm schema ctx ->
  llm_invoke X llm (generation_messages X w chat q ctx) (ext w)
    = (Ret reply, e1) ->
  duckdb_connect X path e1 = (Ret tt, e2) ->
  conn_execute X path sql e2 = (Ret frame, e3) ->
  json_dumps X (Some 2) (rows_val (firstn 10 rows)) = Ret preview ->
  llm_invoke X llm (interpret_messages q sql preview (length rows)) e3
    = (Ret raw, e4) ->
  json_loads X (PyStr.strip raw) = Ret v ->
  (forall d, v <> PDict d) ->
  fst run = Raise (HTTPException 500 (str_exn X cause))
  /\ trace (snd run)
     = (trace w ++ [EvStore (user_turn chat q); EvTextToSql q;
                    EvConnect path; EvExecute sql;
                    EvInterpret sql (length rows); EvClose path;
                    EvStore (exception_turn X chat cause)])%list
  /\ messages (db (snd run))
     = (messages (db w) ++ [user_turn chat q; exception_turn X chat cause])%list
  /\ sql_query (exception_turn X chat cause) = None
  /\ query_result (exception_turn X chat cause) = None.
Proof.
  intros q path sql rows run cause Hres Hgen Hcon Hex Hprev Hint Hload Hv.
  subst run. rewrite (query_data_generating X _ _ _ _ _ _ _ _ Hres).
  unfold try_except_session. cbn [db ext trace]. fold q. rewrite Hgen.
  unfold answer_with. fold path.
  rewrite (with_duckdb_opened X path _ (Build_World _ e1 _) e2 Hcon).
  unfold bind. cbn [db ext trace]. fold sql.
  rewrite (execute_with_repair_first X llm path path sql schema frame
             (Build_World _ e2 _) e3 Hex).
  cbn [fst snd]. fold rows.
  rewrite (conclude_not_object llm chat q sql rows _ _ v _ _
             (interpret_results_parsed X llm q sql rows preview raw v
                (Build_World _ e3 _) e4 Hprev Hint Hload) Hv).
  unfold on_exception, bind, add_commit, raise.
  cbn [flush content exception_turn fst snd db ext trace append_message
       messages]. fold cause.
  rewrite <- !app_assoc. repeat split.
Qed.


End Edges.

(** ** Files and paths *)

Module PathFacts.
Import PyStr PyPath.

Lemma append_nil_r (s : string) : s ++ "" = s.
Proof. induction s as [|c s IH]; [reflexivity|]. cbn. rewrite IH. reflexivity. Qed.

Lemma append_inv_head (a x y : string) : a ++ x = a ++ y -> x = y.
Proof.
  induction a as [|c a IH]; [auto|]. cbn. intros H. injection H as H. auto.
Qed.

Lemma length_append (a b : string) :
  String.length (a ++ b) = String.length a + String.length b.
Proof. induction a as [|c a IH]; [reflexivity|]. cbn. rewrite IH. reflexivity. Qed.

Lemma uint_digits (d : Decimal.uint) :
  all_chars is_digit (NilEmpty.string_of_uint d) = true.
Proof. induction d; cbn; auto. Qed.

Lemma str_of_nat_digits (n : nat) : all_chars is_digit (str_of_nat n) = true.
Proof. apply uint_digits. Qed.

Lemma str_of_nat_inj (n m : nat) : str_of_nat n = str_of_nat m -> n = m.
Proof.
  unfold str_of_nat. intros H.
  apply DecimalNat.Unsigned.to_uint_inj.
  pose proof (NilEmpty.usu (Nat.to_uint n)) as Hn.
  pose proof (NilEmpty.usu (Nat.to_uint m)) as Hm.
  rewrite H in Hn. congruence.
Qed.

(** A run of digits ends where the first other character stands. *)
Lemma digits_then_other (a a' : string) (c c' : ascii) (x x' : string) :
  all_chars is_digit a = true -> all_chars is_digit a' = true ->
  is_digit c = false -> is_digit c' = false ->
  a ++ String c x = a' ++ String c' x' -> a = a' /\ c = c' /\ x = x'.
Proof.
  revert a'. induction a as [|d a IH]; intros [|d' a'] Ha Ha' Hc Hc' H;
    cbn in H; injection H as H1 H2.
  - auto.
  - subst. cbn in Ha'. apply andb_true_iff in Ha'. destruct Ha'. congruence.
  - subst. cbn in Ha. apply andb_true_iff in Ha. destruct Ha. congruence.
  - subst. cbn in Ha, Ha'.
    apply andb_true_iff in Ha. apply andb_true_iff in Ha'.
    destruct (IH a' (proj2 Ha) (proj2 Ha') Hc Hc' H2) as (-> & -> & ->).
    auto.
Qed.

Lemma join2_relative (path b : string) :
  startswith b "/" = false ->
  exists sep, (forall b', startswith b' "/" = false ->
                          join2 path b' = path ++ sep ++ b')
              /\ join2 path b = path ++ sep ++ b.
Proof.
  intros Hb. unfold join2. destruct path as [|c path].
  - exists "". split; [intros b' ->|rewrite Hb]; reflexivity.
  - destruct (String.eqb _ "/").
    + exists "". split; [intros b' ->|rewrite Hb]; reflexivity.
    + exists "/". split; [intros b' ->|rewrite Hb]; reflexivity.
Qed.


Lemma split_slash_plain (s : string) :
  all_chars no_slash s = true -> split_slash s = [s].
Proof.
  induction s as [|c s IH]; [reflexivity|]. cbn [all_chars split_slash].
  intros H. apply andb_true_iff in H. destruct H as [Hc Hs].
  unfold no_slash in Hc. apply negb_true_iff in Hc. rewrite Hc, (IH Hs).
  reflexivity.
Qed.

Lemma name_plain (s : string) :
  all_chars no_slash s = true -> s <> "" -> s <> "." -> name s = s.
Proof.
  intros Hs H1 H2. unfold name. rewrite (split_slash_plain s Hs).
  cbn [filter].
  destruct (String.eqb_spec s ""); [contradiction|].
  destruct (String.eqb_spec s "."); [contradiction|]. reflexivity.
Qed.

Lemma from_last_dot_none (s : string) :
  all_chars no_slash_no_dot s = true -> from_last_dot s = None.
Proof.
  induction s as [|c s IH]; [reflexivity|]. cbn [all_chars from_last_dot].
  intros H. apply andb_true_iff in H. destruct H as [Hc Hs].
  rewrite (IH Hs). unfold no_slash_no_dot in Hc.
  apply andb_true_iff in Hc. destruct Hc as [_ Hc].
  apply negb_true_iff in Hc. rewrite Hc. reflexivity.
Qed.

Lemma from_last_dot_app (stem ext : string) :
  all_chars no_slash_no_dot ext = true ->
  from_last_dot (stem ++ "." ++ ext) = Some ("." ++ ext).
Proof.
  intros He. induction stem as [|c stem IH].
  - cbn. rewrite (from_last_dot_none ext He). reflexivity.
  - change (String c stem ++ "." ++ ext) with (String c (stem ++ "." ++ ext)).
    cbn [from_last_dot]. rewrite IH. reflexivity.
Qed.

Lemma all_chars_app (p : ascii -> bool) (a b : string) :
  all_chars p (a ++ b) = all_chars p a && all_chars p b.
Proof.
  induction a as [|c a IH]; [reflexivity|]. cbn. rewrite IH.
  apply andb_assoc.
Qed.

Lemma all_chars_weaken (s : string) :
  all_chars no_slash_no_dot s = true -> all_chars no_slash s = true.
Proof.
  induction s as [|c s IH]; [reflexivity|]. cbn [all_chars]. intros H.
  apply andb_true_iff in H. destruct H as [Hc Hs].
  unfold no_slash_no_dot in Hc. apply andb_true_iff in Hc.
  unfold no_slash at 1. rewrite (proj1 Hc), (IH Hs). reflexivity.
Qed.

Lemma lower_app (a b : string) : lower (a ++ b) = lower a ++ lower b.
Proof. induction a as [|c a IH]; [reflexivity|]. cbn. rewrite IH. reflexivity. Qed.

(** The suffix of [stem.ext]. *)
Lemma suffix_of_named (stem ext : string) :
  stem <> "" -> all_chars no_slash stem = true ->
  ext <> "" -> all_chars no_slash_no_dot ext = true ->
  suffix (stem ++ "." ++ ext) = "." ++ ext.
Proof.
  intros Hstem Hs Hext He. unfold suffix.
  assert (Hname : name (stem ++ "." ++ ext) = stem ++ "." ++ ext).
  { apply name_plain.
    - rewrite all_chars_app, Hs. cbn. apply all_chars_weaken, He.
    - destruct stem; [contradiction|discriminate].
    - destruct stem as [|c [|c' stem]]; [contradiction| |discriminate].
      destruct ext; [contradiction|discriminate]. }
  rewrite Hname, (from_last_dot_app stem ext He), !length_append.
  cbn [String.length].
  destruct stem as [|c stem]; [contradiction|].
  destruct ext as [|x ext]; [contradiction|]. cbn [String.length].
  replace (_ =? _)%nat with false by (symmetry; apply Nat.eqb_neq; lia).
  reflexivity.
Qed.


Lemma str_of_nat_nonempty (n : nat) : str_of_nat n <> "".
Proof.
  unfold str_of_nat.
  assert (Hn : Nat.to_uint n <> Decimal.Nil).
  { rewrite <- (DecimalNat.Unsigned.of_to n) at 1.
    rewrite DecimalNat.Unsigned.to_of. apply DecimalFacts.unorm_nonnil. }
  destruct (Nat.to_uint n); [contradiction|..]; discriminate.
Qed.

Lemma last_of_append (path : string) (d : ascii) :
  substring (String.length (path ++ String d "") - 1) 1 (path ++ String d "")
  = String d "".
Proof.
  induction path as [|c path IH]; [reflexivity|].
  change (String c path ++ String d "") with (String c (path ++ String d "")).
  cbn [String.length]. rewrite Nat.sub_1_r. cbn [Nat.pred].
  rewrite length_append in *. cbn [String.length] in *.
  replace (String.length path + 1) with (S (String.length path)) in * by lia.
  cbn [substring]. rewrite Nat.sub_1_r in IH. cbn [Nat.pred] in IH.
  exact IH.
Qed.

Lemma digits_end_with_digit (s : string) :
  all_chars is_digit s = true -> s <> "" ->
  exists body d, s = body ++ String d "" /\ is_digit d = true.
Proof.
  induction s as [|c s IH]; [contradiction|]. cbn [all_chars].
  intros H _. apply andb_true_iff in H. destruct H as [Hc Hs].
  destruct s as [|c' s].
  - exists "", c. auto.
  - destruct (IH Hs) as (body & d & Heq & Hd); [discriminate|].
    exists (String c body), d. rewrite Heq. auto.
Qed.

(** Joining a relative name to a path that ends with a digit puts one
    slash between them. *)
Lemma join2_after_number (path : string) (n : nat) (b : string) :
  startswith b "/" = false ->
  join2 (path ++ str_of_nat n) b = (path ++ str_of_nat n) ++ "/" ++ b.
Proof.
  intros Hb.
  destruct (digits_end_with_digit _ (str_of_nat_digits n)
              (str_of_nat_nonempty n)) as (body & d & Heq & Hd).
  rewrite Heq, <- FenceFacts.append_assoc. unfold join2. rewrite Hb.
  rewrite last_of_append.
  replace (String.eqb (String d "") "/") with false.
  - destruct (path ++ body); reflexivity.
  - symmetry. apply String.eqb_neq. intros H. injection H as ->.
    discriminate Hd.
Qed.

End PathFacts.

Section Stores.

Context {E : Type} (X : Externals E).

Variable settings : Settings.

Import PyStr PathFacts.

(** X14.  One physical store per project: the file of a project's store
    determines the user and the project, whatever the directory of the
    settings, so two projects never share a file. [create_db_for_user] opens
    and closes that file and returns its path. *)
Theorem store_path_determines_project (u p u' p' : nat) :
  (db_path_for settings u p = db_path_for settings u' p' -> u = u' /\ p = p')
  /\ (forall (w : World E) e1,
        duckdb_connect X (db_path_for settings u p) (ext w) = (Ret tt, e1) ->
        fst (create_db_for_user X settings u p w)
        = Ret (db_path_for settings u p)).
Proof.
  split.
  - unfold db_path_for, PyPath.join. cbn [fold_left].
    set (file := fun a b : nat =>
           "user_" ++ str_of_nat a ++ "_project_" ++ str_of_nat b ++ ".duckdb").
    change ("user_" ++ str_of_nat u ++ "_project_" ++ str_of_nat p ++ ".duckdb")
      with (file u p).
    change ("user_" ++ str_of_nat u' ++ "_project_" ++ str_of_nat p'
            ++ ".duckdb") with (file u' p').
    destruct (join2_relative (DUCKDB_PATH settings) (file u p) eq_refl)
      as (sep & Hsep & ->).
    rewrite (Hsep (file u' p') eq_refl). intros H.
    apply append_inv_head, append_inv_head in H. unfold file in H.
    apply (append_inv_head "user_") in H.
    destruct (digits_then_other _ _ "_" "_" _ _
                (str_of_nat_digits u) (str_of_nat_digits u') eq_refl eq_refl H)
      as (Hu & _ & H').
    apply (append_inv_head "project_") in H'.
    destruct (digits_then_other _ _ "." "." _ _
                (str_of_nat_digits p) (str_of_nat_digits p') eq_refl eq_refl H')
      as (Hp & _ & _).
    split; apply str_of_nat_inj; assumption.
  - intros w e1 Hc. unfold create_db_for_user, bind, external, ret.
    rewrite Hc. reflexivity.
Qed.

End Stores.

Section Uploads.

Context {E : Type}.

Variable settings : Settings.
Variable repr_list : list string -> string.

Import PyStr PyPath PathFacts.

(** X15.  The extension of a file named [stem.ext], the stem not beginning
    with a dot, is [.ext] in lower case, whatever the case of the name and
    however many dots the stem has, and the file is accepted exactly when that
    lower-case extension is among the allowed ones. *)
Theorem named_file_is_judged_by_its_lowered_extension (stem ext : string) :
  stem <> "" -> startswith stem "." = false ->
  all_chars no_slash stem = true ->
  ext <> "" -> all_chars no_slash_no_dot ext = true ->
  get_file_extension (stem ++ "." ++ ext) = "." ++ lower ext
  /\ (validate_file settings repr_list (stem ++ "." ++ ext) = Ret true
       <-> In ("." ++ lower ext) (ALLOWED_EXTENSIONS settings)).
Proof.
  intros Hstem _ Hs Hext He.
  assert (Hx : lower (suffix (stem ++ "." ++ ext)) = "." ++ lower ext).
  { rewrite (suffix_of_named stem ext Hstem Hs Hext He). reflexivity. }
  split; [exact Hx|]. unfold validate_file, py_in. rewrite Hx. split.
  - destruct (existsb _ _) eqn:Hin; [|discriminate]. intros _.
    apply existsb_exists in Hin. destruct Hin as (x & Hin & Heq).
    apply String.eqb_eq in Heq. subst x. exact Hin.
  - intros Hin.
    replace (existsb _ _) with true; [reflexivity|].
    symmetry. apply existsb_exists. exists ("." ++ lower ext).
    split; [exact Hin|apply String.eqb_refl].
Qed.

(** X16.  A name without a slash has no extension when it has no dot and when
    its only dot is the first character (a hidden file such as [.json]). Such
    a file is refused with a 400 unless the empty extension is allowed, which
    it is not by default. *)
Theorem file_without_extension_is_refused (filename rest : string) :
  all_chars no_slash_no_dot rest = true ->
  filename = rest \/ filename = "." ++ rest ->
  get_file_extension filename = ""
  /\ (~ In "" (ALLOWED_EXTENSIONS settings) ->
      validate_file settings repr_list filename
      = Raise (HTTPException 400
                 ("File type  not allowed. Allowed types: "
                  ++ repr_list (ALLOWED_EXTENSIONS settings))))
  /\ ~ In "" (ALLOWED_EXTENSIONS default_settings).
Proof.
  intros Hr Hcase.
  assert (Hx : lower (suffix filename) = "").
  { unfold suffix. destruct Hcase as [-> | ->].
    - destruct (String.eqb_spec rest "") as [->|Hne]; [reflexivity|].
      rewrite name_plain; auto using all_chars_weaken.
      + rewrite (from_last_dot_none rest Hr). reflexivity.
      + intros ->. discriminate Hr.
    - destruct (String.eqb_spec rest "") as [->|Hne]; [reflexivity|].
      rewrite name_plain.
      + rewrite (from_last_dot_app "" rest Hr
                 : from_last_dot ("." ++ rest) = Some ("." ++ rest)).
        rewrite Nat.eqb_refl. reflexivity.
      + cbn. apply all_chars_weaken, Hr.
      + discriminate.
      + destruct rest; [contradiction|discriminate].
      }
  split; [exact Hx|]. split.
  - intros Hnot. unfold validate_file, py_in. rewrite Hx.
    replace (existsb _ _) with false; [reflexivity|].
    symmetry. apply not_true_is_false. intros Hin.
    apply existsb_exists in Hin. destruct Hin as (x & Hin & Heq).
    apply String.eqb_eq in Heq. subst x. exact (Hnot Hin).
  - cbn. intros H. repeat (destruct H as [H|H]; [discriminate H|]). exact H.
Qed.


Variable makedirs : string -> E -> result unit * E.
Variable copy_upload : string -> E -> result unit * E.
Variable close_upload : E -> E.

(** X17.  Where an upload is written. A file that fails validation touches
    nothing. Otherwise the directory of the project is created and the file is
    written under its own name, with two consequences of [os.path.join]: a
    relative name is appended to the directory as it is, and a name that
    starts with a slash replaces the directory, so the file is written at that
    absolute path, outside the upload directory. The upload is closed whether
    the copy succeeds or not. *)
Theorem save_upload_file_target (filename : string) (u p : nat)
    (w : World E) e1 e2 r :
  let dir := user_upload_dir settings u p in
  let run :=
    save_upload_file settings repr_list makedirs copy_upload close_upload
      filename u p w in
  (forall e, validate_file settings repr_list filename = Raise e ->
             run = (Raise e, w))
  /\ (validate_file settings repr_list filename = Ret true ->
      makedirs dir (ext w) = (Ret tt, e1) ->
      copy_upload (PyPath.join dir [filename]) e1 = (r, e2) ->
      ext (snd run) = close_upload e2
      /\ (r = Ret tt ->
          fst run = Ret (PyPath.join dir [filename])
          /\ (startswith filename "/" = true ->
              PyPath.join dir [filename] = filename)
          /\ (startswith filename "/" = false ->
              PyPath.join dir [filename] = dir ++ "/" ++ filename))).
Proof.
  cbn zeta. split.
  - intros e Hv. unfold save_upload_file, bind, lift. rewrite Hv. reflexivity.
  - intros Hv Hm Hc. unfold save_upload_file, bind, lift, external, ret.
    rewrite Hv. cbn [db ext trace]. rewrite Hm. cbn [db ext trace].
    rewrite Hc. cbn [db ext trace]. split.
    + destruct r; reflexivity.
    + intros ->. cbn [fst]. split; [reflexivity|].
      change (PyPath.join (user_upload_dir settings u p) [filename])
        with (join2 (user_upload_dir settings u p) filename). split.
      * intros Hs. unfold join2. rewrite Hs. reflexivity.
      * intros Hs. unfold user_upload_dir, PyPath.join. cbn [fold_left].
        set (d1 := join2 (UPLOAD_DIR settings) ("user_" ++ str_of_nat u)).
        destruct (join2_relative d1 ("project_" ++ str_of_nat p) eq_refl)
          as (sep & _ & Hj).
        rewrite Hj.
        replace (d1 ++ sep ++ "project_" ++ str_of_nat p)
          with ((d1 ++ sep ++ "project_") ++ str_of_nat p)
          by (rewrite !FenceFacts.append_assoc; reflexivity).
        apply join2_after_number, Hs.
Qed.

End Uploads.

(** ** Model configurations *)

Section ConfigProperties.

Context {E : Type} (X : Externals E).

Variable encrypt_api_key : string -> E -> result string * E.

Lemma deactivated_rows (uid v : nat) (l : list LLMConfig) :
  filter (fun c => Nat.eqb (cfg_user_id c) v && Z.eqb (is_active c) 1)
    (map (fun c => if Nat.eqb (cfg_user_id c) uid then deactivate c else c) l)
  = if Nat.eqb v uid then []
    else filter (fun c => Nat.eqb (cfg_user_id c) v && Z.eqb (is_active c) 1) l.
Proof.
  induction l as [|c l IH].
  - destruct (Nat.eqb v uid); reflexivity.
  - cbn [map filter]. rewrite IH.
    destruct (Nat.eqb (cfg_user_id c) uid) eqn:Hc.
    + apply Nat.eqb_eq in Hc. cbn [deactivate cfg_user_id is_active].
      rewrite andb_false_r. rewrite Hc.
      destruct (Nat.eqb v uid) eqn:Hv; [reflexivity|].
      rewrite Nat.eqb_sym, Hv. reflexivity.
    + destruct (Nat.eqb v uid) eqn:Hv; [|reflexivity].
      apply Nat.eqb_eq in Hv. subst v. rewrite Hc. reflexivity.
Qed.

Lemma deactivated_rows_of_user (uid : nat) (l : list LLMConfig) :
  filter (fun c => Nat.eqb (cfg_user_id c) uid)
    (map (fun c => if Nat.eqb (cfg_user_id c) uid then deactivate c else c) l)
  = map deactivate (filter (fun c => Nat.eqb (cfg_user_id c) uid) l).
Proof.
  induction l as [|c l IH]; [reflexivity|]. cbn [map filter].
  destruct (Nat.eqb (cfg_user_id c) uid) eqn:Hc.
  - cbn [deactivate cfg_user_id map]. rewrite Hc, IH. reflexivity.
  - rewrite Hc. exact IH.
Qed.

Lemma create_llm_config_run provider api_key (u : User) (w : World E) key e' :
  encrypt_api_key api_key (ext w) = (Ret key, e') ->
  create_llm_config encrypt_api_key provider api_key u w
  = (Ret {| cfg_user_id := user_id u; provider := provider;
            encrypted_api_key := key; is_active := 1 |},
     Build_World
       (add_config {| cfg_user_id := user_id u; provider := provider;
                      encrypted_api_key := key; is_active := 1 |}
          (deactivate_all (user_id u) (db w)))
       e' (trace w)).
Proof.
  intros He. unfold create_llm_config, bind, external. rewrite He.
  reflexivity.
Qed.

Lemma active_after_create provider key (u : User) (d : Database) (v : nat) :
  active_configs v
    (add_config {| cfg_user_id := user_id u; provider := provider;
                   encrypted_api_key := key; is_active := 1 |}
       (deactivate_all (user_id u) d))
  = if Nat.eqb v (user_id u)
    then [{| cfg_user_id := user_id u; provider := provider;
             encrypted_api_key := key; is_active := 1 |}]
    else active_configs v d.
Proof.
  unfold active_configs, add_config, deactivate_all. cbn [llm_configs].
  rewrite filter_app, deactivated_rows. cbn [filter cfg_user_id is_active].
  rewrite (Nat.eqb_sym (user_id u) v).
  destruct (Nat.eqb v (user_id u)); cbn [andb Z.eqb Pos.eqb app];
    [reflexivity|apply app_nil_r].
Qed.

Lemma find_head_of_filter {A} (p : A -> bool) (l : list A) :
  find p l = hd_error (filter p l).
Proof.
  induction l as [|a l IH]; [reflexivity|]. cbn [find filter].
  destruct (p a); [reflexivity|exact IH].
Qed.

(** X18.  [create_llm_config] leaves the caller with exactly one active
    configuration, the one it returns: every earlier row of the caller is
    switched off and kept, the new row carries the given provider and the
    encrypted key and is listed last by [get_llm_configs], [get_active_config]
    answers with it, and the active configurations of every other user are
    what they were. *)
Theorem create_llm_config_leaves_one_active provider api_key (u : User)
    (w : World E) key e' :
  encrypt_api_key api_key (ext w) = (Ret key, e') ->
  let run := create_llm_config encrypt_api_key provider api_key u w in
  let new_config :=
    {| cfg_user_id := user_id u; provider := provider;
       encrypted_api_key := key; is_active := 1 |} in
  fst run = Ret new_config
  /\ active_configs (user_id u) (db (snd run)) = [new_config]
  /\ fst (get_active_config u (snd run)) = Ret new_config
  /\ (forall v, v <> user_id u ->
        active_configs v (db (snd run)) = active_configs v (db w))
  /\ (forall earlier, fst (get_llm_configs u w) = Ret earlier ->
        fst (get_llm_configs u (snd run))
        = Ret (map deactivate earlier ++ [new_config])%list)
  /\ chats (db (snd run)) = chats (db w)
  /\ messages (db (snd run)) = messages (db w)
  /\ projects (db (snd run)) = projects (db w).
Proof.
  intros He. cbn zeta. rewrite (create_llm_config_run _ _ _ _ _ _ He).
  cbn [fst snd db]. split; [reflexivity|]. split.
  - rewrite active_after_create, Nat.eqb_refl. reflexivity.
  - split.
    + unfold get_active_config, bind, first_active_config. cbn [db].
      rewrite find_head_of_filter.
      change (filter _ (llm_configs ?d)) with (active_configs (user_id u) d).
      rewrite active_after_create, Nat.eqb_refl. reflexivity.
    + split; [|split; [|repeat split]].
      * intros v Hv. rewrite active_after_create.
        apply Nat.eqb_neq in Hv. rewrite Hv. reflexivity.
      * intros earlier H. unfold get_llm_configs in *. cbn [fst db] in *.
        injection H as <-. unfold add_config, deactivate_all.
        cbn [llm_configs]. rewrite filter_app, deactivated_rows_of_user.
        cbn [filter cfg_user_id]. rewrite Nat.eqb_refl. reflexivity.
Qed.

(** X19.  A question asked right after [create_llm_config] is never turned
    away for want of a configuration: in a chat of the caller the user turn is
    stored, followed by at most two assistant turns, and whatever the handler
    raises is not a 400. *)
Theorem created_config_serves_next_question provider api_key
    (request : ChatQueryRequest) (u : User) (w : World E) key e' chat :
  encrypt_api_key api_key (ext w) = (Ret key, e') ->
  chat_found request u w chat ->
  let w' := snd (create_llm_config encrypt_api_key provider api_key u w) in
  let run := query_data X request u w' in
  (forall detail, fst run <> Raise (HTTPException 400 detail))
  /\ exists replies,
       messages (db (snd run))
       = (messages (db w')
          ++ user_turn chat (req_query request) :: replies)%list
       /\ length replies <= 2.
Proof.
  intros He Hchat. cbn zeta.
  rewrite (create_llm_config_run _ _ _ _ _ _ He). cbn [snd].
  match goal with |- context [query_data X request u ?w1] =>
    set (w' := w1) end.
  destruct (query_data_effect X request u w')
    as (r & ev & ts & (Hr & _ & Hdb) & Hsh).
  assert (Hc : fst (first_chat (req_chat_id request) (user_id u) w')
               = Ret (Some chat)) by exact Hchat.
  assert (Ha : fst (first_active_config (user_id u) w')
               = Ret (Some {| cfg_user_id := user_id u; provider := provider;
                              encrypted_api_key := key; is_active := 1 |})).
  { unfold first_active_config, w'. cbn [fst db].
    rewrite find_head_of_filter.
    change (filter _ (llm_configs ?d)) with (active_configs (user_id u) d).
    rewrite active_after_create, Nat.eqb_refl. reflexivity. }
  rewrite Hc, Ha in Hsh. destruct Hsh as (replies & -> & Hcase).
  rewrite Hr, Hdb, stored_messages. split.
  - intros detail ->.
    destruct Hcase as [(cause & Hcause & _) | (cause & Hcause & _)];
      discriminate Hcause.
  - exists replies. split; [reflexivity|]. destruct r as [resp|e].
    + destruct Hcase as (-> & _). cbn. lia.
    + destruct Hcase
        as [(cause & _ & [(-> & _) | ((turn & -> & _) & _)])
           | (cause & _ & -> & _)]; cbn; lia.
Qed.

End ConfigProperties.

(** ** Chats *)

Section ChatProperties.

Context {E : Type} (X : Externals E).

Lemma find_filtered_out {A} (p q : A -> bool) (l : list A) :
  (forall a, p a = true -> q a = false) -> find p (filter q l) = None.
Proof.
  intros H. induction l as [|a l IH]; [reflexivity|]. cbn [filter].
  destruct (q a) eqn:Hq; [|exact IH]. cbn [find].
  destruct (p a) eqn:Hp; [|exact IH]. rewrite (H a Hp) in Hq. discriminate.
Qed.

Lemma find_filter_kept {A} (p q : A -> bool) (l : list A) :
  (forall a, p a = true -> q a = true) -> find p (filter q l) = find p l.
Proof.
  intros H. induction l as [|a l IH]; [reflexivity|]. cbn [filter find].
  destruct (p a) eqn:Hp.
  - rewrite (H a Hp). cbn [find]. rewrite Hp. reflexivity.
  - destruct (q a); [cbn [find]; rewrite Hp|]; exact IH.
Qed.

Lemma filter_filter_kept {A} (p q : A -> bool) (l : list A) :
  (forall a, p a = true -> q a = true) ->
  filter p (filter q l) = filter p l.
Proof.
  intros H. induction l as [|a l IH]; [reflexivity|]. cbn [filter].
  destruct (p a) eqn:Hp.
  - rewrite (H a Hp). cbn [filter]. rewrite Hp, IH. reflexivity.
  - destruct (q a); [cbn [filter]; rewrite Hp|]; exact IH.
Qed.

Lemma filter_filtered_out {A} (p q : A -> bool) (l : list A) :
  (forall a, p a = true -> q a = false) -> filter p (filter q l) = [].
Proof.
  intros H. induction l as [|a l IH]; [reflexivity|]. cbn [filter].
  destruct (q a) eqn:Hq; [|exact IH]. cbn [filter].
  destruct (p a) eqn:Hp; [|exact IH]. rewrite (H a Hp) in Hq. discriminate.
Qed.

Lemma delete_chat_run (id : nat) (u : User) (w : World E) :
  delete_chat id u w
  = match find (fun c => Nat.eqb (chat_id c) id
                         && Nat.eqb (chat_user_id c) (user_id u))
               (chats (db w)) with
    | Some c =>
        (Ret tt, Build_World (delete_commit c (db w)) (ext w) (trace w))
    | None => (Raise (HTTPException 404 "Chat not found"), w)
    end.
Proof.
  unfold delete_chat, bind, first_chat.
  destruct (find _ (chats (db w))); reflexivity.
Qed.

Lemma found_chat_id (id uid : nat) (l : list Chat) (c : Chat) :
  find (fun c => Nat.eqb (chat_id c) id && Nat.eqb (chat_user_id c) uid) l
  = Some c -> chat_id c = id.
Proof.
  intros H. apply find_some in H. destruct H as [_ H].
  apply andb_true_iff in H. destruct H as [H _].
  apply Nat.eqb_eq. exact H.
Qed.

(** X20.  A chat that [delete_chat] has deleted is unknown to every caller
    afterwards: [get_chat] and [query_data] answer 404 for its identifier, the
    latter without storing anything, and no message of the chat is left. *)
Theorem deleted_chat_is_unknown_afterwards (id : nat) (u : User)
    (w : World E) :
  fst (delete_chat id u w) = Ret tt ->
  let w' := snd (delete_chat id u w) in
  filter (fun m => Nat.eqb (msg_chat_id m) id) (messages (db w')) = []
  /\ forall (v : User),
       fst (get_chat id v w') = Raise (HTTPException 404 "Chat not found")
       /\ forall request, req_chat_id request = id ->
            query_data X request v w'
            = (Raise (HTTPException 404 "Chat not found"), w').
Proof.
  rewrite delete_chat_run.
  destruct (find _ (chats (db w))) as [c|] eqn:Hfind; [|discriminate].
  intros _. cbn [snd]. pose proof (found_chat_id _ _ _ _ Hfind) as Hid.
  assert (Hgone : forall v,
    find (fun c0 => Nat.eqb (chat_id c0) id && Nat.eqb (chat_user_id c0) v)
         (chats (delete_commit c (db w))) = None).
  { intros v. unfold delete_commit. cbn [chats]. rewrite Hid.
    apply find_filtered_out. intros a Ha.
    apply andb_true_iff in Ha. destruct Ha as [Ha _]. rewrite Ha.
    reflexivity. }
  split.
  - cbn [db]. unfold delete_commit. cbn [messages]. rewrite Hid.
    apply filter_filtered_out. intros a ->. reflexivity.
  - intros v. split.
    + unfold get_chat, bind, first_chat. cbn [db]. rewrite Hgone.
      reflexivity.
    + intros request Hreq. apply query_data_no_chat.
      unfold first_chat. cbn [fst db]. rewrite Hreq, Hgone. reflexivity.
Qed.

(** X21.  [delete_chat] is confined to its chat: whether it succeeds or not,
    every chat with another identifier is found as before by every caller and
    keeps its history (its stored messages, and so the window the generator
    reads), and projects and configurations are untouched. *)
Theorem delete_chat_spares_other_chats (id : nat) (u : User) (w : World E)
    (other : nat) :
  other <> id ->
  let w' := snd (delete_chat id u w) in
  select_last_messages X (db w') other = select_last_messages X (db w) other
  /\ (forall v : User,
        fst (get_chat other v w') = fst (get_chat other v w))
  /\ projects (db w') = projects (db w)
  /\ llm_configs (db w') = llm_configs (db w)
  /\ filter (fun m => Nat.eqb (msg_chat_id m) other) (messages (db w'))
     = filter (fun m => Nat.eqb (msg_chat_id m) other) (messages (db w)).
Proof.
  intros Hother. rewrite delete_chat_run.
  destruct (find _ (chats (db w))) as [c|] eqn:Hfind;
    [|cbn [snd]; repeat split; reflexivity].
  pose proof (found_chat_id _ _ _ _ Hfind) as Hid. cbn [snd db].
  assert (Hkept :
    filter (fun m => Nat.eqb (msg_chat_id m) other)
      (messages (delete_commit c (db w)))
    = filter (fun m => Nat.eqb (msg_chat_id m) other) (messages (db w))).
  { unfold delete_commit. cbn [messages].
    rewrite filter_filter_kept; [reflexivity|].
    intros a Ha. apply Nat.eqb_eq in Ha. rewrite Ha, Hid.
    apply negb_true_iff, Nat.eqb_neq. exact Hother. }
  split; [|split; [|split; [reflexivity|split; [reflexivity|exact Hkept]]]].
  - unfold select_last_messages. rewrite Hkept. reflexivity.
  - intros v. unfold get_chat, bind, first_chat. cbn [db].
    unfold delete_commit at 1. cbn [chats].
    rewrite find_filter_kept; [|].
    + destruct (find (fun c0 => Nat.eqb (chat_id c0) other
                                && Nat.eqb (chat_user_id c0) (user_id v))
                  (chats (db w))); reflexivity.
    + intros a Ha. apply andb_true_iff in Ha. destruct Ha as [Ha _].
      apply Nat.eqb_eq in Ha. rewrite Ha, Hid.
      apply negb_true_iff, Nat.eqb_neq. exact Hother.
Qed.

(** X22.  Only the owner reads or deletes a chat: when every row with the
    identifier belongs to somebody else, [get_chat] and [delete_chat] answer
    404 and the store is left as it was. *)
Theorem foreign_chat_cannot_be_read_or_deleted (id : nat) (u : User)
    (w : World E) :
  (forall c, In c (chats (db w)) -> chat_id c = id ->
             chat_user_id c <> user_id u) ->
  get_chat id u w = (Raise (HTTPException 404 "Chat not found"), w)
  /\ delete_chat id u w = (Raise (HTTPException 404 "Chat not found"), w).
Proof.
  intros Hforeign.
  assert (Hnone :
    find (fun c => Nat.eqb (chat_id c) id
                   && Nat.eqb (chat_user_id c) (user_id u))
         (chats (db w)) = None).
  { destruct (find _ (chats (db w))) as [c|] eqn:Hfind; [|reflexivity].
    apply find_some in Hfind. destruct Hfind as [Hin Hc].
    apply andb_true_iff in Hc. destruct Hc as [Hi Hu].
    apply Nat.eqb_eq in Hi, Hu. destruct (Hforeign c Hin Hi Hu). }
  split.
  - unfold get_chat, bind, first_chat. rewrite Hnone. reflexivity.
  - rewrite delete_chat_run, Hnone. reflexivity.
Qed.

End ChatProperties.

(** ** Schema generation *)

Section SchemaProperties.

Context {E : Type} (X : Externals E).

Variable unbound_local : string -> string.

(** X23.  [generate_schema] raises in two situations only, both before a reply
    is at hand: the table metadata cannot be printed for the prompt, or the
    model call itself raises a JSON decoding error, whose handler then reads
    the unbound [content]. Every other failure is returned as a dictionary. *)
Theorem generate_schema_raises_only_before_reply (llm : ChatModel)
    (schema_info : PyVal) (w : World E) (e : exn) :
  fst (generate_schema X unbound_local llm schema_info w) = Raise e
  <-> json_dumps X (Some 2) schema_info = Raise e
      \/ exists info msg,
           json_dumps X (Some 2) schema_info = Ret info
           /\ fst (llm_invoke X llm (schema_messages info) (ext w))
              = Raise (JSONDecodeError msg)
           /\ e = OtherError "UnboundLocalError" (unbound_local "content").
Proof.
  unfold generate_schema, bind, lift, external.
  destruct (json_dumps X (Some 2) schema_info) as [info|e0].
  - destruct (llm_invoke X llm (schema_messages info) (ext w))
      as [[content|cause] e1] eqn:Hinv; cbn [fst].
    + split.
      * destruct (json_loads X content) as [v|[]]; discriminate.
      * intros [H|(i & m & H & Hc & _)]; [discriminate|].
        injection H as <-. rewrite Hinv in Hc. discriminate.
    + split.
      * destruct cause; try discriminate. intros H. injection H as <-.
        right. exists info, msg. rewrite Hinv. auto.
      * intros [H|(i & m & H & Hc & ->)]; [discriminate|].
        injection H as <-. rewrite Hinv in Hc. cbn [fst] in Hc.
        injection Hc as ->. reflexivity.
  - cbn [fst]. split.
    + intros H. left. injection H as ->. reflexivity.
    + intros [H|(i & m & H & _)]; [|discriminate].
      injection H as ->. reflexivity.
Qed.

(** X24.  Once the model has replied, [generate_schema] returns a dictionary
    and the reply is parsed as it came, neither stripped nor freed of fences:
    success carries what [json.loads] made of the very reply, and a reply that
    does not parse comes back verbatim as [raw_response]. *)
Theorem generate_schema_parses_reply_verbatim (llm : ChatModel)
    (schema_info : PyVal) (w : World E) info content e' :
  json_dumps X (Some 2) schema_info = Ret info ->
  llm_invoke X llm (schema_messages info) (ext w) = (Ret content, e') ->
  exists res,
    generate_schema X unbound_local llm schema_info w
    = (Ret res, Build_World (db w) e' (trace w))
    /\ (forall v, res = SchemaSuccess v <-> json_loads X content = Ret v)
    /\ (forall err raw, res = SchemaUnparsed err raw ->
          raw = content
          /\ exists msg, json_loads X content = Raise (JSONDecodeError msg))
    /\ (forall msg, json_loads X content = Raise (JSONDecodeError msg) ->
          res = SchemaUnparsed
                  ("Failed to parse JSON: " ++ str_exn X (JSONDecodeError msg))
                  content).
Proof.
  intros Hd Hinv. unfold generate_schema, bind, lift, external.
  rewrite Hd, Hinv.
  destruct (json_loads X content) as [v|cause] eqn:Hl.
  - eexists. split; [reflexivity|]. split; [|split].
    + intros v'. split; intros H; injection H as ->; reflexivity.
    + intros err raw H. discriminate.
    + intros msg H. discriminate.
  - destruct cause; (eexists; split; [reflexivity|]); (split; [|split]);
      try (intros v'; split; intros H; discriminate);
      try (intros err raw H; discriminate H);
      try (intros m H; discriminate H).
    + intros err raw H. injection H as _ <-. split; [reflexivity|eauto].
    + intros m H. injection H as ->. reflexivity.
Qed.

End SchemaProperties.

(** ** Ingestion and projects *)

Section KeepsDb.

Context {E : Type} (X : Externals E).

Lemma keeps_ret {A} (a : A) : keeps_db (E:=E) (ret a).
Proof. intros w. reflexivity. Qed.

Lemma keeps_raise {A} (e : exn) : keeps_db (E:=E) (A:=A) (raise e).
Proof. intros w. reflexivity. Qed.

Lemma keeps_lift {A} (r : result A) : keeps_db (E:=E) (lift r).
Proof. intros w. reflexivity. Qed.

Lemma keeps_external {A} (f : E -> result A * E) : keeps_db (external f).
Proof. intros w. unfold external. destruct (f (ext w)). reflexivity. Qed.

Lemma keeps_log (ev : Event) : keeps_db (E:=E) (log ev).
Proof. intros w. reflexivity. Qed.

Lemma keeps_bind {A B} (m : M E A) (k : A -> M E B) :
  keeps_db m -> (forall a, keeps_db (k a)) -> keeps_db (bind m k).
Proof.
  intros Hm Hk w. unfold bind. specialize (Hm w).
  destruct (m w) as [[a|e] w1]; cbn [snd] in *; [|exact Hm].
  rewrite Hk. exact Hm.
Qed.

Lemma keeps_try_except {A} (body : M E A) (handler : exn -> M E A) :
  keeps_db body -> (forall e, keeps_db (handler e)) ->
  keeps_db (try_except body handler).
Proof.
  intros Hm Hk w. unfold try_except. specialize (Hm w).
  destruct (body w) as [[a|e] w1]; cbn [snd] in *; [exact Hm|].
  rewrite Hk. exact Hm.
Qed.

Lemma keeps_first_active_config uid :
  keeps_db (E:=E) (first_active_config uid).
Proof. intros w. reflexivity. Qed.

Lemma keeps_enter self : keeps_db (enter X self).
Proof.
  unfold enter. apply keeps_bind; [apply keeps_log|intros _].
  apply keeps_bind; [apply keeps_external|intros _]. apply keeps_ret.
Qed.

Lemma keeps_exit self : keeps_db (exit X self).
Proof.
  unfold exit. destruct (conn self); [|apply keeps_ret].
  apply keeps_bind; [apply keeps_log|intros _]. apply keeps_external.
Qed.

Lemma keeps_with_duckdb {A} path (body : DuckDBManager -> M E A) :
  (forall duck_db, keeps_db (body duck_db)) ->
  keeps_db (with_duckdb X path body).
Proof.
  intros Hb. unfold with_duckdb.
  apply keeps_bind; [apply keeps_enter|]. intros duck_db w.
  specialize (Hb duck_db w).
  destruct (body duck_db w) as [r w1]. cbn [snd] in *.
  rewrite keeps_exit. exact Hb.
Qed.

Lemma keeps_on_conn {A} self (call : string -> M E A) :
  (forall store, keeps_db (call store)) -> keeps_db (on_conn self call).
Proof.
  intros H. unfold on_conn. destruct (conn self); [apply H|apply keeps_raise].
Qed.

End KeepsDb.

Create HintDb keeps.

#[local] Hint Resolve keeps_ret keeps_raise keeps_lift keeps_external
  keeps_log keeps_first_active_config : keeps.

Ltac keeps_step :=
  first
    [ apply keeps_bind; [|intros ?]
    | apply keeps_try_except; [|intros ?]
    | apply keeps_with_duckdb; intros ?
    | apply keeps_on_conn; intros ?
    | solve [auto with keeps]
    | match goal with
      | |- keeps_db (match ?x with _ => _ end) => destruct x
      | |- keeps_db (if ?x then _ else _) => destruct x
      end ].

Section IngestionProperties.

Context {E : Type} (X : Externals E).

Variable read_csv : string -> E -> result DataFrame * E.
Variable read_json : string -> E -> result DataFrame * E.
Variable excel_sheet_names : string -> E -> result (list string) * E.
Variable read_excel : string -> string -> E -> result DataFrame * E.
Variable conn_run : string -> string -> DataFrame -> E -> result unit * E.
Variable conn_fetchall :
  string -> string -> E -> result (list (list PyVal)) * E.
Variable conn_fetchone :
  string -> string -> E -> result (option (list PyVal)) * E.

Lemma keeps_load_frame self table_name df :
  keeps_db (load_frame conn_run self table_name df).
Proof. unfold load_frame. repeat keeps_step. Qed.

Lemma keeps_ingest_sheets self file_path table_name sheet_names results :
  keeps_db
    (ingest_sheets read_excel conn_run self file_path table_name sheet_names
       results).
Proof.
  revert results. induction sheet_names as [|s rest IH]; intros results.
  - apply keeps_ret.
  - cbn [ingest_sheets]. apply keeps_bind; [apply keeps_external|intros df].
    apply keeps_bind; [apply keeps_load_frame|intros _]. apply IH.
Qed.

Lemma keeps_ingest_csv self file_path table_name :
  keeps_db (ingest_csv X read_csv conn_run self file_path table_name).
Proof.
  unfold ingest_csv. apply keeps_try_except; [|intros e; apply keeps_ret].
  apply keeps_bind; [apply keeps_external|intros df].
  apply keeps_bind; [apply keeps_load_frame|intros _]. apply keeps_ret.
Qed.

Lemma keeps_ingest_json self file_path table_name :
  keeps_db (ingest_json X read_json conn_run self file_path table_name).
Proof.
  unfold ingest_json. apply keeps_try_except; [|intros e; apply keeps_ret].
  apply keeps_bind; [apply keeps_external|intros df].
  apply keeps_bind; [apply keeps_load_frame|intros _]. apply keeps_ret.
Qed.

Lemma keeps_ingest_excel self file_path table_name :
  keeps_db
    (ingest_excel X excel_sheet_names read_excel conn_run self file_path
       table_name).
Proof.
  unfold ingest_excel. apply keeps_try_except; [|intros e; apply keeps_ret].
  apply keeps_bind; [apply keeps_external|intros names].
  apply keeps_bind; [apply keeps_ingest_sheets|intros r]. apply keeps_ret.
Qed.

Lemma keeps_describe_tables self tables schema_info :
  keeps_db (describe_tables X conn_fetchone self tables schema_info).
Proof.
  revert schema_info. induction tables as [|t rest IH]; intros schema_info.
  - apply keeps_ret.
  - cbn [describe_tables].
    do 5 (apply keeps_bind; [repeat keeps_step|intros ?]). apply IH.
Qed.

Lemma keeps_get_schema_info self :
  keeps_db (get_schema_info X conn_fetchall conn_fetchone self).
Proof.
  unfold get_schema_info. apply keeps_bind; [repeat keeps_step|intros t].
  apply keeps_describe_tables.
Qed.

(** X25.  The three ingestions never raise: whatever pandas or the engine
    does, and on a manager that was never entered as well, the caller gets a
    result dictionary, and the relational store is not touched. *)
Theorem ingestion_never_raises (self : DuckDBManager)
    (file_path table_name : string) (w : World E) :
  Forall (fun run : M E IngestResult =>
            (exists r, fst (run w) = Ret r) /\ db (snd (run w)) = db w)
    [ ingest_csv X read_csv conn_run self file_path table_name;
      ingest_excel X excel_sheet_names read_excel conn_run self file_path
        table_name;
      ingest_json X read_json conn_run self file_path table_name ].
Proof.
  repeat apply Forall_cons; [| | |apply Forall_nil].
  - split; [|apply keeps_ingest_csv]. unfold ingest_csv, try_except.
    match goal with
    | |- context [let (_, _) := ?b in _] => destruct b as [[r|e] w1]
    end; eexists; reflexivity.
  - split; [|apply keeps_ingest_excel]. unfold ingest_excel, try_except.
    match goal with
    | |- context [let (_, _) := ?b in _] => destruct b as [[r|e] w1]
    end; eexists; reflexivity.
  - split; [|apply keeps_ingest_json]. unfold ingest_json, try_except.
    match goal with
    | |- context [let (_, _) := ?b in _] => destruct b as [[r|e] w1]
    end; eexists; reflexivity.
Qed.

(** The loop on an open connection, run to its end. *)
Lemma ingest_sheets_loaded path store file_path table_name sheet_names
    results (w : World E) done w' :
  ingest_sheets read_excel conn_run {| db_path := path; conn := Some store |}
    file_path table_name sheet_names results w = (Ret done, w') ->
  exists entries,
    done = (results ++ entries)%list
    /\ sheets_loaded read_excel conn_run store file_path table_name
         sheet_names (ext w) (ext w') entries.
Proof.
  revert results w. induction sheet_names as [|s rest IH]; intros results w.
  - cbn. intros H. injection H as <- <-. exists [].
    rewrite app_nil_r. split; [reflexivity|constructor].
  - cbn [ingest_sheets]. unfold bind at 1. unfold external at 1.
    destruct (read_excel file_path s (ext w)) as [[df|e] e1] eqn:Hread;
      [|discriminate].
    unfold bind at 1. unfold load_frame, on_conn. cbn [conn].
    unfold bind at 1. unfold external at 1. cbn [ext db trace].
    destruct (conn_run store _ df e1) as [[[]|e] e2] eqn:Hdrop;
      [|discriminate].
    unfold external at 1. cbn [ext db trace].
    destruct (conn_run store _ df e2) as [[[]|e] e3] eqn:Hcreate;
      [|discriminate].
    intros H. destruct (IH _ _ H) as (entries & -> & Hrest).
    cbn [ext] in Hrest. eexists. rewrite <- app_assoc. split; [reflexivity|].
    exact (loaded_sheet read_excel conn_run store file_path table_name s rest
             df (ext w) e1 e2 e3 (ext w') entries Hread Hdrop Hcreate Hrest).
Qed.

Lemma sheets_loaded_run path store file_path table_name sheet_names e e'
    entries :
  sheets_loaded read_excel conn_run store file_path table_name sheet_names
    e e' entries ->
  forall results (w : World E),
    ext w = e ->
    ingest_sheets read_excel conn_run {| db_path := path; conn := Some store |}
      file_path table_name sheet_names results w
    = (Ret (results ++ entries)%list, Build_World (db w) e' (trace w)).
Proof.
  induction 1 as [e|s rest df e e1 e2 e3 e' entries safe Hread Hdrop Hcreate
                    Hrest IH]; intros results w Hw.
  - cbn. rewrite app_nil_r, <- Hw. destruct w; reflexivity.
  - cbn [ingest_sheets]. unfold bind at 1. unfold external at 1.
    rewrite Hw, Hread.
    unfold bind at 1. unfold load_frame, on_conn. cbn [conn].
    unfold bind at 1. unfold external at 1. cbn [ext db trace].
    fold safe. rewrite Hdrop.
    unfold external at 1. cbn [ext db trace]. rewrite Hcreate.
    rewrite IH by reflexivity. cbn [db trace]. rewrite <- app_assoc.
    reflexivity.
Qed.

Lemma sheets_loaded_tables store file_path table_name sheet_names e e'
    entries :
  sheets_loaded read_excel conn_run store file_path table_name sheet_names
    e e' entries ->
  map (fun entry => fst (fst entry)) entries
  = map (fun s => (safe_table_name table_name s, s)) sheet_names.
Proof.
  induction 1 as [e|s rest df e e1 e2 e3 e' entries safe _ _ _ _ IH];
    [reflexivity|].
  cbn [map fst]. rewrite IH. reflexivity.
Qed.

(** X26.  On an open connection, [ingest_excel] reports a workbook as
    ingested exactly when every sheet was loaded: when, one sheet after the
    other and in the order of the workbook, the sheet was read, the table named
    after the given table and the sheet (its spaces turned into underscores)
    was dropped if it existed and created from the frame read, none of these
    calls raising, each in the state the call before it left; the report then
    lists, per sheet, that table, the sheet and the rows and columns of the
    frame read, and the outside world is in the state the last statement
    left. *)
Theorem ingest_excel_loads_one_table_per_sheet (path store : string)
    (file_path table_name : string) (w : World E) sheet_names e1 tables :
  excel_sheet_names file_path (ext w) = (Ret sheet_names, e1) ->
  let self := {| db_path := path; conn := Some store |} in
  let run :=
    ingest_excel X excel_sheet_names read_excel conn_run self file_path
      table_name w in
  (fst run = Ret (IngestSheets tables)
   <-> sheets_loaded read_excel conn_run store file_path table_name
         sheet_names e1 (ext (snd run)) tables)
  /\ (fst run = Ret (IngestSheets tables) ->
      map (fun entry => fst (fst entry)) tables
      = map (fun s => (safe_table_name table_name s, s)) sheet_names).
Proof.
  intros Hn self run.
  assert (Hrun :
    run
    = match
        ingest_sheets read_excel conn_run self file_path table_name
          sheet_names [] (Build_World (db w) e1 (trace w))
      with
      | (Ret done, w1) => (Ret (IngestSheets done), w1)
      | (Raise e, w1) => (Ret (IngestFailure (str_exn X e)), w1)
      end).
  { unfold run, ingest_excel, try_except. unfold bind at 1.
    unfold external at 1. rewrite Hn. unfold bind at 1.
    destruct (ingest_sheets _ _ _ _ _ _ _ _) as [[done|e] w1]; reflexivity. }
  assert (Hloaded :
    fst run = Ret (IngestSheets tables) ->
    sheets_loaded read_excel conn_run store file_path table_name
      sheet_names e1 (ext (snd run)) tables).
  { rewrite Hrun.
    destruct (ingest_sheets _ _ _ _ _ _ _ _) as [[done|e] w1] eqn:Hloop;
      cbn [fst snd]; [|discriminate].
    intros H. injection H as ->.
    destruct (ingest_sheets_loaded _ _ _ _ _ _ _ _ _ Hloop)
      as (entries & -> & Hl).
    exact Hl. }
  split; [split; [exact Hloaded|]|].
  - intros Hl.
    pose proof (sheets_loaded_run path _ _ _ _ _ _ _ Hl []
                  (Build_World (db w) e1 (trace w)) eq_refl) as Hloop.
    rewrite Hrun. fold self in Hloop. rewrite Hloop. reflexivity.
  - intros H. exact (sheets_loaded_tables _ _ _ _ _ _ _ (Hloaded H)).
Qed.

End IngestionProperties.

Module TableNames.

Import PyStr.

Lemma replace_space (s : string) :
  replace s " " "_" = map_chars underscore s.
Proof.
  unfold replace. induction s as [|c s IH]; [reflexivity|].
  cbn [replace_scan map_chars String.length Nat.sub prefix].
  unfold underscore at 1.
  destruct (ascii_dec " " c) as [<-|Hne].
  - cbn [append Ascii.eqb Bool.eqb].
    rewrite IH, FenceFacts.prefix_nil. reflexivity.
  - replace (Ascii.eqb c " ") with false.
    + rewrite IH. reflexivity.
    + symmetry. apply Ascii.eqb_neq. congruence.
Qed.

Lemma underscore_idempotent (c : ascii) :
  underscore (underscore c) = underscore c.
Proof.
  unfold underscore. destruct (Ascii.eqb c " ") eqn:H; [reflexivity|].
  rewrite H. reflexivity.
Qed.

Lemma map_chars_idempotent (s : string) :
  map_chars underscore (map_chars underscore s) = map_chars underscore s.
Proof.
  induction s as [|c s IH]; [reflexivity|]. cbn [map_chars].
  rewrite underscore_idempotent, IH. reflexivity.
Qed.

Lemma map_chars_length f (s : string) :
  String.length (map_chars f s) = String.length s.
Proof.
  induction s as [|c s IH]; [reflexivity|]. cbn. rewrite IH. reflexivity.
Qed.

Lemma no_space_after (s : string) :
  all_chars (fun c => negb (Ascii.eqb c " ")) (map_chars underscore s) = true.
Proof.
  induction s as [|c s IH]; [reflexivity|]. cbn [map_chars all_chars].
  rewrite IH, andb_true_r. unfold underscore.
  destruct (Ascii.eqb c " ") eqn:H; [reflexivity|]. rewrite H. reflexivity.
Qed.

(** X27.  The table of a sheet has no space in the part that comes from the
    sheet, is as long as the two names and the underscore between them, and is
    the same for two sheets that differ only in spaces against underscores:
    the later of two such sheets replaces the table of the earlier. *)
Theorem sheets_differing_in_spaces_share_a_table
    (table_name sheet_name : string) :
  safe_table_name table_name (replace sheet_name " " "_")
  = safe_table_name table_name sheet_name
  /\ (exists tail,
        safe_table_name table_name sheet_name = table_name ++ "_" ++ tail
        /\ String.length tail = String.length sheet_name
        /\ all_chars (fun c => negb (Ascii.eqb c " ")) tail = true)
  /\ (all_chars (fun c => negb (Ascii.eqb c " ")) sheet_name = true ->
      safe_table_name table_name sheet_name
      = table_name ++ "_" ++ sheet_name).
Proof.
  unfold safe_table_name. rewrite !replace_space. split; [|split].
  - rewrite map_chars_idempotent. reflexivity.
  - exists (map_chars underscore sheet_name).
    split; [reflexivity|]. split; [apply map_chars_length|apply no_space_after].
  - intros H. do 2 f_equal. induction sheet_name as [|c s IH]; [reflexivity|].
    cbn [all_chars] in H. apply andb_true_iff in H. destruct H as [Hc Hs].
    cbn [map_chars]. rewrite (IH Hs). unfold underscore.
    apply negb_true_iff in Hc. rewrite Hc. reflexivity.
Qed.

End TableNames.

Section ProjectProperties.

Context {E : Type} (X : Externals E).

Variable settings : Settings.
Variable repr_list : list string -> string.
Variable makedirs : string -> E -> result unit * E.
Variable copy_upload : string -> E -> result unit * E.
Variable close_upload : E -> E.
Variable unbound_local : string -> string.
Variable read_csv : string -> E -> result DataFrame * E.
Variable read_json : string -> E -> result DataFrame * E.
Variable excel_sheet_names : string -> E -> result (list string) * E.
Variable read_excel : string -> string -> E -> result DataFrame * E.
Variable conn_run : string -> string -> DataFrame -> E -> result unit * E.
Variable conn_fetchall :
  string -> string -> E -> result (list (list PyVal)) * E.
Variable conn_fetchone :
  string -> string -> E -> result (option (list PyVal)) * E.
Variable fresh_id : Database -> nat.

Local Abbreviation ingest_file' :=
  (ingest_file X read_csv read_json excel_sheet_names read_excel conn_run).
Local Abbreviation project_schema' := (project_schema X unbound_local).
Local Abbreviation build_project' :=
  (build_project X settings repr_list makedirs copy_upload close_upload
     unbound_local read_csv read_json excel_sheet_names read_excel conn_run
     conn_fetchall conn_fetchone).
Local Abbreviation create_project' :=
  (create_project X settings repr_list makedirs copy_upload close_upload
     unbound_local read_csv read_json excel_sheet_names read_excel conn_run
     conn_fetchall conn_fetchone fresh_id).

Lemma keeps_save_upload_file filename u p :
  keeps_db
    (save_upload_file settings repr_list makedirs copy_upload close_upload
       filename u p).
Proof.
  unfold save_upload_file.
  apply keeps_bind; [apply keeps_lift|intros _].
  apply keeps_bind; [apply keeps_external|intros _].
  apply keeps_bind; [|intros _; apply keeps_ret].
  intros w. pose proof (keeps_external (copy_upload
    (PyPath.join (user_upload_dir settings u p) [filename])) w) as H.
  destruct (external _ w) as [r w1]. exact H.
Qed.

Lemma keeps_create_db_for_user u p :
  keeps_db (create_db_for_user X settings u p).
Proof.
  unfold create_db_for_user.
  apply keeps_bind; [apply keeps_external|intros _].
  apply keeps_bind; [apply keeps_external|intros _]. apply keeps_ret.
Qed.

Lemma create_db_for_user_path u p (w : World E) path :
  fst (create_db_for_user X settings u p w) = Ret path ->
  path = db_path_for settings u p.
Proof.
  unfold create_db_for_user, bind, external, ret.
  destruct (duckdb_connect X _ (ext w)) as [[[]|e] e1]; cbn [fst ext].
  - intros H. injection H as <-. reflexivity.
  - discriminate.
Qed.

Lemma keeps_generate_schema llm info :
  keeps_db (generate_schema X unbound_local llm info).
Proof.
  unfold generate_schema. apply keeps_bind; [apply keeps_lift|intros s].
  intros w. pose proof (keeps_external (llm_invoke X llm (schema_messages s)) w)
    as H.
  destruct (external _ w) as [[content|[]] w1]; cbn [snd] in *;
    try exact H.
  destruct (json_loads X content) as [v|[]]; exact H.
Qed.

Lemma keeps_project_schema u info : keeps_db (project_schema' u info).
Proof.
  unfold project_schema.
  apply keeps_bind; [apply keeps_first_active_config|intros [cfg|]];
    [|apply keeps_lift].
  apply keeps_bind; [apply keeps_lift|intros key].
  apply keeps_bind; [apply keeps_lift|intros llm].
  apply keeps_bind; [apply keeps_generate_schema|intros []];
    apply keeps_lift.
Qed.

Lemma keeps_ingest_file duck_db file_ext file_path :
  keeps_db (ingest_file' duck_db file_ext file_path).
Proof.
  unfold ingest_file.
  destruct (String.eqb file_ext ".csv"); [apply keeps_ingest_csv|].
  destruct (py_in file_ext _); [apply keeps_ingest_excel|].
  destruct (String.eqb file_ext ".json"); [apply keeps_ingest_json|].
  apply keeps_raise.
Qed.

(** What the body of the [try] does to the store: nothing when it raises,
    and one update of the new row when it returns. *)
Lemma build_project_effect filename (u : User) (new_project : Project)
    (w : World E) :
  exists r w',
    build_project' filename u new_project w = (r, w')
    /\ match r with
       | Ret p =>
           project_id p = project_id new_project
           /\ duckdb_file_path p
              = db_path_for settings (user_id u) (project_id new_project)
           /\ (exists schema, schema_json p = Some schema)
           /\ db w' = update_project p (db w)
       | Raise _ => db w' = db w
       end.
Proof.
  unfold build_project. unfold bind at 1.
  pose proof (keeps_save_upload_file filename (user_id u)
                (project_id new_project) w) as H1.
  destruct (save_upload_file _ _ _ _ _ _ _ _ w) as [[file_path|e] w1];
    cbn [fst snd] in *; [|eexists _, _; split; [reflexivity|exact H1]].
  unfold bind at 1.
  pose proof (keeps_create_db_for_user (user_id u) (project_id new_project) w1)
    as H2.
  pose proof (create_db_for_user_path (user_id u) (project_id new_project) w1)
    as Hp.
  destruct (create_db_for_user X settings _ _ w1) as [[path|e] w2];
    cbn [fst snd] in *;
    [|eexists _, _; split; [reflexivity|congruence]].
  specialize (Hp path eq_refl). subst path. unfold bind at 1.
  match goal with
  | |- context [with_duckdb X ?p ?b w2] =>
      assert (H3 : keeps_db (with_duckdb X p b));
        [|specialize (H3 w2); destruct (with_duckdb X p b w2) as [[s|e] w3]]
  end.
  - apply keeps_with_duckdb. intros duck_db.
    apply keeps_bind; [apply keeps_ingest_file|intros r].
    destruct r; try apply keeps_raise;
      (apply keeps_bind; [apply keeps_get_schema_info|intros info]);
      apply keeps_project_schema.
  - eexists _, _. split; [reflexivity|].
    cbn [fst snd project_id duckdb_file_path schema_json db] in *.
    repeat split; eauto. congruence.
  - eexists _, _. split; [reflexivity|]. cbn [fst snd] in *. congruence.
Qed.

Lemma projects_without_fresh (id : nat) (l : list Project) :
  (forall p, In p l -> project_id p <> id) ->
  filter (fun q => negb (Nat.eqb (project_id q) id)) l = l
  /\ forall r, map (fun q => if Nat.eqb (project_id q) id then r else q) l = l.
Proof.
  intros H. induction l as [|p l IH]; [split; reflexivity|].
  destruct IH as [IH1 IH2]; [intros q Hq; apply H; right; exact Hq|].
  assert (Hp : Nat.eqb (project_id p) id = false)
    by (apply Nat.eqb_neq, H; left; reflexivity).
  split; [|intros r]; cbn [filter map]; rewrite Hp; cbn [negb];
    [rewrite IH1|rewrite IH2]; reflexivity.
Qed.

Lemma chats_without_fresh (id : nat) (l : list Chat) :
  (forall c, In c l -> chat_project_id c <> id) ->
  filter (fun c => negb (Nat.eqb (chat_project_id c) id)) l = l
  /\ forall k, existsb (fun c => Nat.eqb (chat_project_id c) id
                                 && Nat.eqb (chat_id c) k) l = false.
Proof.
  intros H. induction l as [|c l IH]; [split; reflexivity|].
  destruct IH as [IH1 IH2]; [intros q Hq; apply H; right; exact Hq|].
  assert (Hc : Nat.eqb (chat_project_id c) id = false)
    by (apply Nat.eqb_neq, H; left; reflexivity).
  split; [|intros k]; cbn [filter existsb]; rewrite Hc; cbn [negb andb orb];
    [rewrite IH1; reflexivity|apply IH2].
Qed.

Lemma filter_all {A} (p : A -> bool) (l : list A) :
  (forall a, p a = true) -> filter p l = l.
Proof.
  intros H. induction l as [|a l IH]; [reflexivity|]. cbn [filter].
  rewrite H, IH. reflexivity.
Qed.

(** Deleting the row that was just added gives the store back. *)
Lemma delete_after_add (d : Database) (new_project : Project) :
  (forall p, In p (projects d) -> project_id p <> project_id new_project) ->
  (forall c, In c (chats d) -> chat_project_id c <> project_id new_project) ->
  delete_project_commit new_project (add_project new_project d) = d.
Proof.
  intros Hp Hc. unfold delete_project_commit, add_project.
  cbn [chats projects llm_configs messages].
  destruct (projects_without_fresh _ _ Hp) as [Hp1 _].
  destruct (chats_without_fresh _ _ Hc) as [Hc1 Hc2].
  rewrite filter_app, Hp1, Hc1. cbn [filter]. rewrite Nat.eqb_refl.
  cbn [negb]. rewrite app_nil_r.
  rewrite filter_all; [destruct d; reflexivity|].
  intros m. rewrite Hc2. reflexivity.
Qed.

Lemma update_after_add (d : Database) (new_project stored : Project) :
  (forall p, In p (projects d) -> project_id p <> project_id new_project) ->
  project_id stored = project_id new_project ->
  projects (update_project stored (add_project new_project d))
  = (projects d ++ [stored])%list.
Proof.
  intros Hp Hid. unfold update_project, add_project. cbn [projects].
  rewrite map_app, Hid.
  destruct (projects_without_fresh _ _ Hp) as [_ Hp2]. rewrite Hp2.
  cbn [map]. rewrite Nat.eqb_refl. reflexivity.
Qed.

Lemma create_project_run filename (u : User) (w : World E) :
  let new_project :=
    {| project_id := fresh_id (db w); duckdb_file_path := "";
       schema_json := None |} in
  let w1 := Build_World (add_project new_project (db w)) (ext w) (trace w) in
  create_project' filename u w
  = match build_project' filename u new_project w1 with
    | (Ret p, w2) => (Ret p, w2)
    | (Raise e, w2) =>
        (Raise (HTTPException 500
                  ("Failed to create project: " ++ str_exn X e)),
         Build_World (delete_project_commit new_project (db w2)) (ext w2)
           (trace w2))
    end.
Proof.
  cbn zeta. unfold create_project. unfold bind at 1. unfold try_except.
  destruct (build_project _ _ _ _ _ _ _ _ _ _ _ _ _ _ _ _ _ _)
    as [[p|e] w2]; reflexivity.
Qed.

(** X28.  [create_project] gives its caller a project or a 500, never another
    error, and a 500 leaves the relational store exactly as it was: the row
    added before the upload is looked at is deleted again. A returned project
    is the new last row, with the path of its own analytical store and a
    schema text. *)
Theorem create_project_returns_or_rolls_back (filename : string) (u : User)
    (w : World E) :
  (forall p, In p (projects (db w)) -> project_id p <> fresh_id (db w)) ->
  (forall c, In c (chats (db w)) -> chat_project_id c <> fresh_id (db w)) ->
  match fst (create_project' filename u w) with
  | Ret p =>
      project_id p = fresh_id (db w)
      /\ duckdb_file_path p
         = db_path_for settings (user_id u) (fresh_id (db w))
      /\ (exists schema, schema_json p = Some schema)
      /\ projects (db (snd (create_project' filename u w)))
         = (projects (db w) ++ [p])%list
  | Raise e =>
      (exists cause,
         e = HTTPException 500
               ("Failed to create project: " ++ str_exn X cause))
      /\ db (snd (create_project' filename u w)) = db w
  end.
Proof.
  intros Hp Hc. rewrite create_project_run. cbn zeta.
  match goal with
  | |- context [build_project' filename u ?np ?w1] =>
      destruct (build_project_effect filename u np w1) as (r & w2 & -> & H)
  end.
  destruct r as [p|e]; cbn [fst snd db project_id] in *.
  - destruct H as (Hid & Hpath & Hs & Hdb).
    repeat (split; [assumption|]). rewrite Hdb.
    apply update_after_add; assumption.
  - split; [eauto|]. rewrite H. apply delete_after_add; assumption.
Qed.

(** X29.  A file whose extension passes [validate_file] but is none of the
    four that [create_project] can ingest is accepted by the validation and
    refused by the handler in every world: the request ends in a 500 and the
    project is not created. *)
Theorem accepted_extension_without_ingestion_fails (filename : string)
    (u : User) (w : World E) :
  py_in (get_file_extension filename) (ALLOWED_EXTENSIONS settings) = true ->
  py_in (get_file_extension filename) [".csv"; ".xlsx"; ".xls"; ".json"]
  = false ->
  validate_file settings repr_list filename = Ret true
  /\ exists cause,
       fst (create_project' filename u w)
       = Raise (HTTPException 500
                  ("Failed to create project: " ++ str_exn X cause)).
Proof.
  intros Hok Hno. split.
  - unfold validate_file. unfold get_file_extension in Hok. rewrite Hok.
    reflexivity.
  - rewrite create_project_run. cbn zeta.
    match goal with
    | |- context [build_project' filename u ?np ?w1] =>
        assert (Hraise : exists e, fst (build_project' filename u np w1)
                                   = Raise e);
          [|destruct (build_project' filename u np w1) as [[p|e] w2];
            cbn [fst] in *;
            [destruct Hraise as [e He]; discriminate He|eauto]]
    end.
    unfold build_project. unfold bind at 1.
    destruct (save_upload_file _ _ _ _ _ _ _ _ _) as [[file_path|e] w1];
      [|eexists; reflexivity].
    unfold bind at 1.
    destruct (create_db_for_user X settings _ _ w1) as [[path|e] w2];
      [|eexists; reflexivity].
    unfold bind at 1.
    match goal with
    | |- context [with_duckdb X path ?b w2] =>
        assert (Hw : exists e, fst (with_duckdb X path b w2) = Raise e);
          [|destruct (with_duckdb X path b w2) as [[s|e] w3];
            cbn [fst] in *;
            [destruct Hw as [e He]; discriminate He|eauto]]
    end.
    unfold with_duckdb. unfold bind at 1.
    destruct (enter X _ w2) as [[duck_db|e] w3];
      [|eexists; reflexivity].
    unfold bind at 1. unfold ingest_file.
    cbn [py_in existsb] in Hno.
    apply orb_false_iff in Hno. destruct Hno as [Hcsv Hno].
    apply orb_false_iff in Hno. destruct Hno as [Hxlsx Hno].
    apply orb_false_iff in Hno. destruct Hno as [Hxls Hno].
    apply orb_false_iff in Hno. destruct Hno as [Hjson _].
    rewrite Hcsv. cbn [py_in existsb]. rewrite Hxlsx, Hxls, Hjson.
    cbn [orb raise fst]. eauto.
Qed.

(** X30.  A model that is not there or not usable does not fail the creation
    of a project: without an active configuration, and with one whose model
    answers with text that is not JSON, the schema stored is the raw table
    metadata under the key [tables]. *)
Theorem unusable_model_leaves_raw_schema (u : User) (schema_info : PyVal)
    (w : World E) :
  (fst (first_active_config (user_id u) w) = Ret None
   \/ exists cfg key llm info content e' msg,
        fst (first_active_config (user_id u) w) = Ret (Some cfg)
        /\ fernet_decrypt X (encrypted_api_key cfg) = Ret key
        /\ LLMService (provider cfg) key = Ret llm
        /\ json_dumps X (Some 2) schema_info = Ret info
        /\ llm_invoke X llm (schema_messages info) (ext w)
           = (Ret content, e')
        /\ json_loads X content = Raise (JSONDecodeError msg)) ->
  fst (project_schema' u schema_info w) = raw_schema X schema_info.
Proof.
  unfold project_schema, first_active_config. cbn [fst].
  intros [H|(cfg & key & llm & info & content & e' & msg
             & H & Hk & Hl & Hd & Hi & Hj)];
    injection H as H; unfold bind at 1; rewrite H; [reflexivity|].
  unfold bind at 1, lift at 1. rewrite Hk.
  unfold bind at 1, lift at 1. rewrite Hl.
  unfold bind at 1. unfold generate_schema, bind, lift, external.
  cbn [ext]. rewrite Hd, Hi, Hj. reflexivity.
Qed.

End ProjectProperties.

(** ** More runs of the scripted world *)

Module ScriptedRuns2.
Import Scripted Scripted2 Scripted3.


Lemma execute_with_repair_pairs_statement_and_outcome_witness :
  execute_with_repair X gpt connected "SELEC id FROM data" (PDict [])
    (world [config7] [Ret "```sql SELECT id FROM data ```"] [])
  = (Ret ("SELECT id FROM data",
          QuerySuccess [[("id", PInt 1)]; [("id", PInt 2)]; [("id", PInt 3)]]
            ["id"] 3),
     Build_World (store [config7]) {| llm_tape := []; engine_tape := [] |}
       [EvExecute "SELEC id FROM data";
        EvFixSql "SELEC id FROM data" "Parser Error: syntax error at X";
        EvExecute "SELECT id FROM data"]).
Proof.
  exact (execute_with_repair_pairs_statement_and_outcome X gpt
           "user_7_project_3.duckdb" "user_7_project_3.duckdb"
           "SELEC id FROM data" (PDict []) "[...]"
           (world [config7] [Ret "```sql SELECT id FROM data ```"] [])
           eq_refl).
Defined.

Lemma accepted_question_transcript_witness :
  let w := world [config7] [Ret "SELECT id FROM data"; Ret numeric_chart_json]
             [] in
  let run := query_data X (ask "Which ids are there?") alice w in
  chat_found (ask "Which ids are there?") alice w chat1
  /\ config_found alice w (Some config7)
  /\ exists replies,
       messages (db (snd run))
       = user_turn chat1 "Which ids are there?" :: replies
       /\ length replies <= 2
       /\ forall m, In m replies ->
            role m = "assistant" /\ msg_chat_id m = 1.
Proof.
  cbn zeta. split; [reflexivity|]. split; [reflexivity|].
  destruct (accepted_question_transcript X
              (ask "Which ids are there?") alice
              (world [config7]
                 [Ret "SELECT id FROM data"; Ret numeric_chart_json] [])
              chat1 config7 eq_refl eq_refl)
    as (replies & Hm & Hn & Hall & _).
  exists replies. split; [exact Hm|]. split; [exact Hn | exact Hall].
Defined.

Lemma text_to_sql_reads_last_five_witness :
  let recent :=
    [("user", PStr "q2"); ("assistant", PStr "a2"); ("user", PStr "q3");
     ("assistant", PStr "a3"); ("user", PStr "q4")] in
  text_to_sql X gpt "q4" (PDict []) (("assistant", PStr "a1") :: recent)
    (world [config7] [Ret "SELECT 1"] [])
  = text_to_sql X gpt "q4" (PDict []) recent
      (world [config7] [Ret "SELECT 1"] []).
Proof.
  cbn zeta. apply (text_to_sql_reads_last_five X). reflexivity.
Defined.

Lemma foreign_chat_is_refused_witness :
  query_data X (ask "How many rows are there?") bob (world [config7] [] [])
  = (Raise (HTTPException 404 "Chat not found"), world [config7] [] []).
Proof.
  apply (foreign_chat_is_refused X).
  intros c [<-|[]] _. discriminate.
Defined.

Lemma configuration_defect_fails_early_witness :
  fst (query_data X (ask "How many rows are there?") alice
         (world [config_mistral] [] []))
  = Raise (HTTPException 500 "Unsupported provider: mistral").
Proof.
  refine (proj1 (proj1 (proj2
    (configuration_defect_fails_early X (ask "How many rows are there?")
       alice (world [config_mistral] [] []) chat1 (Some project3)
       config_mistral eq_refl eq_refl eq_refl)) "gAAAA" eq_refl _ _ _));
    discriminate.
Defined.

Lemma unopened_store_fails_request_witness :
  fst (query_data X_unreachable (ask "How many rows are there?") alice
         (world [config7] [Ret "SELECT id FROM data"] []))
  = Raise (HTTPException 500
             "IO Error: Cannot open file: No such file or directory").
Proof.
  refine (proj1
    (unopened_store_fails_request X_unreachable
       (ask "How many rows are there?") alice
       (world [config7] [Ret "SELECT id FROM data"] [])
       chat1 project3 gpt (PDict []) "[...]" "SELECT id FROM data"
       (OtherError "IOException"
          "IO Error: Cannot open file: No such file or directory")
       {| llm_tape := []; engine_tape := [] |}
       {| llm_tape := []; engine_tape := [] |} _ eq_refl eq_refl)).
  apply ScriptedRuns.resolved; reflexivity.
Defined.

Lemma non_object_interpretation_fails_request_witness :
  fst (query_data X_listing (ask "How many rows are there?") alice
         (world [config7] [Ret "SELECT id FROM data"; Ret "[42]"] []))
  = Raise (HTTPException 500 "'list' object has no attribute 'get'").
Proof.
  refine (proj1
    (non_object_interpretation_fails_request X_listing
       (ask "How many rows are there?") alice
       (world [config7] [Ret "SELECT id FROM data"; Ret "[42]"] [])
       chat1 project3 gpt (PDict []) "[...]" "SELECT id FROM data"
       ids_frame "[...]" "[42]" (PList [PInt 42])
       {| llm_tape := [Ret "[42]"]; engine_tape := [] |}
       {| llm_tape := [Ret "[42]"]; engine_tape := [] |}
       {| llm_tape := [Ret "[42]"]; engine_tape := [] |}
       {| llm_tape := []; engine_tape := [] |}
       _ eq_refl eq_refl eq_refl eq_refl eq_refl eq_refl _)).
  - constructor; try reflexivity.
    exists config7, "gAAAA". repeat split.
  - intros d. discriminate.
Defined.


Lemma named_file_is_judged_by_its_lowered_extension_witness :
  get_file_extension "Sales.2024.CSV" = ".csv"
  /\ validate_file default_settings repr_list "Sales.2024.CSV" = Ret true.
Proof.
  destruct (named_file_is_judged_by_its_lowered_extension default_settings
              repr_list "Sales.2024" "CSV")
    as [He Hv]; try reflexivity; try discriminate.
  split; [exact He|]. apply Hv. left. reflexivity.
Defined.

Lemma file_without_extension_is_refused_witness :
  get_file_extension ".json" = ""
  /\ exists detail,
       validate_file default_settings repr_list ".json"
       = Raise (HTTPException 400 detail).
Proof.
  destruct (file_without_extension_is_refused default_settings repr_list
              ".json" "json" eq_refl (or_intror eq_refl))
    as (He & Hv & Hd).
  split; [exact He|]. eexists. exact (Hv Hd).
Defined.

Lemma store_path_determines_project_witness :
  fst (create_db_for_user X default_settings 7 3 (world [] [] []))
  = Ret "./data/duckdb_files/user_7_project_3.duckdb".
Proof.
  exact (proj2 (store_path_determines_project X default_settings 7 3 7 3)
           (world [] [] []) {| llm_tape := []; engine_tape := [] |} eq_refl).
Defined.

Lemma save_upload_file_target_witness :
  fst (save_upload_file default_settings repr_list makedirs copy_upload
         close_upload "/srv/app/main.csv" 7 3 (world [] [] []))
  = Ret "/srv/app/main.csv".
Proof.
  destruct (proj2 (save_upload_file_target default_settings repr_list
                     makedirs copy_upload close_upload "/srv/app/main.csv"
                     7 3 (world [] [] [])
                     {| llm_tape := []; engine_tape := [] |}
                     {| llm_tape := []; engine_tape := [] |} (Ret tt))
              eq_refl eq_refl eq_refl) as [_ H].
  destruct (H eq_refl) as (Hr & Habs & _).
  rewrite Hr, (Habs eq_refl). reflexivity.
Defined.

Lemma create_llm_config_leaves_one_active_witness :
  active_configs 7
    (db (snd (create_llm_config encrypt "google" "sk-1" alice
                (world [config7] [] []))))
  = [{| cfg_user_id := 7; provider := "google";
        encrypted_api_key := "gAAAAsk-1"; is_active := 1 |}].
Proof.
  exact (proj1 (proj2
    (create_llm_config_leaves_one_active encrypt "google" "sk-1" alice
       (world [config7] [] []) "gAAAAsk-1"
       {| llm_tape := []; engine_tape := [] |} eq_refl))).
Defined.

Lemma created_config_serves_next_question_witness :
  let w' := snd (create_llm_config encrypt "google" "sk-1" alice
                   (world [] [] [])) in
  let run := query_data X (ask "How many rows are there?") alice w' in
  (forall detail, fst run <> Raise (HTTPException 400 detail))
  /\ exists replies,
       messages (db (snd run))
       = user_turn chat1 "How many rows are there?" :: replies
       /\ length replies <= 2.
Proof.
  exact (created_config_serves_next_question X encrypt "google" "sk-1"
           (ask "How many rows are there?") alice (world [] [] [])
           "gAAAAsk-1" {| llm_tape := []; engine_tape := [] |} chat1
           eq_refl eq_refl).
Defined.

Lemma deleted_chat_is_unknown_afterwards_witness :
  query_data X (ask "How many rows are there?") alice
    (snd (delete_chat 1 alice (world [config7] [] [])))
  = (Raise (HTTPException 404 "Chat not found"),
     snd (delete_chat 1 alice (world [config7] [] []))).
Proof.
  exact (proj2 (proj2
    (deleted_chat_is_unknown_afterwards X 1 alice (world [config7] [] [])
       eq_refl) alice) (ask "How many rows are there?") eq_refl).
Defined.

Lemma delete_chat_spares_other_chats_witness :
  select_last_messages X (db (snd (delete_chat 1 alice two_chats))) 2
  = select_last_messages X (db two_chats) 2.
Proof.
  refine (proj1 (delete_chat_spares_other_chats X 1 alice two_chats 2 _)).
  discriminate.
Defined.

Lemma foreign_chat_cannot_be_read_or_deleted_witness :
  delete_chat 1 bob two_chats
  = (Raise (HTTPException 404 "Chat not found"), two_chats).
Proof.
  refine (proj2 (foreign_chat_cannot_be_read_or_deleted 1 bob two_chats _)).
  intros c [<-|[<-|[]]] _; discriminate.
Defined.

Lemma generate_schema_parses_reply_verbatim_witness :
  exists res,
    generate_schema X unbound_local gpt (PList [])
      (world [] [Ret "Here is the schema."] [])
    = (Ret res, world [] [] [])
    /\ forall err raw, res = SchemaUnparsed err raw ->
         raw = "Here is the schema.".
Proof.
  destruct (generate_schema_parses_reply_verbatim X unbound_local gpt
              (PList []) (world [] [Ret "Here is the schema."] [])
              "[...]" "Here is the schema."
              {| llm_tape := []; engine_tape := [] |} eq_refl eq_refl)
    as (res & Hrun & _ & Hraw & _).
  exists res. split; [exact Hrun|].
  intros err raw H. exact (proj1 (Hraw err raw H)).
Defined.

Lemma ingest_excel_loads_one_table_per_sheet_witness :
  let run :=
    ingest_excel X sheet_names read_sheet run_statement connected "book.xlsx"
      "data" (world [] [] []) in
  fst run = Ret (IngestSheets [("data_Q1_sales", "Q1 sales", 3, ["id"]);
                               ("data_Q1_sales", "Q1_sales", 3, ["id"])])
  /\ sheets_loaded read_sheet run_statement "user_7_project_3.duckdb"
       "book.xlsx" "data" ["Q1 sales"; "Q1_sales"]
       {| llm_tape := []; engine_tape := [] |} (ext (snd run))
       [("data_Q1_sales", "Q1 sales", 3, ["id"]);
        ("data_Q1_sales", "Q1_sales", 3, ["id"])].
Proof.
  split; [reflexivity|].
  exact (proj1 (proj1
    (ingest_excel_loads_one_table_per_sheet X sheet_names read_sheet
       run_statement "user_7_project_3.duckdb" "user_7_project_3.duckdb"
       "book.xlsx" "data" (world [] [] [])
       ["Q1 sales"; "Q1_sales"] {| llm_tape := []; engine_tape := [] |}
       [("data_Q1_sales", "Q1 sales", 3, ["id"]);
        ("data_Q1_sales", "Q1_sales", 3, ["id"])]
       eq_refl)) eq_refl).
Defined.

Lemma create_project_returns_or_rolls_back_witness :
  exists p,
    fst (create X_describing "sales.csv" alice
           (world [config7] [Ret answer_json] []))
    = Ret p
    /\ projects (db (snd (create X_describing "sales.csv" alice
                            (world [config7] [Ret answer_json] []))))
       = [project3; p].
Proof.
  assert (Hrun :
    fst (create X_describing "sales.csv" alice
           (world [config7] [Ret answer_json] []))
    = Ret {| project_id := 4;
             duckdb_file_path := "./data/duckdb_files/user_7_project_4.duckdb";
             schema_json := Some "[...]" |}) by reflexivity.
  pose proof
    (create_project_returns_or_rolls_back X_describing default_settings
       repr_list makedirs copy_upload close_upload unbound_local read_frame
       read_frame sheet_names read_sheet run_statement fetchall fetchone
       next_id "sales.csv" alice (world [config7] [Ret answer_json] []))
    as H.
  unfold create in *. rewrite Hrun in H.
  eexists. split; [reflexivity|]. apply H.
  - intros p [<-|[]]. discriminate.
  - intros c [<-|[]]. discriminate.
Defined.

Lemma accepted_extension_without_ingestion_fails_witness :
  validate_file default_settings repr_list "backup.sqlite" = Ret true
  /\ exists cause,
       fst (create X "backup.sqlite" alice (world [config7] [] []))
       = Raise (HTTPException 500
                  ("Failed to create project: " ++ str_exn X cause)).
Proof.
  exact (accepted_extension_without_ingestion_fails X default_settings
           repr_list makedirs copy_upload close_upload unbound_local
           read_frame read_frame sheet_names read_sheet run_statement
           fetchall fetchone next_id "backup.sqlite" alice
           (world [config7] [] []) eq_refl eq_refl).
Defined.

Lemma unusable_model_leaves_raw_schema_witness :
  fst (project_schema X unbound_local alice (PList []) (world [] [] []))
  = Ret "[...]".
Proof.
  exact (unusable_model_leaves_raw_schema X unbound_local alice (PList [])
           (world [] [] []) (or_introl eq_refl)).
Defined.

End ScriptedRuns2.
